(** * Smart Task Manager: the cache-backed AI wrapper and its feature functions

    A shallow embedding of [server/utils/cacheManager.js] and
    [server/utils/aiUtils.js]: the time-expiring [CacheManager], the
    [callGeminiAPI] wrapper and the five feature functions built on it,
    followed by the properties of the specification.

    Conventions of the embedding.
    - JavaScript values are terms of [jsval]; numbers are integers ([Z]).
    - Strings are Rocq strings, one [ascii] per code unit (code units below
      256); white space and case mapping are those of that range.
    - Asynchronous code is written in a state-and-exception monad over the
      process-wide [world]: the clock, the short- and medium-term stores and
      the number of requests sent so far to the remote endpoint.  Code
      between two awaits runs at one clock reading; a request takes the
      time the endpoint says, a query of the database none.
    - What the code takes from outside is gathered in the class [Platform]:
      the MD5 digest, the remote endpoint, the database, [JSON.parse], the
      formatting of dates, the text of the prompts and the four fallbacks
      that re-read a prompt.  Every property is proved for every platform.
    - Dates are milliseconds since the epoch; priorities and statuses are
      the enumerations of the database schema.

    Layout: strings; values and the process state; records and arrays; the
    code of aiUtils.js; the vocabulary of the properties and worked
    scenarios; then the properties, store first, wrapper next, then each
    feature, and their worked instances. *)

From Stdlib Require Import ZArith String Ascii List Permutation Sorted Lia Bool.
From stdpp Require Import gmap strings list.

Set Warnings "-register-all".

Local Open Scope string_scope.
Local Open Scope Z_scope.

(** ** Strings *)

Module Str.

(** White space as [String.prototype.trim] sees it, below code unit 256. *)
Definition is_ws (c : ascii) : bool :=
  let n := nat_of_ascii c in
  ((9 <=? n) && (n <=? 13) || (n =? 32) || (n =? 160))%nat.

(** The line terminators that [.] of a regular expression does not match. *)
Definition is_line_terminator (c : ascii) : bool :=
  let n := nat_of_ascii c in ((n =? 10) || (n =? 13))%nat.

Definition is_empty (s : string) : bool :=
  match s with EmptyString => true | String _ _ => false end.

Fixpoint trimStart (s : string) : string :=
  match s with
  | EmptyString => EmptyString
  | String c r => if is_ws c then trimStart r else s
  end.

Fixpoint trimEnd (s : string) : string :=
  match s with
  | EmptyString => EmptyString
  | String c r =>
      let r' := trimEnd r in
      if is_ws c && is_empty r' then EmptyString else String c r'
  end.

Definition trim (s : string) : string := trimEnd (trimStart s).

Definition startsWith (s p : string) : bool := String.prefix p s.

(** [s.includes(sub)] *)
Fixpoint includes (s sub : string) : bool :=
  String.prefix sub s ||
  match s with
  | EmptyString => false
  | String _ r => includes r sub
  end.

Definition lower_ascii (c : ascii) : ascii :=
  let n := nat_of_ascii c in
  if ((65 <=? n) && (n <=? 90))%nat then ascii_of_nat (n + 32)
  else if ((192 <=? n) && (n <=? 222) && negb (n =? 215))%nat
       then ascii_of_nat (n + 32)
  else c.

Fixpoint toLowerCase (s : string) : string :=
  match s with
  | EmptyString => EmptyString
  | String c r => String (lower_ascii c) (toLowerCase r)
  end.

(** [l.join(sep)] *)
Fixpoint join (sep : string) (l : list string) : string :=
  match l with
  | [] => EmptyString
  | [x] => x
  | x :: r => x +:+ sep +:+ join sep r
  end.

(** [s.split(c)] for a one-character separator. *)
Fixpoint split (c : ascii) (s : string) : list string :=
  match s with
  | EmptyString => [EmptyString]
  | String a r =>
      if Ascii.eqb a c then EmptyString :: split c r
      else match split c r with
           | [] => [String a EmptyString]
           | x :: xs => String a x :: xs
           end
  end.

(** Everything from the first occurrence of [c] on. *)
Fixpoint from_first (c : ascii) (s : string) : option string :=
  match s with
  | EmptyString => None
  | String a r => if Ascii.eqb a c then Some s else from_first c r
  end.

(** Everything up to and including the last occurrence of [c]. *)
Fixpoint through_last (c : ascii) (s : string) : option string :=
  match s with
  | EmptyString => None
  | String a r =>
      match through_last c r with
      | Some t => Some (String a t)
      | None => if Ascii.eqb a c then Some (String a EmptyString) else None
      end
  end.

(** [s.match(/O.*C/s)] and [s.match(/O[\s\S]*C/)] for an opening
    character [o] and a closing character [c]: the match starts at the
    first [o] and, being greedy, runs to the last [c] after it. *)
Definition match_enclosed (o c : ascii) (s : string) : option string :=
  match from_first o s with
  | Some t => through_last c t
  | None => None
  end.

(** The double-quote character and the line feed. *)
Definition dquote : ascii := ascii_of_nat 34.
Definition newline : ascii := ascii_of_nat 10.

(** The longest run without a double quote at the head of [s], and
    whether a double quote follows it. *)
Fixpoint unquoted_run (s : string) : string * bool :=
  match s with
  | EmptyString => (EmptyString, false)
  | String a r =>
      if Ascii.eqb a dquote then (EmptyString, true)
      else let '(run, closed) := unquoted_run r in (String a run, closed)
  end.

(** Group 1 of the leftmost match, in [s], of the pattern: a double
    quote, one or more characters other than a double quote (the group),
    a double quote. *)
Fixpoint first_quoted (s : string) : option string :=
  match s with
  | EmptyString => None
  | String a r =>
      if Ascii.eqb a dquote then
        match unquoted_run r with
        | (String b run, true) => Some (String b run)
        | _ => first_quoted r
        end
      else first_quoted r
  end.

Fixpoint no_line_terminator (s : string) : bool :=
  match s with
  | EmptyString => true
  | String a r => negb (is_line_terminator a) && no_line_terminator r
  end.

(** [s] without its last character, and that character. *)
Fixpoint unsnoc (s : string) : option (string * ascii) :=
  match s with
  | EmptyString => None
  | String a r =>
      match unsnoc r with
      | None => Some (EmptyString, a)
      | Some (i, l) => Some (String a i, l)
      end
  end.

(** Replacing a match of: start, double quote, [(.+)], double quote,
    end, by its group: a string that starts and ends with a double quote
    around one or more characters, none a line terminator, loses the two
    quotes. *)
Definition strip_outer_quotes (s : string) : string :=
  match s with
  | String a r =>
      if Ascii.eqb a dquote then
        match unsnoc r with
        | Some (String b inner, l) =>
            if Ascii.eqb l dquote && no_line_terminator (String b inner)
            then String b inner else s
        | _ => s
        end
      else s
  | EmptyString => s
  end.

(** Removing a final full stop: the replacement of [/\.$/] by the
    empty string. *)
Definition strip_final_dot (s : string) : string :=
  match unsnoc s with
  | Some (i, l) => if Ascii.eqb l "."%char then i else s
  | None => s
  end.

Fixpoint drop (n : nat) (s : string) : string :=
  match n, s with
  | O, _ => s
  | S n', String _ r => drop n' r
  | S _, EmptyString => EmptyString
  end.

(** Removing a literal prefix [p]: the replacement of [/^p/] by the
    empty string. *)
Definition strip_prefix (p s : string) : string :=
  if String.prefix p s then drop (String.length p) s else s.

End Str.

(** ** JavaScript values, exceptions and the process state *)

Inductive jsval : Type :=
| VUndefined
| VNull
| VBool (b : bool)
| VNum (n : Z)
| VStr (s : string)
| VArr (items : list jsval)
| VObj (fields : list (string * jsval)).

(** The truth value JavaScript gives a value in [if (v)] and [!v]. *)
Definition truthy (v : jsval) : bool :=
  match v with
  | VUndefined | VNull => false
  | VBool b => b
  | VNum n => negb (n =? 0)
  | VStr s => negb (Str.is_empty s)
  | VArr _ | VObj _ => true
  end.

Inductive exn : Type :=
| TypeError (what : string)
| SyntaxError (what : string)
| ReferenceError (what : string)
| Error (message : string)
| RequestError (status : Z).

Inductive outcome (A : Type) : Type :=
| Returned (a : A)
| Thrown (e : exn).
Arguments Returned {A} a.
Arguments Thrown {A} e.

(** *** cacheManager.js *)

Module CacheManager.

Record entry : Type := { value : jsval; expiry : Z }.

(** [this.cache] and [this.ttl]. *)
Record t : Type := { cache : gmap string entry; ttl : Z }.

(** [new CacheManager(ttl)] *)
Definition new (ttl : Z) : t := {| cache := ∅; ttl := ttl |}.

(** [get(key)] when [Date.now()] reads [now]: the value returned and the
    store afterwards. *)
Definition get (key : string) (now : Z) (c : t) : jsval * t :=
  match cache c !! key with
  | None => (VNull, c)
  | Some e =>
      if now >? expiry e
      then (VNull, {| cache := base.delete key (cache c); ttl := ttl c |})
      else (value e, c)
  end.

(** [set(key, value, customTtl)] when [Date.now()] reads [now];
    [customTtl] is [None] for an omitted argument.  [customTtl || this.ttl]
    takes the default for an omitted and for a zero [customTtl]. *)
Definition set (key : string) (v : jsval) (customTtl : option Z)
    (now : Z) (c : t) : t :=
  let ttl' :=
    match customTtl with
    | Some x => if x =? 0 then ttl c else x
    | None => ttl c
    end in
  {| cache := <[key := {| value := v; expiry := now + ttl' |}]> (cache c);
     ttl := ttl c |}.

Definition delete (key : string) (c : t) : t :=
  {| cache := base.delete key (cache c); ttl := ttl c |}.

Definition cleanup (now : Z) (c : t) : t :=
  {| cache := filter (fun kv => ¬ (now > expiry kv.2)) (cache c);
     ttl := ttl c |}.

Definition clear (c : t) : t := {| cache := ∅; ttl := ttl c |}.

(** [this.cache.has(key)] *)
Definition has (key : string) (c : t) : bool :=
  match cache c !! key with Some _ => true | None => false end.

End CacheManager.

(** The process: the clock, the two stores that aiUtils.js uses (the
    long-term store is created but never read or written) and the number of
    requests posted so far. *)
Record world : Type := {
  now : Z;
  shortTermCache : CacheManager.t;
  mediumTermCache : CacheManager.t;
  requests : nat
}.

(** The state of a process that has just started, at time [t0]. *)
Definition boot (t0 : Z) : world :=
  {| now := t0;
     shortTermCache := CacheManager.new 300000;
     mediumTermCache := CacheManager.new 3600000;
     requests := 0 |}.

(** Time passing between two calls. *)
Definition elapse (d : Z) (w : world) : world :=
  {| now := now w + d;
     shortTermCache := shortTermCache w;
     mediumTermCache := mediumTermCache w;
     requests := requests w |}.

(** *** Computations that may throw and that act on the process state *)

Definition M (A : Type) : Type := world -> outcome A * world.

Definition ret {A} (a : A) : M A := fun w => (Returned a, w).

Definition throw {A} (e : exn) : M A := fun w => (Thrown e, w).

Definition bind {A B} (m : M A) (k : A -> M B) : M B :=
  fun w =>
    match m w with
    | (Returned a, w') => k a w'
    | (Thrown e, w') => (Thrown e, w')
    end.

(** [try { m } catch (e) { h e }] *)
Definition try_catch {A} (m : M A) (h : exn -> M A) : M A :=
  fun w =>
    match m w with
    | (Returned a, w') => (Returned a, w')
    | (Thrown e, w') => h e w'
    end.

(** A computation without effect that may throw. *)
Definition lift {A} (o : outcome A) : M A := fun w => (o, w).

Notation "'let*' x ':=' m 'in' k" := (bind m (fun x => k))
  (at level 10, x pattern, m at level 100, k at level 200).

Definition shortGet (key : string) : M jsval :=
  fun w =>
    let '(v, c) := CacheManager.get key (now w) (shortTermCache w) in
    (Returned v,
     {| now := now w; shortTermCache := c;
        mediumTermCache := mediumTermCache w; requests := requests w |}).

Definition shortSet (key : string) (v : jsval) (ttl : Z) : M unit :=
  fun w =>
    (Returned tt,
     {| now := now w;
        shortTermCache :=
          CacheManager.set key v (Some ttl) (now w) (shortTermCache w);
        mediumTermCache := mediumTermCache w; requests := requests w |}).

Definition mediumGet (key : string) : M jsval :=
  fun w =>
    let '(v, c) := CacheManager.get key (now w) (mediumTermCache w) in
    (Returned v,
     {| now := now w; shortTermCache := shortTermCache w;
        mediumTermCache := c; requests := requests w |}).

Definition mediumSet (key : string) (v : jsval) (ttl : Z) : M unit :=
  fun w =>
    (Returned tt,
     {| now := now w; shortTermCache := shortTermCache w;
        mediumTermCache :=
          CacheManager.set key v (Some ttl) (now w) (mediumTermCache w);
        requests := requests w |}).

(** [new Date()] and [Date.now()] *)
Definition clock : M Z := fun w => (Returned (now w), w).

(** *** Property access *)

Fixpoint assoc (k : string) (fs : list (string * jsval)) : jsval :=
  match fs with
  | [] => VUndefined
  | (k', v) :: r => if String.eqb k' k then v else assoc k r
  end.

(** [v.k] for a name [k] that no prototype defines: reading a member of
    [null] or [undefined] throws, a value without the member gives
    [undefined]. *)
Definition member (k : string) (v : jsval) : outcome jsval :=
  match v with
  | VUndefined | VNull => Thrown (TypeError ("Cannot read properties: " +:+ k))
  | VObj fs => Returned (assoc k fs)
  | _ => Returned VUndefined
  end.

(** [v[0]] *)
Definition item0 (v : jsval) : outcome jsval :=
  match v with
  | VUndefined | VNull => Thrown (TypeError "Cannot read properties: 0")
  | VArr (x :: _) => Returned x
  | VStr (String a _) => Returned (VStr (String a EmptyString))
  | VObj fs => Returned (assoc "0" fs)
  | _ => Returned VUndefined
  end.

(** The receiver of a string method: calling [trim], [match] or [split] on
    anything but a string throws. *)
Definition as_string (v : jsval) : outcome string :=
  match v with
  | VStr s => Returned s
  | _ => Thrown (TypeError "not a function")
  end.

(** ** The records of the persistence layer (prisma/schema.prisma) *)

Inductive TaskStatus : Type := PENDING | IN_PROGRESS | COMPLETED | CANCELLED.

Inductive TaskPriority : Type := LOW | MEDIUM | HIGH | URGENT.

Record person : Type := { firstName : string; lastName : string }.

(** A task as a query returns it.  [title], [description], [category],
    [dueDate], [createdBy] and [assignedTo] are [None] when null or not
    selected; dates are milliseconds since the epoch. *)
Record task : Type := {
  id : string;
  title : option string;
  description : option string;
  status : TaskStatus;
  priority : TaskPriority;
  category : option string;
  dueDate : option Z;
  createdAt : Z;
  createdBy : option person;
  assignedTo : option person
}.

(** The two queries of aiUtils.js: the tasks a user created, and the tasks
    a user created or is assigned; newest first, at most [take]. *)
Inductive query : Type :=
| CreatedBy (userId : string) (take : nat)
| CreatedByOrAssignedTo (userId : string) (take : nat).

Definition status_name (s : TaskStatus) : string :=
  match s with
  | PENDING => "PENDING" | IN_PROGRESS => "IN_PROGRESS"
  | COMPLETED => "COMPLETED" | CANCELLED => "CANCELLED"
  end.

Definition priority_name (p : TaskPriority) : string :=
  match p with
  | LOW => "LOW" | MEDIUM => "MEDIUM" | HIGH => "HIGH" | URGENT => "URGENT"
  end.

(** [task.status !== 'COMPLETED' && task.status !== 'CANCELLED'] *)
Definition is_active (t : task) : bool :=
  match status t with
  | COMPLETED | CANCELLED => false
  | _ => true
  end.

(** [task.category] when it is truthy: a category that is not empty. *)
Definition category_of (t : task) : option string :=
  match category t with
  | Some c => if Str.is_empty c then None else Some c
  | None => None
  end.

(** ** Arrays *)

(** [Array.prototype.sort(cmp)]: the sort is stable, and for a comparator
    that orders the elements consistently its result is the one stable
    arrangement; it is computed here by insertion from the right. *)
Fixpoint insert_by {A} (cmp : A -> A -> Z) (x : A) (l : list A) : list A :=
  match l with
  | [] => [x]
  | y :: r => if cmp x y <=? 0 then x :: l else y :: insert_by cmp x r
  end.

Definition sort_by {A} (cmp : A -> A -> Z) (l : list A) : list A :=
  foldr (insert_by cmp) [] l.

(** [[...new Set(l)]]: the distinct elements in order of first occurrence. *)
Fixpoint distinct (l : list string) : list string :=
  match l with
  | [] => []
  | x :: r => x :: List.filter (fun y => negb (String.eqb y x)) (distinct r)
  end.

(** [l.find(p)] *)
Definition find_first {A} (p : A -> bool) (l : list A) : option A :=
  List.find p l.

(** [l.includes(x)] on strings *)
Definition mem (x : string) (l : list string) : bool :=
  existsb (String.eqb x) l.

(** ** Objects used as counters *)

(** The functions that an object literal inherits from
    [Object.prototype], [constructor] apart. *)
Definition prototype_functions : list string :=
  ["__defineGetter__"; "__defineSetter__"; "hasOwnProperty";
   "__lookupGetter__"; "__lookupSetter__"; "isPrototypeOf";
   "propertyIsEnumerable"; "toString"; "valueOf"; "toLocaleString"].

(** The string form of a built-in function, as V8 writes it. *)
Definition native_code (name : string) : string :=
  "function " +:+ name +:+ "() { [native code] }".

(** The string form of [({})[k]] when [k] names a member of
    [Object.prototype]: the prototype itself for [__proto__], the
    function [Object] for [constructor], a built-in function for the
    others.  Every other key reads as undefined. *)
Definition inherited (k : string) : option string :=
  if String.eqb k "__proto__" then Some "[object Object]"
  else if String.eqb k "constructor" then Some (native_code "Object")
  else if mem k prototype_functions then Some (native_code k)
  else None.

(** The value of a member of a counter: a number, or the text that
    [+ 1] makes of a value that is no number. *)
Inductive tally : Type :=
| Times (n : Z)
| Text (s : string).

(** [v + 1] *)
Definition plus_one (v : tally) : tally :=
  match v with
  | Times n => Times (n + 1)
  | Text s => Text (s +:+ "1")
  end.

(** [o[k] = (o[k] || 0) + 1] for a key other than [__proto__], on an
    object literal whose own members are listed in order of creation:
    a member of the object is updated in place; a new member is added
    at the end with the value [first]. *)
Fixpoint bump_own (k : string) (first : tally) (o : list (string * tally))
  : list (string * tally) :=
  match o with
  | [] => [(k, first)]
  | (k', v) :: r =>
      if String.eqb k' k then (k', plus_one v) :: r
      else (k', v) :: bump_own k first r
  end.

(** [o[k] = (o[k] || 0) + 1].  A key that the object does not hold is
    read from [Object.prototype]: a member found there is truthy and
    [+ 1] appends the character 1 to its string form; a key found
    nowhere starts at 1.  The assignment creates a member of the object
    itself, except for [__proto__], whose setter ignores a value that
    is no object: the object never holds that key. *)
Definition bump (k : string) (o : list (string * tally))
  : list (string * tally) :=
  if String.eqb k "__proto__" then o
  else bump_own k
         (match inherited k with
          | Some s => Text (s +:+ "1")
          | None => Times 1
          end) o.

Definition digit_of (c : ascii) : option N :=
  let n := N_of_ascii c in
  if ((48 <=? n) && (n <=? 57))%N then Some (n - 48)%N else None.

Fixpoint decimal_value (acc : N) (s : string) : option N :=
  match s with
  | EmptyString => Some acc
  | String c r =>
      match digit_of c with
      | Some d => decimal_value (10 * acc + d)%N r
      | None => None
      end
  end.

(** The array index a property key denotes, if it does: a canonical
    decimal numeral below 2^32 - 1. *)
Definition array_index (k : string) : option N :=
  match k with
  | EmptyString => None
  | String c r =>
      if Ascii.eqb c "0"%char && negb (Str.is_empty r) then None
      else match decimal_value 0 k with
           | Some n => if (n <? 4294967295)%N then Some n else None
           | None => None
           end
  end.

Definition is_index_key {V} (kv : string * V) : bool :=
  match array_index kv.1 with Some _ => true | None => false end.

Definition index_order {V} (a b : string * V) : Z :=
  match array_index a.1, array_index b.1 with
  | Some i, Some j => Z.of_N i - Z.of_N j
  | _, _ => 0
  end.

(** [Object.entries(o)]: the members whose key is an array index, by
    ascending index, then the others in order of creation. *)
Definition entries {V} (o : list (string * V)) : list (string * V) :=
  sort_by index_order (List.filter is_index_key o)
  ++ List.filter (fun kv => negb (is_index_key kv)) o.

(** Decimal notation of a natural number, as string conversion writes an
    array index. *)
Fixpoint decimal_fuel (fuel : nat) (n : N) (acc : string) : string :=
  match fuel with
  | O => acc
  | S f =>
      let acc' := String (ascii_of_N (48 + n mod 10)) acc in
      if (n <? 10)%N then acc' else decimal_fuel f (n / 10)%N acc'
  end.

Definition decimal (n : nat) : string :=
  decimal_fuel (S n) (N.of_nat n) EmptyString.

(** [o[k] = v] on a member list: the member of key [k] is replaced in
    place, or added at the end. *)
Fixpoint put {V} (k : string) (v : V) (o : list (string * V))
  : list (string * V) :=
  match o with
  | [] => [(k, v)]
  | (k', v') :: r =>
      if String.eqb k' k then (k', v) :: r else (k', v') :: put k v r
  end.

(** [o[k] = v] on an object literal, for a value [v] that is no object:
    the setter of [__proto__] ignores it, and every other key becomes
    or stays a member of the object itself. *)
Definition assign {V} (k : string) (v : V) (o : list (string * V))
  : list (string * V) :=
  if String.eqb k "__proto__" then o else put k v o.

Definition indexed (l : list jsval) : list (string * jsval) :=
  imap (fun i v => (decimal i, v)) l.

Fixpoint chars (s : string) : list jsval :=
  match s with
  | EmptyString => []
  | String a r => VStr (String a EmptyString) :: chars r
  end.

(** The own enumerable members that a spread copies. *)
Definition own_members (v : jsval) : list (string * jsval) :=
  match v with
  | VObj fs => fs
  | VArr l => indexed l
  | VStr s => indexed (chars s)
  | _ => []
  end.

(** [{ ...base, ...v }] *)
Definition spread (base : list (string * jsval)) (v : jsval)
  : list (string * jsval) :=
  foldl (fun o kv => put kv.1 kv.2 o) base (own_members v).

(** ** aiUtils.js *)

(** A fallback handed to the wrapper: it receives the prompt, may read the
    clock, and may throw; it has no access to the stores. *)
Definition fallback : Type := string -> Z -> outcome jsval.

(** The rows that the report prompt and the prioritization prompt list. *)
Record reportRow : Type := {
  row_title : option string;
  row_priority : TaskPriority;
  row_status : TaskStatus;
  row_dueDate : string;
  row_daysOverdue : option Z;
  row_assignedTo : string;
  row_createdBy : string
}.

Record aiRow : Type := {
  ai_id : string;
  ai_title : option string;
  ai_description : string;
  ai_status : TaskStatus;
  ai_priority : TaskPriority;
  ai_category : string;
  ai_dueDate : string;
  ai_daysUntilDue : option Z;
  ai_isOverdue : bool
}.

(** What aiUtils.js takes from the platform, the network and the
    database, and the texts whose wording no property depends on. *)
Class Platform : Type := {
  (** [crypto.createHash('md5').update(str).digest('hex')] *)
  generateHash : string -> string;

  (** [axios.post] to the generative-language endpoint: for the number of
      requests posted before and the prompt, the time the request takes and
      either the body of a 2xx response or the error axios raises. *)
  remote : nat -> string -> N * outcome jsval;

  (** [prisma.task.findMany] *)
  findMany : query -> outcome (list task);

  (** [JSON.parse] *)
  JSON_parse : string -> outcome jsval;

  (** [new Date(d).toISOString().split('T')[0]],
      [new Date(d).toLocaleDateString()] and the string conversion of a
      date in a template. *)
  isoDate : Z -> string;
  toLocaleDateString : Z -> string;
  dateToString : Z -> string;

  (** The text of the five prompts, as functions of what each template
      interpolates. *)
  categoryPrompt :
    string -> list string -> list (string * Z) -> list (string * string)
    -> string;
  descriptionPrompt : string -> string -> list task -> string;
  reportPrompt : list reportRow -> list reportRow -> string;
  titlePrompt : string -> list (option string) -> list string -> string;
  prioritizationPrompt : list aiRow -> string;

  (** The four closures passed to the wrapper as fallbacks; each re-reads
      the prompt (and the values it closes over) and is otherwise
      arbitrary here. *)
  categoryPredictionFallback : fallback;
  descriptionFallback : string -> fallback;
  reportFallback : list task -> list task -> fallback;
  titleSuggestionsFallback : string -> fallback
}.

Section AiUtils.

Context {P : Platform}.

(** *** callGeminiAPI *)

Definition failed : exn := Error "Failed to generate content with AI".

(** [await axios.post(...)] then [response.data] *)
Definition axios_post (prompt : string) : M jsval :=
  fun w =>
    let '(d, r) := remote (requests w) prompt in
    (r, {| now := now w + Z.of_N d;
           shortTermCache := shortTermCache w;
           mediumTermCache := mediumTermCache w;
           requests := S (requests w) |}).

(** [data.candidates[0].content.parts[0].text] *)
Definition generated_text (data : jsval) : outcome jsval :=
  match member "candidates" data with
  | Thrown e => Thrown e
  | Returned cs =>
  match item0 cs with
  | Thrown e => Thrown e
  | Returned c =>
  match member "content" c with
  | Thrown e => Thrown e
  | Returned ct =>
  match member "parts" ct with
  | Thrown e => Thrown e
  | Returned ps =>
  match item0 ps with
  | Thrown e => Thrown e
  | Returned p => member "text" p
  end end end end end.

(** [await fallbackFn(prompt)] *)
Definition run_fallback (f : fallback) (prompt : string) : M jsval :=
  fun w => (f prompt (now w), w).

(** The inner [try] of the wrapper: the request, the extraction of the
    text and its caching. *)
Definition request (prompt cacheKey : string) (useCache : bool)
    (cacheTtl : Z) : M jsval :=
  let* data := axios_post prompt in
  let* generatedText := lift (generated_text data) in
  let* _ := (if useCache then mediumSet cacheKey generatedText cacheTtl
             else ret tt) in
  ret generatedText.

Definition callGeminiAPI (prompt : string) (useCache : bool)
    (cacheTtl : Z) (fallbackFn : option fallback) : M jsval :=
  try_catch
    (let cacheKey := generateHash prompt in
     let* cachedResponse :=
       (if useCache then mediumGet cacheKey else ret VUndefined) in
     if useCache && truthy cachedResponse then ret cachedResponse
     else
       try_catch
         (request prompt cacheKey useCache cacheTtl)
         (fun apiError =>
            match fallbackFn with
            | Some f => run_fallback f prompt
            | None => throw failed
            end))
    (fun error => throw failed).

(** *** predictNextCategory *)

Definition categories_of (tasks : list task) : list string :=
  distinct (omap category_of tasks).

Definition count_category (c : string) (tasks : list task) : Z :=
  Z.of_nat
    (length (List.filter
               (fun t => match category t with
                         | Some c' => String.eqb c' c
                         | None => false
                         end) tasks)).

Definition recent_pairs (tasks : list task) : list (string * string) :=
  omap (fun t =>
          match title t, category_of t with
          | Some ti, Some c => if Str.is_empty ti then None else Some (ti, c)
          | _, _ => None
          end) (firstn 10 tasks).

Definition predictionKey (userId : string) (tasks : list task)
    (taskTitle : option string) : string :=
  "predict_category_" +:+ userId +:+ "_"
  +:+ generateHash (Str.join "," (map id (firstn 10 tasks))
                    +:+ default EmptyString taskTitle).

(** [aiPrediction.trim().replace(...).replace(...)] *)
Definition clean_prediction (s : string) : string :=
  Str.strip_final_dot (Str.strip_outer_quotes (Str.trim s)).

Definition close_to (cleaned c : string) : bool :=
  Str.includes (Str.toLowerCase c) (Str.toLowerCase cleaned)
  || Str.includes (Str.toLowerCase cleaned) (Str.toLowerCase c).

(** The body of the inner [try]: [Some v] when it returns [v] from the
    function, [None] when control falls through to the statistical
    prediction. *)
Definition contextualPrediction (cacheKey taskTitle : string)
    (userTasks : list task) : M (option jsval) :=
  let categories := categories_of userTasks in
  if (0 <? length categories)%nat then
    let categoryUsage :=
      foldl (fun o c => assign c (count_category c userTasks) o)
            [] categories in
    let prompt :=
      categoryPrompt taskTitle categories (entries categoryUsage)
                     (recent_pairs userTasks) in
    let* aiPrediction :=
      callGeminiAPI prompt true 300000 (Some categoryPredictionFallback) in
    let* text := lift (as_string aiPrediction) in
    let cleanedPrediction := clean_prediction text in
    if mem cleanedPrediction categories then
      let* _ := shortSet cacheKey (VStr cleanedPrediction) 300000 in
      ret (Some (VStr cleanedPrediction))
    else
      match find_first (close_to cleanedPrediction) categories with
      | Some closestMatch =>
          let* _ := shortSet cacheKey (VStr closestMatch) 300000 in
          ret (Some (VStr closestMatch))
      | None => ret None
      end
  else ret None.

(** The comparator of [sortedTasks]: newest first. *)
Definition newest_first (a b : task) : Z := createdAt b - createdAt a.

(** The categories of the (at most five) most recent tasks that have
    one. *)
Definition recentCategories (userTasks : list task) : list string :=
  omap category_of (firstn 5 (sort_by newest_first userTasks)).

Definition categoryFrequency (userTasks : list task)
  : list (string * tally) :=
  foldl (fun o t => match category_of t with
                    | Some c => bump c o
                    | None => o
                    end) [] userTasks.

(** The recency rule: the most recent category, when the list has two
    elements or more and that category occurs twice or more among its
    first three. *)
Definition recent_rule (recent : list string) : option string :=
  match recent with
  | mostRecentCategory :: _ :: _ =>
      if (2 <=? length (List.filter (String.eqb mostRecentCategory)
                                    (firstn 3 recent)))%nat
      then Some mostRecentCategory else None
  | _ => None
  end.

(** The comparator of [sortedCategories], [b[1] - a[1]]: most used
    first.  A text of a counter is no numeral, so a difference in which
    one takes part is NaN, which the sort takes for 0; the comparator
    is then not consistent, the standard leaves the order of the sorted
    array to the implementation, and no property below depends on it:
    what is proved of the most used category is proved for counters of
    numbers. *)
Definition most_used_first (a b : string * tally) : Z :=
  match b.2, a.2 with
  | Times m, Times n => m - n
  | _, _ => 0
  end.

(** The statistical prediction, from [const categoryFrequency = {}] to
    the end of the outer [try]. *)
Definition statisticalPrediction (cacheKey : string)
    (userTasks : list task) : M jsval :=
  let frequency := categoryFrequency userTasks in
  if (length (entries frequency) =? 0)%nat then ret VNull
  else
    match recent_rule (recentCategories userTasks) with
    | Some mostRecentCategory =>
        let* _ := shortSet cacheKey (VStr mostRecentCategory) 300000 in
        ret (VStr mostRecentCategory)
    | None =>
        match sort_by most_used_first (entries frequency) with
        | (prediction, _) :: _ =>
            let* _ := shortSet cacheKey (VStr prediction) 300000 in
            ret (VStr prediction)
        | [] => throw (TypeError "Cannot read properties: 0")
        end
    end.

(** What follows the lookup of the feature key when it finds nothing:
    the inner [try] when the title and the history allow it, then the
    statistical prediction. *)
Definition computePrediction (cacheKey : string) (userTasks : list task)
    (taskTitle : option string) : M jsval :=
  let* contextual :=
    match taskTitle with
    | Some t =>
        if negb (Str.is_empty t) && (5 <=? length userTasks)%nat
        then try_catch (contextualPrediction cacheKey t userTasks)
                       (fun error => ret None)
        else ret None
    | None => ret None
    end in
  match contextual with
  | Some prediction => ret prediction
  | None => statisticalPrediction cacheKey userTasks
  end.

(** The body of the outer [try] of [predictNextCategory]. *)
Definition predictNextCategory_body (userId : string)
    (userTasks : option (list task)) (taskTitle : option string)
  : M jsval :=
  let* userTasks :=
    match userTasks with
    | Some l => ret l
    | None => lift (findMany (CreatedBy userId 50))
    end in
  if (length userTasks =? 0)%nat then ret VNull
  else
    let cacheKey := predictionKey userId userTasks taskTitle in
    let* cachedPrediction := shortGet cacheKey in
    if truthy cachedPrediction then ret cachedPrediction
    else computePrediction cacheKey userTasks taskTitle.

Definition predictNextCategory (userId : string)
    (userTasks : option (list task)) (taskTitle : option string)
  : M jsval :=
  try_catch (predictNextCategory_body userId userTasks taskTitle)
            (fun error => ret VNull).

(** *** generateTaskDescription *)

Definition descriptionKey (title summary : string) : string :=
  "description_" +:+ generateHash (title +:+ summary).

(** The chain of [trim] and [replace] applied to the generated text. *)
Definition clean_description (s : string) : string :=
  Str.trim
    (Str.strip_prefix "Task Description:"
       (Str.strip_prefix "Description:"
          (Str.strip_prefix "Generated Description:" (Str.trim s)))).

(** The recent tasks that give the prompt its context: none when no user
    is given or when the query fails. *)
Definition userContext (userId : option string) : M (list task) :=
  match userId with
  | Some u =>
      if Str.is_empty u then ret []
      else try_catch (lift (findMany (CreatedBy u 3)))
                     (fun error => ret [])
  | None => ret []
  end.

(** What follows the lookup of the feature key when it finds nothing. *)
Definition computeDescription (cacheKey title summary : string)
    (userId : option string) : M jsval :=
  let* recentTasks := userContext userId in
  let prompt := descriptionPrompt title summary recentTasks in
  let* generatedDescription :=
    callGeminiAPI prompt true 3600000
                  (Some (descriptionFallback summary)) in
  let* text := lift (as_string generatedDescription) in
  let cleanedDescription := clean_description text in
  let* _ := mediumSet cacheKey (VStr cleanedDescription) 3600000 in
  ret (VStr cleanedDescription).

(** [!summary || summary.trim() === ''] *)
Definition no_summary (summary : option string) : bool :=
  match summary with
  | None => true
  | Some s => Str.is_empty s || Str.is_empty (Str.trim s)
  end.

Definition generateTaskDescription_body (title : string)
    (summary : option string) (userId : option string) : M jsval :=
  match summary with
  | None => ret VNull
  | Some summary =>
      if no_summary (Some summary) then ret VNull
      else
        let cacheKey := descriptionKey title summary in
        let* cachedDescription := mediumGet cacheKey in
        if truthy cachedDescription then ret cachedDescription
        else computeDescription cacheKey title summary userId
  end.

Definition generateTaskDescription (title : string)
    (summary : option string) (userId : option string) : M jsval :=
  try_catch (generateTaskDescription_body title summary userId)
            (fun error =>
               ret (match summary with
                    | Some s => VStr s
                    | None => VNull
                    end)).

(** *** generateCriticalTasksReport *)

Definition is_critical (t : task) : bool :=
  match priority t with
  | HIGH | URGENT => is_active t
  | _ => false
  end.

(** [task.dueDate && new Date(task.dueDate) < new Date()] *)
Definition past_due (now : Z) (t : task) : bool :=
  match dueDate t with
  | Some d => d <? now
  | None => false
  end.

Definition is_overdue (now : Z) (t : task) : bool :=
  past_due now t && is_active t.

(** The comparator of [sortedOverdueTasks]: longest overdue first. *)
Definition earliest_due_first (a b : task) : Z :=
  match dueDate a, dueDate b with
  | Some x, Some y => x - y
  | _, _ => 0
  end.

Definition full_name (p : person) : string :=
  firstName p +:+ " " +:+ lastName p.

Definition due_text (t : task) : string :=
  match dueDate t with
  | Some d => isoDate d
  | None => "No due date"
  end.

Definition assignee_text (t : task) : string :=
  match assignedTo t with
  | Some p => full_name p
  | None => "Unassigned"
  end.

(** One element of [criticalTasksData] ([overdue = false]) or of
    [overdueTasksData]; reading the name of a missing creator throws. *)
Definition report_row (overdue : bool) (now : Z) (t : task)
  : outcome reportRow :=
  match createdBy t with
  | None => Thrown (TypeError "Cannot read properties: firstName")
  | Some creator =>
      Returned
        {| row_title := title t;
           row_priority := priority t;
           row_status := status t;
           row_dueDate := due_text t;
           row_daysOverdue :=
             if overdue then
               Some (match dueDate t with
                     | Some d => (now - d) / 86400000
                     | None => 0
                     end)
             else None;
           row_assignedTo := assignee_text t;
           row_createdBy := full_name creator |}
  end.

(** [l.map(f)] for an [f] that may throw. *)
Fixpoint map_outcome {A B} (f : A -> outcome B) (l : list A)
  : outcome (list B) :=
  match l with
  | [] => Returned []
  | x :: r =>
      match f x with
      | Thrown e => Thrown e
      | Returned y =>
          match map_outcome f r with
          | Thrown e => Thrown e
          | Returned ys => Returned (y :: ys)
          end
      end
  end.

(** The prompt of the report built when the clock reads [today];
    building it throws when a listed task has no creator. *)
Definition report_prompt (today : Z) (tasks : list task) : outcome string :=
  let criticalTasks := List.filter is_critical tasks in
  let overdueTasks := List.filter (is_overdue today) tasks in
  let sortedOverdueTasks := sort_by earliest_due_first overdueTasks in
  match map_outcome (report_row false today) criticalTasks with
  | Thrown e => Thrown e
  | Returned criticalTasksData =>
      match map_outcome (report_row true today) sortedOverdueTasks with
      | Thrown e => Thrown e
      | Returned overdueTasksData =>
          Returned (reportPrompt criticalTasksData overdueTasksData)
      end
  end.

Definition generateCriticalTasksReport_body (tasks : option (list task))
  : M jsval :=
  match tasks with
  | None | Some [] => ret (VStr "No tasks found for analysis.")
  | Some tasks =>
      let* today := clock in
      let criticalTasks := List.filter is_critical tasks in
      let overdueTasks := List.filter (is_overdue today) tasks in
      let* prompt := lift (report_prompt today tasks) in
      let* generatedReport :=
        callGeminiAPI prompt true 3600000
                      (Some (reportFallback criticalTasks overdueTasks)) in
      let* text := lift (as_string generatedReport) in
      ret (VStr (Str.trim text))
  end.

Definition generateCriticalTasksReport (tasks : option (list task))
  : M jsval :=
  try_catch (generateCriticalTasksReport_body tasks)
            (fun error =>
               ret (VStr "Error generating report. Please try again later.")).

(** *** generateTitleSuggestions *)

Definition suggestionsKey (userId prefix : string) : string :=
  "title_suggestions_" +:+ userId +:+ "_" +:+ prefix.

(** The fixed list of the two [catch] blocks. *)
Definition static_suggestions (prefix : string) : list jsval :=
  map (fun w => VStr (prefix +:+ w))
      [" task"; " project"; " review"; " update"; " meeting"].

Definition is_string (v : jsval) : bool :=
  match v with VStr _ => true | _ => false end.

(** The second parse: of the trimmed lines that start with a double
    quote, the first quoted text of each, at most five. *)
Definition scan_lines (response : string) : list string :=
  firstn 5
    (omap Str.first_quoted
       (List.filter
          (fun line => Str.startsWith line (String Str.dquote EmptyString))
          (map Str.trim (Str.split Str.newline response)))).

(** The body of the [try] that parses the response. *)
Definition parse_suggestions (response : jsval) : outcome (list jsval) :=
  match as_string response with
  | Thrown e => Thrown e
  | Returned text =>
      match Str.match_enclosed "["%char "]"%char text with
      | Some m =>
          match JSON_parse m with
          | Thrown e => Thrown e
          | Returned (VArr items) =>
              Returned (firstn 5 (List.filter is_string items))
          | Returned _ => Thrown (TypeError "filter is not a function")
          end
      | None => Returned (map VStr (scan_lines text))
      end
  end.

Definition suggestions_of (prefix : string) (response : jsval)
  : list jsval :=
  match parse_suggestions response with
  | Returned l => l
  | Thrown _ => static_suggestions prefix
  end.

(** What follows the lookup of the feature key when it finds nothing. *)
Definition computeSuggestions (cacheKey prefix userId : string)
  : M jsval :=
  let* userTasks := lift (findMany (CreatedByOrAssignedTo userId 20)) in
  let previousTitles := map title userTasks in
  let categories := categories_of userTasks in
  let prompt := titlePrompt prefix previousTitles categories in
  let* response :=
    callGeminiAPI prompt true 300000
                  (Some (titleSuggestionsFallback prefix)) in
  let suggestions := suggestions_of prefix response in
  let* _ := shortSet cacheKey (VArr suggestions) 300000 in
  ret (VArr suggestions).

(** [!prefix || prefix.length < 3] *)
Definition short_prefix (prefix : option string) : bool :=
  match prefix with
  | None => true
  | Some p => (String.length p <? 3)%nat
  end.

Definition generateTitleSuggestions_body (prefix : option string)
    (userId : string) : M jsval :=
  match prefix with
  | None => ret (VArr [])
  | Some prefix =>
      if short_prefix (Some prefix) then ret (VArr [])
      else
        let cacheKey := suggestionsKey userId prefix in
        let* cachedSuggestions := shortGet cacheKey in
        if truthy cachedSuggestions then ret cachedSuggestions
        else computeSuggestions cacheKey prefix userId
  end.

Definition generateTitleSuggestions (prefix : option string)
    (userId : string) : M jsval :=
  try_catch (generateTitleSuggestions_body prefix userId)
            (fun error =>
               ret (VArr (static_suggestions
                            (default "undefined" prefix)))).

(** *** generateTaskPrioritization *)

Definition prioritizationKey (userId : string) (activeTasks : list task)
  : string :=
  "task_prioritization_" +:+ userId +:+ "_"
  +:+ generateHash
        (Str.join "|"
           (map (fun t =>
                   id t +:+ "-" +:+ status_name (status t) +:+ "-"
                   +:+ priority_name (priority t) +:+ "-"
                   +:+ match dueDate t with
                       | Some d => dateToString d
                       | None => "null"
                       end) activeTasks)).

Definition ai_row (now : Z) (t : task) : aiRow :=
  {| ai_id := id t;
     ai_title := title t;
     ai_description :=
       match description t with
       | Some d =>
           if Str.is_empty d then "No description"
           else String.substring 0 100 d
                +:+ (if (100 <? String.length d)%nat then "..." else "")
       | None => "No description"
       end;
     ai_status := status t;
     ai_priority := priority t;
     ai_category := default "Uncategorized" (category_of t);
     ai_dueDate := due_text t;
     ai_daysUntilDue :=
       match dueDate t with
       | Some d => Some (- ((now - d) / 86400000))
       | None => None
       end;
     ai_isOverdue := past_due now t |}.

(** [priorityOrder] *)
Definition priorityOrder (p : TaskPriority) : Z :=
  match p with URGENT => 0 | HIGH => 1 | MEDIUM => 2 | LOW => 3 end.

(** The comparator of the fallback sort. *)
Definition by_urgency (now : Z) (a b : task) : Z :=
  let aOverdue := past_due now a in
  let bOverdue := past_due now b in
  if aOverdue && negb bOverdue then -1
  else if negb aOverdue && bOverdue then 1
  else if negb (priorityOrder (priority a) =? priorityOrder (priority b))
  then priorityOrder (priority a) - priorityOrder (priority b)
  else match dueDate a, dueDate b with
       | Some x, Some y => x - y
       | Some _, None => -1
       | None, Some _ => 1
       | None, None => 0
       end.

Definition opt_str (s : option string) : jsval :=
  match s with Some x => VStr x | None => VUndefined end.

(** The reason given for a task by the fallback. *)
Definition reason (t : task) : string :=
  priority_name (priority t) +:+ " priority"
  +:+ match dueDate t with
      | Some d => ", due " +:+ toLocaleDateString d
      | None => ""
      end.

Definition prioritized_entry (t : task) : jsval :=
  VObj [("id", VStr (id t)); ("title", opt_str (title t));
        ("reason", VStr (reason t))].

(** [parsedResponse] as the [catch] block builds it. *)
Definition fallbackPrioritization (now : Z) (activeTasks : list task)
  : jsval :=
  let sortedTasks := sort_by (by_urgency now) activeTasks in
  VObj [("prioritizedTasks",
         VArr (map prioritized_entry (firstn 5 sortedTasks)));
        ("logic",
         VStr "Tasks are prioritized based on urgency, priority level, and due date.");
        ("atRiskTasks", VArr []);
        ("suggestions", VArr [])].

(** The body of the [try] that parses the response. *)
Definition parse_prioritization (generatedResponse : jsval)
  : outcome jsval :=
  match as_string generatedResponse with
  | Thrown e => Thrown e
  | Returned text =>
      match Str.match_enclosed "{"%char "}"%char text with
      | Some m => JSON_parse m
      | None => Thrown (Error "No valid JSON found in response")
      end
  end.

Definition no_tasks (message : string) : jsval :=
  VObj [("message", VStr message); ("prioritizedTasks", VArr [])].

(** [parsedResponse]: the response parsed, or the fallback built in the
    [catch] block. *)
Definition parsedResponse (activeTasks : list task)
    (generatedResponse : jsval) : M jsval :=
  try_catch (lift (parse_prioritization generatedResponse))
            (fun parseError =>
               let* today := clock in
               ret (fallbackPrioritization today activeTasks)).

Definition prioritization_result (parsed : jsval) : jsval :=
  VObj (spread
          [("message",
            VStr "Here are your prioritized tasks based on urgency, importance, and deadlines.")]
          parsed).

(** What follows the lookup of the feature key when it finds nothing. *)
Definition computePrioritization (cacheKey : string)
    (activeTasks : list task) : M jsval :=
  let* today := clock in
  let prompt := prioritizationPrompt (map (ai_row today) activeTasks) in
  let* generatedResponse := callGeminiAPI prompt true 3600000 None in
  let* parsed := parsedResponse activeTasks generatedResponse in
  let result := prioritization_result parsed in
  let* _ := mediumSet cacheKey result 1800000 in
  ret result.

Definition generateTaskPrioritization_body (userId : string)
    (userTasks : option (list task)) : M jsval :=
  match userTasks with
  | None | Some [] => ret (no_tasks "No tasks found to prioritize.")
  | Some userTasks =>
      let activeTasks := List.filter is_active userTasks in
      if (length activeTasks =? 0)%nat
      then ret (no_tasks "No active tasks found to prioritize.")
      else
        let cacheKey := prioritizationKey userId activeTasks in
        let* cachedResult := mediumGet cacheKey in
        if truthy cachedResult then ret cachedResult
        else computePrioritization cacheKey activeTasks
  end.

Definition generateTaskPrioritization (userId : string)
    (userTasks : option (list task)) : M jsval :=
  try_catch (generateTaskPrioritization_body userId userTasks)
            (fun error =>
               ret (VObj
                      [("message",
                        VStr "Error generating task prioritization. Using default sorting by priority and due date.");
                       ("prioritizedTasks", VArr []);
                       ("logic", VStr "Default sorting by priority and due date.");
                       ("atRiskTasks", VArr []);
                       ("suggestions", VArr [])])).

End AiUtils.

(** ** Vocabulary of the properties *)

Section Vocabulary.

Context {P : Platform}.

(** The time-to-live that [set] applies for an argument [ttl]. *)
Definition effective_ttl (c : CacheManager.t) (ttl : Z) : Z :=
  if ttl =? 0 then CacheManager.ttl c else ttl.

(** The wrapper finds nothing to return in the medium-term store. *)
Definition wrapper_miss (prompt : string) (useCache : bool) (w : world)
  : Prop :=
  useCache = true ->
  truthy (CacheManager.get (generateHash prompt) (now w)
                           (mediumTermCache w)).1 = false.

(** The request posted from [w] fails: axios raises (network error or
    status outside 2xx), or the path to the text of the first candidate
    cannot be followed in the body. *)
Definition remote_failure (prompt : string) (w : world) : Prop :=
  match (remote (requests w) prompt).2 with
  | Thrown _ => True
  | Returned data =>
      match generated_text data with
      | Thrown _ => True
      | Returned _ => False
      end
  end.

(** The clock when the request posted from [w] completes. *)
Definition after_request (prompt : string) (w : world) : Z :=
  now w + Z.of_N (remote (requests w) prompt).1.

(** What a caller of the wrapper gets from a fallback: its value, or the
    wrapper's error when the fallback throws. *)
Definition through_wrapper (o : outcome jsval) : outcome jsval :=
  match o with
  | Returned v => Returned v
  | Thrown _ => Thrown failed
  end.

(** The state in which a failed request leaves the process: the clock has
    advanced by the time the request took, one more request is counted,
    and the medium-term store is as the wrapper's lookup left it. *)
Definition after_failure (prompt : string) (useCache : bool) (w : world)
  : world :=
  {| now := after_request prompt w;
     shortTermCache := shortTermCache w;
     mediumTermCache :=
       if useCache
       then (CacheManager.get (generateHash prompt) (now w)
                              (mediumTermCache w)).2
       else mediumTermCache w;
     requests := S (requests w) |}.

(** The task history that [predictNextCategory] works on: the tasks
    supplied, or else the fifty most recent tasks of the user. *)
Definition history (userId : string) (supplied : option (list task))
  : outcome (list task) :=
  match supplied with
  | Some l => Returned l
  | None => findMany (CreatedBy userId 50)
  end.

(** The short-term store holds nothing truthy and live under [key]. *)
Definition short_miss (key : string) (w : world) : Prop :=
  truthy (CacheManager.get key (now w) (shortTermCache w)).1 = false.

(** The medium-term store holds nothing truthy and live under [key]. *)
Definition medium_miss (key : string) (w : world) : Prop :=
  truthy (CacheManager.get key (now w) (mediumTermCache w)).1 = false.

(** The request posted from [w] succeeds and the text of the first
    candidate of its body is [v]. *)
Definition remote_returns (prompt : string) (w : world) (v : jsval)
  : Prop :=
  match (remote (requests w) prompt).2 with
  | Returned data => generated_text data = Returned v
  | Thrown _ => False
  end.

(** The state in which a successful request that brought [v] leaves the
    process. *)
Definition after_success (prompt : string) (useCache : bool)
    (cacheTtl : Z) (v : jsval) (w : world) : world :=
  {| now := after_request prompt w;
     shortTermCache := shortTermCache w;
     mediumTermCache :=
       if useCache
       then CacheManager.set (generateHash prompt) v (Some cacheTtl)
              (after_request prompt w)
              (CacheManager.get (generateHash prompt) (now w)
                                (mediumTermCache w)).2
       else mediumTermCache w;
     requests := S (requests w) |}.

(** The text holds no bracketed part that parses as an array: no opening
    bracket followed by a closing one, or [JSON.parse] rejects what they
    enclose. *)
Definition no_parseable_array (text : string) : Prop :=
  match Str.match_enclosed "["%char "]"%char text with
  | Some m =>
      match JSON_parse m with
      | Returned (VArr _) => False
      | _ => True
      end
  | None => True
  end.

(** The state after a lookup of [key] in the short-term store, and in
    the medium-term store. *)
Definition looked_short (key : string) (w : world) : world :=
  {| now := now w;
     shortTermCache :=
       (CacheManager.get key (now w) (shortTermCache w)).2;
     mediumTermCache := mediumTermCache w;
     requests := requests w |}.

Definition looked_medium (key : string) (w : world) : world :=
  {| now := now w;
     shortTermCache := shortTermCache w;
     mediumTermCache :=
       (CacheManager.get key (now w) (mediumTermCache w)).2;
     requests := requests w |}.

(** [predictNextCategory] from the point where the lookup of the feature
    key has found nothing. *)
Definition after_miss (userId : string) (tasks : list task)
    (taskTitle : option string) : M jsval :=
  try_catch
    (computePrediction (predictionKey userId tasks taskTitle)
                       tasks taskTitle)
    (fun error => ret VNull).

End Vocabulary.

(** The order of the prioritization fallback in the words of the
    specification: overdue tasks first; among tasks alike in that, the
    higher priority first (URGENT, HIGH, MEDIUM, LOW); among tasks alike in
    both, the earlier due date first, a task without due date last. *)
Definition urgency_rank (p : TaskPriority) : nat :=
  match p with URGENT => 0 | HIGH => 1 | MEDIUM => 2 | LOW => 3 end.

Definition due_no_later (a b : option Z) : Prop :=
  match a, b with
  | Some x, Some y => x <= y
  | Some _, None => True
  | None, Some _ => False
  | None, None => True
  end.

(** A task is overdue when it has a due date and that date lies before
    the present time. *)
Definition overdue (today : Z) (t : task) : Prop :=
  exists d, dueDate t = Some d /\ d < today.

(** A task is active when it is neither completed nor cancelled. *)
Definition active (t : task) : Prop :=
  status t <> COMPLETED /\ status t <> CANCELLED.

Definition precedes (today : Z) (a b : task) : Prop :=
  (overdue today a /\ ~ overdue today b)
  \/ ((overdue today a <-> overdue today b)
      /\ ((urgency_rank (priority a) < urgency_rank (priority b))%nat
          \/ (urgency_rank (priority a) = urgency_rank (priority b)
              /\ due_no_later (dueDate a) (dueDate b)))).

(** No entry of the store under [key] has expired at time [t]. *)
Definition unexpired (key : string) (t : Z) (c : CacheManager.t) : Prop :=
  forall e, CacheManager.cache c !! key = Some e -> t <= CacheManager.expiry e.

(** The store holds the value [v] under [key], to expire at [e]. *)
Definition holds (key : string) (v : jsval) (e : Z) (c : CacheManager.t)
  : Prop :=
  CacheManager.cache c !! key
  = Some {| CacheManager.value := v; CacheManager.expiry := e |}.

(** The store [c] holds, under the hash of the report prompt built for
    [tasks] when the clock reads [today], a truthy value that has not
    expired at time [t]. *)
Definition report_text_held {P : Platform} (today : Z) (tasks : list task)
    (t : Z) (c : CacheManager.t) : Prop :=
  exists prompt v e,
    report_prompt today tasks = Returned prompt
    /\ holds (generateHash prompt) v e c
    /\ truthy v = true
    /\ t <= e.

(** A string that is not empty. *)
Definition nonempty_string (v : jsval) : Prop :=
  match v with
  | VStr s => s <> EmptyString
  | _ => False
  end.

(** Some task of the list carries the category [c]. *)
Definition carried (tasks : list task) (c : string) : Prop :=
  exists t, In t tasks /\ category t = Some c.

(** No task of the list carries a category that names a member of
    [Object.prototype]. *)
Definition plain_categories (tasks : list task) : Prop :=
  forall c, carried tasks c -> inherited c = None.

(** No task of the list carries a category. *)
Definition uncategorized (tasks : list task) : Prop :=
  forall t, In t tasks -> category_of t = None.

(** [a] may stand before [b] in an array sorted with [cmp]. *)
Definition before {A} (cmp : A -> A -> Z) (a b : A) : Prop := cmp a b <= 0.

(** The counter object after counting each element of [l]. *)
Definition bump_all (o : list (string * tally)) (l : list string)
  : list (string * tally) :=
  foldl (fun o c => bump c o) o l.

(** No element of [l] names a member of [Object.prototype]. *)
Definition plain_names (l : list string) : Prop :=
  forall c, In c l -> inherited c = None.

(** Counting in a counter all of whose members are numbers, as [bump]
    does for a key that names no member of [Object.prototype]. *)
Fixpoint count_one (k : string) (o : list (string * Z)) : list (string * Z) :=
  match o with
  | [] => [(k, 1)]
  | (k', n) :: r =>
      if String.eqb k' k then (k', n + 1) :: r else (k', n) :: count_one k r
  end.

Definition count_all (o : list (string * Z)) (l : list string)
  : list (string * Z) :=
  foldl (fun o c => count_one c o) o l.

(** The counter of numbers of the categories of the tasks. *)
Definition counted (tasks : list task) : list (string * Z) :=
  count_all [] (omap category_of tasks).

(** A counter of numbers as a counter. *)
Definition numbers (o : list (string * Z)) : list (string * tally) :=
  map (fun kv => (kv.1, Times kv.2)) o.

(** [most_used_first] on numbers. *)
Definition larger_first (a b : string * Z) : Z := b.2 - a.2.

(** The count a counter of numbers holds for [k], 0 when it has no such
    member. *)
Fixpoint stored (k : string) (o : list (string * Z)) : Z :=
  match o with
  | [] => 0
  | (k', n) :: r => if String.eqb k' k then n else stored k r
  end.

(** The vocabulary of the recency rule, apart from the code.  The
    category that a task is filed under, if any: a text that is not
    empty. *)
Definition filed (t : task) : option string :=
  match category t with
  | Some c => if String.eqb c EmptyString then None else Some c
  | None => None
  end.

(** The tasks from the newest to the oldest, tasks created at the same
    time staying in the order in which they were passed. *)
Definition newest_to_oldest (tasks : list task) : list task :=
  sort_by (fun a b => createdAt b - createdAt a) tasks.

(** How many of the tasks are filed under [c]. *)
Definition usage (tasks : list task) (c : string) : Z :=
  Z.of_nat (length (List.filter (String.eqb c) (omap filed tasks))).

(** The categories of the three most recent tasks that are filed under
    one, newest first, as the specification speaks of them. *)
Definition recent_three (tasks : list task) : list string :=
  firstn 3 (omap filed (newest_to_oldest tasks)).

(** Two of those three share the category [c]. *)
Definition two_of_three_share (tasks : list task) (c : string) : Prop :=
  (2 <= length (List.filter (String.eqb c) (recent_three tasks)))%nat.

(** The condition under which the code predicts the most recent category
    [c]: of the five most recent tasks, those that are filed under a
    category are two or more, the newest of them is filed under [c], and
    [c] occurs twice or more among the first three of them. *)
Definition recurs_recently (tasks : list task) (c : string) : Prop :=
  exists next rest,
    omap filed (firstn 5 (newest_to_oldest tasks)) = c :: next :: rest
    /\ (2 <= length (List.filter (String.eqb c)
                                 (firstn 3 (c :: next :: rest))))%nat.

(** [c] is a most used category of the tasks. *)
Definition most_used (tasks : list task) (c : string) : Prop :=
  0 < usage tasks c /\ forall c', usage tasks c' <= usage tasks c.

(** ** Worked scenarios *)

Module Scenario.

(** The body of a 2xx response whose first candidate carries [text]. *)
Definition body (text : string) : jsval :=
  VObj [("candidates",
         VArr [VObj [("content",
                      VObj [("parts", VArr [VObj [("text", VStr text)]])])]])].

(** The endpoint answers 503. *)
Definition unavailable : outcome jsval := Thrown (RequestError 503).

(** A platform for worked examples.  The requests are answered in order
    from [script], each after 250 ms, and fail once the script is used
    up.  The digest is replaced by the identity, the database is empty,
    the texts are fixed, and [JSON.parse] rejects its argument: no
    example lets a text with brackets or braces reach it. *)
Definition platform (script : list (outcome jsval)) : Platform :=
  {| generateHash := fun s => s;
     remote := fun n _ => (250%N, nth n script unavailable);
     findMany := fun _ => Returned [];
     JSON_parse := fun _ => Thrown (SyntaxError "Unexpected token");
     isoDate := fun _ => "1970-01-01";
     toLocaleDateString := fun _ => "1/1/1970";
     dateToString := fun _ => "Thu Jan 01 1970";
     categoryPrompt := fun _ _ _ _ => "predict the category";
     descriptionPrompt := fun _ _ _ => "write the description";
     reportPrompt := fun _ _ => "write the report";
     titlePrompt := fun _ _ _ => "suggest titles";
     prioritizationPrompt := fun _ => "prioritize";
     categoryPredictionFallback := fun _ _ => Returned VNull;
     descriptionFallback := fun summary _ _ => Returned (VStr summary);
     reportFallback := fun _ _ _ _ => Returned (VStr "## Executive Summary");
     titleSuggestionsFallback :=
       fun _ _ _ => Thrown (ReferenceError "prefix") |}.

(** A pending task of medium priority, without due date. *)
Definition a_task (i : string) (c : option string) (created : Z) : task :=
  {| id := i; title := Some ("Task " +:+ i); description := None;
     status := PENDING; priority := MEDIUM; category := c;
     dueDate := None; createdAt := created;
     createdBy := None; assignedTo := None |}.

(** Six tasks, newest first: B, A, A, C, C, C. *)
Definition six_tasks : list task :=
  [a_task "6" (Some "B") 6000; a_task "5" (Some "A") 5000;
   a_task "4" (Some "A") 4000; a_task "3" (Some "C") 3000;
   a_task "2" (Some "C") 2000; a_task "1" (Some "C") 1000].

(** The endpoint answers with a sentence. *)
Definition prose : Platform :=
  platform [Returned (body "Sorry, no ideas.")].

(** Three tasks, newest first: A, A, B. *)
Definition recent_aab : list task :=
  [a_task "3" (Some "A") 3000; a_task "2" (Some "A") 2000;
   a_task "1" (Some "B") 1000].

(** A user with one task, first filed under Work. *)
Definition filed_under (c : option string) : list task :=
  [a_task "1" c 1000].

(** The process after a first prediction for that user, made at start-up
    while the task is filed under Work. *)
Definition first_prediction : outcome jsval * world :=
  predictNextCategory (P := platform []) "u1"
                      (Some (filed_under (Some "Work"))) None (boot 0).

(** A second prediction one second later, the task by then carrying the
    category [c] (or none). *)
Definition second_prediction (c : option string) : outcome jsval * world :=
  predictNextCategory (P := platform []) "u1"
                      (Some (filed_under c)) None
                      (elapse 1000 first_prediction.2).

(** The endpoint is down, the database too, and the fallbacks fail. *)
Definition offline : Platform :=
  {| generateHash := fun s => s;
     remote := fun _ _ => (250%N, unavailable);
     findMany := fun _ => Thrown (Error "database unreachable");
     JSON_parse := fun _ => Thrown (SyntaxError "Unexpected token");
     isoDate := fun _ => "1970-01-01";
     toLocaleDateString := fun _ => "1/1/1970";
     dateToString := fun _ => "Thu Jan 01 1970";
     categoryPrompt := fun _ _ _ _ => "predict the category";
     descriptionPrompt := fun _ _ _ => "write the description";
     reportPrompt := fun _ _ => "write the report";
     titlePrompt := fun _ _ _ => "suggest titles";
     prioritizationPrompt := fun _ => "prioritize";
     categoryPredictionFallback :=
       fun _ _ => Thrown (TypeError "fallback");
     descriptionFallback := fun _ _ _ => Thrown (TypeError "fallback");
     reportFallback := fun _ _ _ _ => Thrown (TypeError "fallback");
     titleSuggestionsFallback :=
       fun _ _ _ => Thrown (ReferenceError "prefix") |}.

(** The endpoint is down for the first request and answers the second
    with a sentence. *)
Definition flaky : Platform :=
  platform [unavailable; Returned (body "Service busy, try later.")].

(** The wrapper called at start-up with a time-to-live of one second,
    the endpoint answering; and called again five seconds later with the
    same prompt, the endpoint then being down. *)
Definition local_answer : fallback :=
  fun _ _ => Returned (VStr "local answer").

Definition answered : outcome jsval * world :=
  callGeminiAPI (P := prose) "prompt" true 1000 (Some local_answer)
                (boot 0).

Definition then_down : outcome jsval * world :=
  callGeminiAPI (P := prose) "prompt" true 1000 (Some local_answer)
                (elapse 5000 answered.2).

(** The data of the repository's test scripts, written at time [t0].
    Four tasks of user1 for the category prediction ... *)
Definition day : Z := 86400000.

Definition test_history (t0 : Z) : list task :=
  [a_task "1" (Some "Work") (t0 - 5 * day);
   a_task "2" (Some "Development") (t0 - 3 * day);
   a_task "3" (Some "Work") (t0 - 2 * day);
   a_task "4" (Some "Work") (t0 - day)].

(** ... and seven tasks for the prioritization. *)
Definition mock_task (i : string) (s : TaskStatus) (p : TaskPriority)
    (c : string) (d : option Z) (created : Z) : task :=
  {| id := i; title := Some ("Task " +:+ i); description := None;
     status := s; priority := p; category := Some c;
     dueDate := d; createdAt := created;
     createdBy := None; assignedTo := None |}.

Definition mockTasks (t0 : Z) : list task :=
  [mock_task "task1" IN_PROGRESS HIGH "Finance"
             (Some (t0 + day)) (t0 - 5 * day);
   mock_task "task2" PENDING URGENT "Development"
             (Some (t0 - day)) (t0 - 2 * day);
   mock_task "task3" IN_PROGRESS MEDIUM "Marketing"
             (Some (t0 + 3 * day)) (t0 - 3 * day);
   mock_task "task4" PENDING LOW "Admin"
             (Some (t0 + 7 * day)) (t0 - day);
   mock_task "task5" PENDING MEDIUM "Meetings"
             (Some (t0 + 2 * day)) (t0 - 4 * day);
   mock_task "task6" PENDING HIGH "Development" None (t0 - day);
   mock_task "task7" IN_PROGRESS HIGH "Support"
             (Some t0) (t0 - 2 * day)].

(** The one-hour store after [set(k, v, ttl)] at time 0. *)
Definition stored_for (ttl : Z) : CacheManager.t :=
  CacheManager.set "k" (VStr "v") (Some ttl) 0 (CacheManager.new 3600000).

(** The wrapper called at start-up, the endpoint being down. *)
Definition fell_back : outcome jsval * world :=
  callGeminiAPI (P := platform []) "prompt" true 1000 (Some local_answer)
                (boot 0).

Definition someone : person := {| firstName := "Ada"; lastName := "Doe" |}.

(** A task with the given priority and due date, created by someone. *)
Definition due_task (i : string) (p : TaskPriority) (d : option Z) : task :=
  {| id := i; title := Some ("Task " +:+ i); description := None;
     status := PENDING; priority := p; category := None;
     dueDate := d; createdAt := 0;
     createdBy := Some someone; assignedTo := None |}.

(** The same without a creator, as a query that does not select the
    creator returns it. *)
Definition orphan_task (i : string) (p : TaskPriority) : task :=
  {| id := i; title := Some ("Task " +:+ i); description := None;
     status := PENDING; priority := p; category := None;
     dueDate := None; createdAt := 0;
     createdBy := None; assignedTo := None |}.

(** At time 1000000: a LOW task without due date, an URGENT task due at
    time 0, a HIGH task due much later. *)
Definition three_tasks : list task :=
  [due_task "low" LOW None; due_task "urgent" URGENT (Some 0);
   due_task "high" HIGH (Some 9000000)].

(** Two prioritizations of the same task in immediate succession, from
    start-up, the endpoint being down for the first. *)
Definition first_prioritization : outcome jsval * world :=
  generateTaskPrioritization (P := flaky) "u1"
                             (Some [due_task "1" MEDIUM None]) (boot 0).

Definition second_prioritization : outcome jsval * world :=
  generateTaskPrioritization (P := flaky) "u1"
                             (Some [due_task "1" MEDIUM None])
                             first_prioritization.2.

(** First calls of the five features at start-up, the endpoint answering
    with a sentence. *)
Definition predicted : outcome jsval * world :=
  predictNextCategory_body (P := prose) "u1"
                           (Some (filed_under (Some "Work"))) None (boot 0).

Definition described : outcome jsval * world :=
  generateTaskDescription_body (P := prose) "Report" (Some "Write it.")
                               None (boot 0).

Definition suggested : outcome jsval * world :=
  generateTitleSuggestions_body (P := prose) (Some "upd") "u1" (boot 0).

Definition prioritized : outcome jsval * world :=
  generateTaskPrioritization_body (P := prose) "u1"
                                  (Some [due_task "1" MEDIUM None])
                                  (boot 0).

Definition reported : outcome jsval * world :=
  generateCriticalTasksReport_body (P := prose)
                                   (Some [due_task "1" HIGH None])
                                   (boot 0).

End Scenario.

(** ** routes/tasks.js: the handlers of the AI routes *)

(** The handlers of GET /suggest/title, GET /predict/next-category and
    POST /generate-description.  The handler registered for
    GET /prioritize is not among them: the router registers GET /:id
    before it; that route matches the path /prioritize and its handlers
    always answer, so that no request reaches the handler of
    GET /prioritize. *)

(** What a handler sends: [res.status(s).json(v)], the status being 200
    when the handler does not set it. *)
Record reply : Type := { statusCode : Z; json : jsval }.

Definition ok (data : jsval) : reply :=
  {| statusCode := 200;
     json := VObj [("success", VBool true); ("data", data)] |}.

Definition refused (message : string) : reply :=
  {| statusCode := 400;
     json := VObj [("success", VBool false); ("message", VStr message)] |}.

Definition internalServerError : reply :=
  {| statusCode := 500;
     json := VObj [("success", VBool false);
                   ("message", VStr "Internal server error")] |}.

Section Routes.

Context {P : Platform}.

(** GET /suggest/title, for a request authenticated as [userId] whose
    query gives [prefix] once or not at all. *)
Definition suggestTitle (prefix : option string) (userId : string)
  : M reply :=
  try_catch
    (if short_prefix prefix
     then ret (refused "Prefix must be at least 3 characters long")
     else
       let* suggestions := generateTitleSuggestions prefix userId in
       ret (ok (VObj [("suggestions", suggestions)])))
    (fun error => ret internalServerError).

(** GET /predict/next-category *)
Definition predictCategory (taskTitle : option string) (userId : string)
  : M reply :=
  try_catch
    (let* predictedCategory := predictNextCategory userId None taskTitle in
     ret (ok (VObj [("predictedCategory", predictedCategory)])))
    (fun error => ret internalServerError).

(** POST /generate-description, [errors] being what the validators
    found, and [title] and [summary] the members of the body as the
    validators leave them. *)
Definition generateDescription (errors : list jsval)
    (title summary userId : string) : M reply :=
  try_catch
    (match errors with
     | _ :: _ =>
         ret {| statusCode := 400;
                json := VObj [("success", VBool false);
                              ("message", VStr "Validation failed");
                              ("errors", VArr errors)] |}
     | [] =>
         let* generatedDescription :=
           generateTaskDescription title (Some summary) (Some userId) in
         if truthy generatedDescription
         then ret (ok (VObj [("description", generatedDescription)]))
         else ret (refused "Failed to generate description. Please try again or provide more details in your summary.")
     end)
    (fun error => ret internalServerError).

End Routes.

(** ** Vocabulary of the further properties *)

(** The two stores agree outside [key]: same default time-to-live, same
    entry under every other key. *)
Definition same_elsewhere (key : string) (c c' : CacheManager.t) : Prop :=
  CacheManager.ttl c' = CacheManager.ttl c
  /\ forall k, k <> key ->
       CacheManager.cache c' !! k = CacheManager.cache c !! k.

(** Every run of the computation leaves the process in a state related by
    [R] to the state it started from. *)
Definition keeps {A} (R : world -> world -> Prop) (m : M A) : Prop :=
  forall w, R w (m w).2.

(** The short-term store is as it was. *)
Definition short_untouched (w w' : world) : Prop :=
  shortTermCache w' = shortTermCache w.

(** The short-term store has changed at most under [key]. *)
Definition short_only (key : string) (w w' : world) : Prop :=
  same_elsewhere key (shortTermCache w) (shortTermCache w').

(** No request has been posted. *)
Definition quiet (w w' : world) : Prop := requests w' = requests w.

(** No request or one request has been posted. *)
Definition one_request_at_most (w w' : world) : Prop :=
  (requests w <= requests w' <= S (requests w))%nat.

(** The store has changed at most under the keys that satisfy [K]. *)
Definition same_outside (K : string -> Prop) (c c' : CacheManager.t)
  : Prop :=
  CacheManager.ttl c' = CacheManager.ttl c
  /\ forall k, ~ K k ->
       CacheManager.cache c' !! k = CacheManager.cache c !! k.

(** [k] is the digest of a prompt: a key of the wrapper. *)
Definition is_digest {P : Platform} (k : string) : Prop :=
  exists prompt, k = generateHash prompt.

(** [k] is [key] or the digest of a prompt. *)
Definition own_or_digest {P : Platform} (key k : string) : Prop :=
  k = key \/ is_digest k.

(** The medium-term store is as it was, and has changed at most under
    the keys that satisfy [K]. *)
Definition medium_untouched (w w' : world) : Prop :=
  mediumTermCache w' = mediumTermCache w.

Definition medium_only (K : string -> Prop) (w w' : world) : Prop :=
  same_outside K (mediumTermCache w) (mediumTermCache w').

(** The rows of the critical tasks in the prompt of the report built
    when the clock reads [today] ([criticalTasksData]), and the rows of
    the overdue tasks ([overdueTasksData]). *)
Definition criticalTasksData {P : Platform} (today : Z) (tasks : list task)
  : outcome (list reportRow) :=
  map_outcome (report_row false today) (List.filter is_critical tasks).

Definition overdueTasksData {P : Platform} (today : Z) (tasks : list task)
  : outcome (list reportRow) :=
  map_outcome (report_row true today)
    (sort_by earliest_due_first (List.filter (is_overdue today) tasks)).

(** The days a row counts as overdue, 0 for a row that does not say. *)
Definition days_overdue (r : reportRow) : Z :=
  default 0 (row_daysOverdue r).

(** The names of the members of an object. *)
Definition keys {V} (o : list (string * V)) : list string := map fst o.

(** ** Further worked scenarios *)

Module Cases.

(** A store of one hour with two entries written at time 0: one to
    expire after a second, one after five seconds. *)
Definition two_entries : CacheManager.t :=
  CacheManager.set "old" (VStr "x") (Some 1000) 0
    (CacheManager.set "new" (VStr "y") (Some 5000) 0
       (CacheManager.new 3600000)).

(** The endpoint answers the first request with an empty text and the
    second with a sentence. *)
Definition silent : Platform :=
  Scenario.platform [Returned (Scenario.body EmptyString);
                     Returned (Scenario.body "Second answer.")].

Definition first_silent : outcome jsval * world :=
  callGeminiAPI (P := silent) "prompt" true 1000 None (boot 0).

(** The endpoint answers 200 with a body whose first part carries no
    text. *)
Definition textless : Platform :=
  Scenario.platform
    [Returned
       (VObj [("candidates",
               VArr [VObj [("content",
                            VObj [("parts", VArr [VObj []])])]])])].

(** At time 1000000: an URGENT task due much later, a LOW task due at
    time 0, and a cancelled URGENT task due at time 0. *)
Definition late_low_tasks : list task :=
  [Scenario.due_task "urgent" URGENT (Some 9000000);
   Scenario.due_task "low" LOW (Some 0);
   {| id := "dropped"; title := Some "Task dropped"; description := None;
      status := CANCELLED; priority := URGENT; category := None;
      dueDate := Some 0; createdAt := 0;
      createdBy := Some Scenario.someone; assignedTo := None |}].

(** Three tasks, newest first, filed under A, constructor,
    constructor. *)
Definition constructor_tasks : list task :=
  [Scenario.a_task "3" (Some "A") 3000;
   Scenario.a_task "2" (Some "constructor") 2000;
   Scenario.a_task "1" (Some "constructor") 1000].

(** Five tasks filed under __proto__. *)
Definition proto_tasks : list task :=
  [Scenario.a_task "5" (Some "__proto__") 5000;
   Scenario.a_task "4" (Some "__proto__") 4000;
   Scenario.a_task "3" (Some "__proto__") 3000;
   Scenario.a_task "2" (Some "__proto__") 2000;
   Scenario.a_task "1" (Some "__proto__") 1000].

(** The endpoint answers the first request with a name that is no
    category of those tasks, and the second with their category. *)
Definition late : Platform :=
  Scenario.platform [Returned (Scenario.body "Other");
                     Returned (Scenario.body "__proto__")].

(** A first prediction for those tasks, at start-up. *)
Definition first_proto : outcome jsval * world :=
  predictNextCategory_body (P := late) "u1" (Some proto_tasks)
                           (Some "Plan the sprint") (boot 0).

(** A task that is completed. *)
Definition done_task (i : string) : task :=
  {| id := i; title := Some ("Task " +:+ i); description := None;
     status := COMPLETED; priority := HIGH; category := None;
     dueDate := None; createdAt := 0;
     createdBy := None; assignedTo := None |}.

(** Two tasks past due on day 10, created by someone: one due on day 9
    and, after it in the list, one due on day 7. *)
Definition overdue_tasks : list task :=
  [Scenario.due_task "late" LOW (Some (9 * Scenario.day));
   Scenario.due_task "later" LOW (Some (7 * Scenario.day))].

Definition quoted (s : string) : string :=
  String Str.dquote (s +:+ String Str.dquote EmptyString).

(** An object with one member named message, as JSON text. *)
Definition advice : string :=
  "{" +:+ quoted "message" +:+ ": " +:+ quoted "Start with the report."
  +:+ "}".

(** The endpoint answers with that text, which [JSON.parse] reads. *)
Definition advising : Platform :=
  {| generateHash := fun s => s;
     remote := fun _ _ => (250%N, Returned (Scenario.body advice));
     findMany := fun _ => Returned [];
     JSON_parse :=
       fun s =>
         if String.eqb s advice
         then Returned (VObj [("message", VStr "Start with the report.")])
         else Thrown (SyntaxError "Unexpected token");
     isoDate := fun _ => "1970-01-01";
     toLocaleDateString := fun _ => "1/1/1970";
     dateToString := fun _ => "Thu Jan 01 1970";
     categoryPrompt := fun _ _ _ _ => "predict the category";
     descriptionPrompt := fun _ _ _ => "write the description";
     reportPrompt := fun _ _ => "write the report";
     titlePrompt := fun _ _ _ => "suggest titles";
     prioritizationPrompt := fun _ => "prioritize";
     categoryPredictionFallback := fun _ _ => Returned VNull;
     descriptionFallback := fun summary _ _ => Returned (VStr summary);
     reportFallback := fun _ _ _ _ => Returned (VStr "## Executive Summary");
     titleSuggestionsFallback :=
       fun _ _ _ => Thrown (ReferenceError "prefix") |}.

(** A platform whose digest has the 32 characters of an MD5 digest in
    hexadecimal; the endpoint answers with a sentence. *)
Definition digesting : Platform :=
  {| generateHash := fun _ => "d41d8cd98f00b204e9800998ecf8427e";
     remote :=
       fun _ _ => (250%N, Returned (Scenario.body "Sorry, no ideas."));
     findMany := fun _ => Returned [];
     JSON_parse := fun _ => Thrown (SyntaxError "Unexpected token");
     isoDate := fun _ => "1970-01-01";
     toLocaleDateString := fun _ => "1/1/1970";
     dateToString := fun _ => "Thu Jan 01 1970";
     categoryPrompt := fun _ _ _ _ => "predict the category";
     descriptionPrompt := fun _ _ _ => "write the description";
     reportPrompt := fun _ _ => "write the report";
     titlePrompt := fun _ _ _ => "suggest titles";
     prioritizationPrompt := fun _ => "prioritize";
     categoryPredictionFallback := fun _ _ => Returned VNull;
     descriptionFallback := fun summary _ _ => Returned (VStr summary);
     reportFallback := fun _ _ _ _ => Returned (VStr "## Executive Summary");
     titleSuggestionsFallback :=
       fun _ _ _ => Thrown (ReferenceError "prefix") |}.

(** The process after a prioritization on that platform, at start-up. *)
Definition after_prioritization : world :=
  (generateTaskPrioritization (P := digesting) "u1"
     (Some [Scenario.due_task "1" MEDIUM None]) (boot 0)).2.

(** Five tasks, newest first, filed under C, A, B, A, B. *)
Definition tied_tasks : list task :=
  [Scenario.a_task "5" (Some "C") 5000; Scenario.a_task "4" (Some "A") 4000;
   Scenario.a_task "3" (Some "B") 3000; Scenario.a_task "2" (Some "A") 2000;
   Scenario.a_task "1" (Some "B") 1000].

(** An array of a string, a number and a string, as JSON text. *)
Definition titles : string :=
  "[" +:+ quoted "Update the report" +:+ ", 7, "
  +:+ quoted "Update the site" +:+ "]".

(** The endpoint answers with that text, which [JSON.parse] reads. *)
Definition listing : Platform :=
  {| generateHash := fun s => s;
     remote := fun _ _ => (250%N, Returned (Scenario.body titles));
     findMany := fun _ => Returned [];
     JSON_parse :=
       fun s =>
         if String.eqb s titles
         then Returned (VArr [VStr "Update the report"; VNum 7;
                              VStr "Update the site"])
         else Thrown (SyntaxError "Unexpected token");
     isoDate := fun _ => "1970-01-01";
     toLocaleDateString := fun _ => "1/1/1970";
     dateToString := fun _ => "Thu Jan 01 1970";
     categoryPrompt := fun _ _ _ _ => "predict the category";
     descriptionPrompt := fun _ _ _ => "write the description";
     reportPrompt := fun _ _ => "write the report";
     titlePrompt := fun _ _ _ => "suggest titles";
     prioritizationPrompt := fun _ => "prioritize";
     categoryPredictionFallback := fun _ _ => Returned VNull;
     descriptionFallback := fun summary _ _ => Returned (VStr summary);
     reportFallback := fun _ _ _ _ => Returned (VStr "## Executive Summary");
     titleSuggestionsFallback :=
       fun _ _ _ => Thrown (ReferenceError "prefix") |}.

(** The endpoint answers with a category and a period, and with a
    phrase that holds the name of a category. *)
Definition naming : Platform :=
  Scenario.platform [Returned (Scenario.body " A.")].

Definition paraphrasing : Platform :=
  Scenario.platform [Returned (Scenario.body "category a")].

(** The endpoint answers with a text under a heading. *)
Definition headed : Platform :=
  Scenario.platform
    [Returned (Scenario.body "Description: Write the report. ")].

End Cases.

(** Unfolding of the monad and of the store operations of the process. *)
Ltac run_M :=
  cbv beta iota delta
    [try_catch bind lift ret throw clock
     shortGet shortSet mediumGet mediumSet].

Ltac run_wrapper :=
  cbv beta iota delta
    [callGeminiAPI request axios_post run_fallback
     try_catch bind lift ret throw clock
     shortGet shortSet mediumGet mediumSet].

(** In a worked instance, [unexpired] by evaluation of the store. *)
Ltac unexpired_by_evaluation :=
  let e := fresh "e" in
  let He := fresh "He" in
  intros e He; vm_compute in He;
  first [discriminate He
        | injection He as <-; vm_compute; discriminate].

(** ** Properties of the store *)

Section CacheProperties.

Import CacheManager.

Lemma get_absent key now c :
  cache c !! key = None -> get key now c = (VNull, c).
Proof. intros H. unfold get. now rewrite H. Qed.

Lemma get_live key now c e :
  cache c !! key = Some e -> now <= expiry e -> get key now c = (value e, c).
Proof.
  intros H Hle. unfold get. rewrite H.
  destruct (Z.gtb_spec now (expiry e)); [lia | reflexivity].
Qed.

Lemma get_expired key now c e :
  cache c !! key = Some e -> expiry e < now ->
  get key now c = (VNull, delete key c).
Proof.
  intros H Hlt. unfold get. rewrite H.
  destruct (Z.gtb_spec now (expiry e)); [reflexivity | lia].
Qed.

Lemma lookup_set key v ttl' now c :
  cache (set key v (Some ttl') now c) !! key
  = Some {| value := v; expiry := now + effective_ttl c ttl' |}.
Proof. unfold set, effective_ttl. simpl. now rewrite lookup_insert_eq. Qed.

Lemma lookup_set_ne key k v ttl' now c :
  key <> k -> cache (set key v ttl' now c) !! k = cache c !! k.
Proof. intros H. unfold set. simpl. now rewrite lookup_insert_ne. Qed.

(** A lookup changes nothing that a lookup can see, now or later. *)
Lemma get_get k key now later c :
  now <= later ->
  (get k later (get key now c).2).1 = (get k later c).1.
Proof.
  intros Hle. unfold get at 2.
  destruct (cache c !! key) as [e|] eqn:He; [|reflexivity].
  destruct (Z.gtb_spec now (expiry e)) as [Hexp|]; [|reflexivity].
  simpl. unfold get. simpl.
  destruct (decide (key = k)) as [->|Hne].
  - rewrite lookup_delete_eq, He.
    destruct (Z.gtb_spec later (expiry e)); [reflexivity | lia].
  - rewrite lookup_delete_ne by exact Hne.
    destruct (cache c !! k) as [e'|]; [|reflexivity].
    destruct (later >? expiry e'); reflexivity.
Qed.

(** What a lookup returns is falsy afterwards too, at any time. *)
Lemma get_falsy_stays key now later c :
  truthy (get key now c).1 = false ->
  truthy (get key later (get key now c).2).1 = false.
Proof.
  unfold get at 1 3.
  destruct (cache c !! key) as [e|] eqn:He.
  - destruct (Z.gtb_spec now (expiry e)) as [Hexp|Hlive]; simpl; intros Hf.
    + unfold get. simpl. rewrite lookup_delete_eq. reflexivity.
    + unfold get. rewrite He.
      destruct (later >? expiry e); [reflexivity | exact Hf].
  - intros _. simpl. unfold get. rewrite He. reflexivity.
Qed.

Lemma get_unexpired key now c :
  unexpired key now c ->
  get key now c
  = (match cache c !! key with Some e => value e | None => VNull end, c).
Proof.
  unfold unexpired, get. intros H.
  destruct (cache c !! key) as [e|]; [|reflexivity].
  specialize (H e eq_refl).
  destruct (Z.gtb_spec now (expiry e)); [lia | reflexivity].
Qed.

Lemma get_holds key v e now c :
  holds key v e c -> now <= e -> get key now c = (v, c).
Proof.
  unfold holds. intros H Hle.
  now rewrite (get_live _ _ _ _ H) by exact Hle.
Qed.

(** A truthy value found by a lookup is held, unexpired, by the store,
    which the lookup leaves as it is. *)
Lemma get_truthy key now c :
  truthy (get key now c).1 = true ->
  exists e, holds key (get key now c).1 e c /\ now <= e
            /\ (get key now c).2 = c.
Proof.
  unfold get, holds.
  destruct (cache c !! key) as [[v e]|]; [|discriminate].
  simpl. destruct (Z.gtb_spec now e); [discriminate|].
  intros _. exists e. split; [reflexivity|]. split; [lia | reflexivity].
Qed.

Lemma holds_set key v ttl' now c :
  ttl' <> 0 -> holds key v (now + ttl') (set key v (Some ttl') now c).
Proof.
  intros Hne. unfold holds. rewrite lookup_set. unfold effective_ttl.
  destruct (Z.eqb_spec ttl' 0); [contradiction | reflexivity].
Qed.

Lemma holds_unexpired key v e t c :
  holds key v e c -> unexpired key t c -> t <= e.
Proof. unfold holds, unexpired. intros H Hu. exact (Hu _ H). Qed.

(** Whatever a store holds under [key] after a lookup of [key] is what
    the lookup returned, and the lookup left the store as it was. *)
Lemma get_keeps key v e now c :
  holds key v e (get key now c).2 -> get key now c = (v, c).
Proof.
  unfold holds, get.
  destruct (cache c !! key) as [e0|] eqn:He0.
  - destruct (now >? expiry e0); simpl.
    + now rewrite lookup_delete_eq.
    + rewrite He0. now intros [= ->].
  - simpl. now rewrite He0.
Qed.

End CacheProperties.

(** C1 (as amended).  For every store, key, value and ttl, with [e] the
    time of the [set] plus the ttl (plus the default TTL of the store when
    the ttl is 0): a [get] of the key at any time up to [e] returns the
    value and leaves the store as it is; a [get] after [e] returns null and
    the key is no longer in the map; a [get] of an absent key returns null,
    it raises nothing. *)
Theorem cache_ttl_correctness (c : CacheManager.t) (key : string)
    (v : jsval) (ttl t t' : Z) :
  let c' := CacheManager.set key v (Some ttl) t c in
  let e := t + effective_ttl c ttl in
  (t' <= e -> CacheManager.get key t' c' = (v, c'))
  /\ (e < t' ->
      (CacheManager.get key t' c').1 = VNull
      /\ CacheManager.has key (CacheManager.get key t' c').2 = false)
  /\ (forall k, CacheManager.has k c = false ->
                CacheManager.get k t' c = (VNull, c)).
Proof.
  intros c' e. split; [|split].
  - intros Hle. unfold c'.
    rewrite (get_live _ _ _ _ (lookup_set key v ttl t c)) by exact Hle.
    reflexivity.
  - intros Hlt. unfold c'.
    rewrite (get_expired _ _ _ _ (lookup_set key v ttl t c)) by exact Hlt.
    split; [reflexivity|].
    unfold CacheManager.has, CacheManager.delete. simpl.
    now rewrite lookup_delete_eq.
  - intros k Hk. apply get_absent. unfold CacheManager.has in Hk.
    destruct (CacheManager.cache c !! k); [discriminate | reflexivity].
Qed.

(** C1, the claim as stated, fails for a ttl of 0: one millisecond after
    [set(k, v, 0)] on the one-hour store, [get(k)] still returns the
    value. *)
Lemma cache_ttl_zero_counterexample :
  0 + 0 < 1
  /\ (CacheManager.get "k" 1 (Scenario.stored_for 0)).1 = VStr "v"
  /\ (CacheManager.get "k" 1 (Scenario.stored_for 0)).1 <> VNull.
Proof.
  vm_compute. split; [reflexivity | split; [reflexivity | discriminate]].
Qed.

(** ** Properties of the wrapper *)

Section WrapperProperties.

Context {P : Platform}.

Lemma callGeminiAPI_on_failure prompt useCache cacheTtl fallbackFn w :
  wrapper_miss prompt useCache w ->
  remote_failure prompt w ->
  callGeminiAPI prompt useCache cacheTtl fallbackFn w
  = (match fallbackFn with
     | Some f => through_wrapper (f prompt (after_request prompt w))
     | None => Thrown failed
     end,
     after_failure prompt useCache w).
Proof.
  unfold wrapper_miss, remote_failure, after_failure, after_request.
  intros Hmiss Hfail.
  run_wrapper.
  destruct useCache; simpl.
  - specialize (Hmiss eq_refl).
    destruct (CacheManager.get (generateHash prompt) (now w)
                               (mediumTermCache w)) as [v c] eqn:Hget.
    simpl in Hmiss. rewrite Hmiss. simpl.
    destruct (remote (requests w) prompt) as [d [data|e]]; simpl in *.
    + destruct (generated_text data); [contradiction|].
      destruct fallbackFn as [f|]; simpl; [|reflexivity].
      destruct (f prompt (now w + Z.of_N d)); reflexivity.
    + destruct fallbackFn as [f|]; simpl; [|reflexivity].
      destruct (f prompt (now w + Z.of_N d)); reflexivity.
  - destruct (remote (requests w) prompt) as [d [data|e]]; simpl in *.
    + destruct (generated_text data); [contradiction|].
      destruct fallbackFn as [f|]; simpl; [|reflexivity].
      destruct (f prompt (now w + Z.of_N d)); reflexivity.
    + destruct fallbackFn as [f|]; simpl; [|reflexivity].
      destruct (f prompt (now w + Z.of_N d)); reflexivity.
Qed.

(** Whatever the request brings, a call that finds nothing in the store
    posts one. *)
Lemma callGeminiAPI_posts prompt useCache cacheTtl fallbackFn w :
  wrapper_miss prompt useCache w ->
  requests (callGeminiAPI prompt useCache cacheTtl fallbackFn w).2
  = S (requests w).
Proof.
  unfold wrapper_miss. intros Hmiss.
  run_wrapper.
  destruct useCache; simpl.
  - specialize (Hmiss eq_refl).
    destruct (CacheManager.get (generateHash prompt) (now w)
                               (mediumTermCache w)) as [v c] eqn:Hget.
    simpl in Hmiss. rewrite Hmiss. simpl.
    destruct (remote (requests w) prompt) as [d [data|e]]; simpl.
    + destruct (generated_text data); simpl; [reflexivity|].
      destruct fallbackFn as [f|]; simpl; [|reflexivity].
      destruct (f prompt (now w + Z.of_N d)); reflexivity.
    + destruct fallbackFn as [f|]; simpl; [|reflexivity].
      destruct (f prompt (now w + Z.of_N d)); reflexivity.
  - destruct (remote (requests w) prompt) as [d [data|e]]; simpl.
    + destruct (generated_text data); simpl; [reflexivity|].
      destruct fallbackFn as [f|]; simpl; [|reflexivity].
      destruct (f prompt (now w + Z.of_N d)); reflexivity.
    + destruct fallbackFn as [f|]; simpl; [|reflexivity].
      destruct (f prompt (now w + Z.of_N d)); reflexivity.
Qed.

Lemma callGeminiAPI_on_success prompt useCache cacheTtl fallbackFn w v :
  wrapper_miss prompt useCache w ->
  remote_returns prompt w v ->
  callGeminiAPI prompt useCache cacheTtl fallbackFn w
  = (Returned v, after_success prompt useCache cacheTtl v w).
Proof.
  unfold wrapper_miss, remote_returns, after_success, after_request.
  intros Hmiss Hok. run_wrapper.
  destruct useCache; simpl.
  - specialize (Hmiss eq_refl).
    destruct (CacheManager.get (generateHash prompt) (now w)
                               (mediumTermCache w)) as [v0 c] eqn:Hget.
    simpl in Hmiss. rewrite Hmiss. simpl.
    destruct (remote (requests w) prompt) as [d [data|e]]; simpl in *;
      [|contradiction].
    rewrite Hok. reflexivity.
  - destruct (remote (requests w) prompt) as [d [data|e]]; simpl in *;
      [|contradiction].
    rewrite Hok. reflexivity.
Qed.

(** A lookup of another key in the medium-term store does not change
    what the wrapper finds. *)
Lemma wrapper_miss_looked_medium key prompt useCache w :
  wrapper_miss prompt useCache w ->
  wrapper_miss prompt useCache (looked_medium key w).
Proof.
  unfold wrapper_miss, looked_medium. simpl. intros H Hu.
  rewrite get_get by lia. now apply H.
Qed.

(** C2 (as amended).  For every prompt, when the wrapper finds nothing
    in the store.  If the request it posts fails - axios raises, on a
    network error or a status outside 2xx, or the path
    [candidates[0].content.parts[0]] cannot be followed in the body -
    then with a fallback the call returns exactly what the fallback
    returns for the prompt, and throws the wrapper's error when the
    fallback throws; without a fallback it throws the wrapper's error,
    an [Error] with the message of [failed].  If the path can be
    followed, the request has not failed for the wrapper, whatever the
    first part holds: its [text] is returned, undefined when the part
    has none, and the fallback is not called. *)
Theorem wrapper_failure_semantics (prompt : string) (useCache : bool)
    (cacheTtl : Z) (w : world) :
  wrapper_miss prompt useCache w ->
  (remote_failure prompt w ->
   (forall f : fallback,
       (callGeminiAPI prompt useCache cacheTtl (Some f) w).1
       = match f prompt (after_request prompt w) with
         | Returned v => Returned v
         | Thrown _ => Thrown (Error "Failed to generate content with AI")
         end)
   /\ (callGeminiAPI prompt useCache cacheTtl None w).1
      = Thrown (Error "Failed to generate content with AI"))
  /\ (forall (v : jsval) (fallbackFn : option fallback),
        remote_returns prompt w v ->
        (callGeminiAPI prompt useCache cacheTtl fallbackFn w).1
        = Returned v).
Proof.
  intros Hmiss. split.
  - intros Hfail. split.
    + intros f. now rewrite callGeminiAPI_on_failure by assumption.
    + now rewrite callGeminiAPI_on_failure by assumption.
  - intros v fallbackFn Hok.
    now rewrite (callGeminiAPI_on_success _ _ cacheTtl fallbackFn _ _
                   Hmiss Hok).
Qed.

(** C10 (as amended).  When the request fails and the wrapper returns
    the result of the fallback, the wrapper stores nothing: the
    medium-term store is as the wrapper's own lookup of the key left it,
    and is untouched when the cache is not used.  Hence no entry is
    added or overwritten; an entry under the hash of the prompt that has
    not expired is left as it is, while an expired one has been removed
    by that lookup; a lookup of any key, at any time from then on,
    returns what it would have returned.  The short-term store is
    untouched, and a later call with the same prompt finds nothing in
    the store either and posts a request again. *)
Theorem wrapper_does_not_cache_fallback (prompt : string)
    (useCache : bool) (cacheTtl : Z) (f : fallback) (w : world) :
  wrapper_miss prompt useCache w ->
  remote_failure prompt w ->
  let r := callGeminiAPI prompt useCache cacheTtl (Some f) w in
  let key := generateHash prompt in
  r.1 = through_wrapper (f prompt (after_request prompt w))
  /\ mediumTermCache r.2
     = (if useCache
        then (CacheManager.get key (now w) (mediumTermCache w)).2
        else mediumTermCache w)
  /\ (forall k e,
        CacheManager.cache (mediumTermCache r.2) !! k = Some e ->
        CacheManager.cache (mediumTermCache w) !! k = Some e)
  /\ (forall e,
        CacheManager.cache (mediumTermCache w) !! key = Some e ->
        now w <= CacheManager.expiry e ->
        CacheManager.cache (mediumTermCache r.2) !! key = Some e)
  /\ (forall k t, now w <= t ->
        (CacheManager.get k t (mediumTermCache r.2)).1
        = (CacheManager.get k t (mediumTermCache w)).1)
  /\ shortTermCache r.2 = shortTermCache w
  /\ (forall d cacheTtl' fallbackFn',
        wrapper_miss prompt useCache (elapse d r.2)
        /\ requests (callGeminiAPI prompt useCache cacheTtl' fallbackFn'
                                   (elapse d r.2)).2
           = S (requests r.2)).
Proof.
  intros Hmiss Hfail r key. unfold r, key.
  rewrite callGeminiAPI_on_failure by assumption. simpl.
  split; [reflexivity|]. split; [reflexivity|].
  split; [|split; [|split; [|split]]].
  - intros k e. destruct useCache; [|tauto].
    unfold CacheManager.get.
    destruct (CacheManager.cache (mediumTermCache w) !! generateHash prompt)
      as [e0|]; [|tauto].
    destruct (now w >? CacheManager.expiry e0); [|tauto].
    simpl. intros H. apply lookup_delete_Some in H. tauto.
  - intros e He Hlive. destruct useCache; [|exact He].
    now rewrite (get_live _ _ _ _ He Hlive).
  - intros k t Ht. destruct useCache; [|reflexivity].
    now apply get_get.
  - reflexivity.
  - intros d cacheTtl' fallbackFn'.
    assert (Hagain : wrapper_miss prompt useCache
                       (elapse d (after_failure prompt useCache w))).
    { intros ->. simpl. apply get_falsy_stays. now apply Hmiss. }
    split; [exact Hagain|].
    now rewrite callGeminiAPI_posts.
Qed.

End WrapperProperties.

(** C2, the claim as stated, fails for a response that is malformed in
    that its first part carries no text.  The endpoint answers 200 with
    such a body; nothing is raised in the inner [try], so the fallback,
    which would return a text, is not called: the wrapper returns
    undefined, and stores it for the second under the hash of the
    prompt. *)
Lemma malformed_body_counterexample :
  (remote (Platform := Cases.textless) 0 "prompt").2
  = Returned
      (VObj [("candidates",
              VArr [VObj [("content",
                           VObj [("parts", VArr [VObj []])])]])])
  /\ wrapper_miss (P := Cases.textless) "prompt" true (boot 0)
  /\ ~ remote_failure (P := Cases.textless) "prompt" (boot 0)
  /\ Scenario.local_answer "prompt" 250 = Returned (VStr "local answer")
  /\ (callGeminiAPI (P := Cases.textless) "prompt" true 1000
                    (Some Scenario.local_answer) (boot 0)).1
     = Returned VUndefined
  /\ holds (generateHash (Platform := Cases.textless) "prompt") VUndefined
           1250
           (mediumTermCache
              (callGeminiAPI (P := Cases.textless) "prompt" true 1000
                             (Some Scenario.local_answer) (boot 0)).2).
Proof.
  split; [reflexivity|]. split; [intros _; reflexivity|].
  split; [intros H; exact H|]. split; [reflexivity|].
  split; [reflexivity|]. vm_compute. reflexivity.
Qed.

(** ** Properties of the sort and of the counters *)

Section SortProperties.

Context {A : Type} (cmp : A -> A -> Z).

Lemma insert_by_perm x l : Permutation (insert_by cmp x l) (x :: l).
Proof.
  induction l as [|y r IH]; simpl; [reflexivity|].
  destruct (cmp x y <=? 0); [reflexivity|].
  rewrite IH. apply perm_swap.
Qed.

Lemma sort_by_perm l : Permutation (sort_by cmp l) l.
Proof.
  induction l as [|x r IH]; simpl; [reflexivity|].
  rewrite insert_by_perm. now rewrite IH.
Qed.

Lemma sort_by_length l : length (sort_by cmp l) = length l.
Proof. apply Permutation_length, sort_by_perm. Qed.

Lemma sort_by_nil l : sort_by cmp l = [] -> l = [].
Proof.
  intros H. apply length_zero_iff_nil.
  rewrite <- sort_by_length, H. reflexivity.
Qed.

Hypothesis before_total : forall a b, before cmp a b \/ before cmp b a.
Hypothesis before_trans :
  forall a b c, before cmp a b -> before cmp b c -> before cmp a c.

Lemma insert_by_sorted x l :
  StronglySorted (before cmp) l ->
  StronglySorted (before cmp) (insert_by cmp x l).
Proof.
  induction 1 as [|y r Hs IH Hall]; simpl.
  - repeat constructor.
  - destruct (Z.leb_spec (cmp x y) 0) as [Hxy|Hxy].
    + constructor; [now constructor|].
      constructor; [exact Hxy|].
      eapply List.Forall_impl; [|exact Hall].
      intros z Hyz. now apply before_trans with y.
    + constructor; [exact IH|].
      assert (Hyx : before cmp y x).
      { destruct (before_total x y) as [H|H]; [|exact H].
        unfold before in H. lia. }
      eapply Permutation_Forall; [symmetry; apply insert_by_perm|].
      now constructor.
Qed.

Lemma sort_by_sorted l : StronglySorted (before cmp) (sort_by cmp l).
Proof.
  induction l as [|x r IH]; simpl; [constructor|].
  now apply insert_by_sorted.
Qed.

(** The head of the sorted list may stand before every element. *)
Lemma sort_by_head x r l :
  sort_by cmp l = x :: r -> forall y, In y l -> before cmp x y.
Proof.
  intros Hs y Hy.
  assert (Hin : In y (x :: r)).
  { rewrite <- Hs. eapply Permutation_in; [|exact Hy].
    symmetry. apply sort_by_perm. }
  pose proof (sort_by_sorted l) as Hsorted. rewrite Hs in Hsorted.
  inversion Hsorted as [|? ? _ Hall]; subst.
  destruct Hin as [<-|Hin].
  - destruct (before_total x x); assumption.
  - rewrite List.Forall_forall in Hall. now apply Hall.
Qed.

End SortProperties.

Section CounterProperties.

(** The vocabulary of the recency rule and the tests of the code. *)
Lemma filed_category_of t : filed t = category_of t.
Proof.
  unfold filed, category_of. destruct (category t) as [c|]; [|reflexivity].
  now destruct c.
Qed.

Lemma omap_filed (l : list task) : omap filed l = omap category_of l.
Proof.
  induction l as [|t r IH]; [reflexivity|].
  change (omap filed (t :: r))
    with (match filed t with
          | Some c => c :: omap filed r
          | None => omap filed r
          end).
  change (omap category_of (t :: r))
    with (match category_of t with
          | Some c => c :: omap category_of r
          | None => omap category_of r
          end).
  now rewrite filed_category_of, IH.
Qed.

Lemma recentCategories_newest tasks :
  omap filed (firstn 5 (newest_to_oldest tasks)) = recentCategories tasks.
Proof. apply omap_filed. Qed.

Lemma usage_counts tasks c :
  usage tasks c
  = Z.of_nat (length (List.filter (String.eqb c) (omap category_of tasks))).
Proof. unfold usage. now rewrite omap_filed. Qed.

Lemma stored_count_one k c o :
  stored k (count_one c o) = stored k o + (if String.eqb c k then 1 else 0).
Proof.
  induction o as [|[k' n] r IH]; simpl.
  - destruct (String.eqb c k); lia.
  - destruct (String.eqb_spec k' c) as [->|Hne]; simpl.
    + destruct (String.eqb c k); lia.
    + destruct (String.eqb_spec k' k) as [->|Hk].
      * destruct (String.eqb_spec c k); [congruence | lia].
      * exact IH.
Qed.

Lemma keys_count_one k c o :
  In k (map fst (count_one c o)) <-> k = c \/ In k (map fst o).
Proof.
  induction o as [|[k' n] r IH]; simpl.
  - intuition.
  - destruct (String.eqb_spec k' c) as [->|Hne]; simpl.
    + intuition.
    + rewrite IH. intuition.
Qed.

Lemma keys_count_one_NoDup c o :
  NoDup (map fst o) -> NoDup (map fst (count_one c o)).
Proof.
  induction o as [|[k' n] r IH]; simpl; intros Hnd.
  - repeat constructor. cbn. apply not_elem_of_nil.
  - apply NoDup_cons in Hnd as [Hnot Hnd].
    destruct (String.eqb_spec k' c) as [->|Hne]; simpl.
    + apply NoDup_cons. split; assumption.
    + apply NoDup_cons. split; [|now apply IH].
      rewrite list_elem_of_In, keys_count_one. rewrite list_elem_of_In in Hnot.
      intros [->|Hin]; [congruence | contradiction].
Qed.

Lemma stored_In k n o :
  NoDup (map fst o) -> In (k, n) o -> stored k o = n.
Proof.
  induction o as [|[k' n'] r IH]; simpl; intros Hnd Hin; [contradiction|].
  apply NoDup_cons in Hnd as [Hnot Hnd].
  destruct Hin as [Heq|Hin].
  - inversion Heq; subst. now rewrite String.eqb_refl.
  - destruct (String.eqb_spec k' k) as [->|Hne]; [|now apply IH].
    exfalso. apply Hnot. rewrite list_elem_of_In.
    change k with (fst (k, n)). now apply in_map.
Qed.


Lemma stored_count_all k l o :
  stored k (count_all o l)
  = stored k o + Z.of_nat (length (List.filter (String.eqb k) l)).
Proof.
  revert o. induction l as [|c r IH]; intros o; simpl; [lia|].
  unfold count_all in *. simpl. rewrite IH, stored_count_one.
  rewrite (String.eqb_sym k c).
  destruct (String.eqb c k); simpl; lia.
Qed.

Lemma keys_count_all k l o :
  In k (map fst (count_all o l)) <-> In k (map fst o) \/ In k l.
Proof.
  revert o. induction l as [|c r IH]; intros o; simpl; [intuition|].
  unfold count_all in *. simpl. rewrite IH, keys_count_one. intuition.
Qed.

Lemma keys_count_all_NoDup l o :
  NoDup (map fst o) -> NoDup (map fst (count_all o l)).
Proof.
  revert o. induction l as [|c r IH]; intros o Hnd; simpl; [exact Hnd|].
  unfold count_all in *. simpl. apply IH. now apply keys_count_one_NoDup.
Qed.

Lemma stored_counted tasks k : stored k (counted tasks) = usage tasks k.
Proof.
  unfold counted. rewrite stored_count_all, usage_counts. simpl. reflexivity.
Qed.

Lemma usage_positive tasks c :
  In c (omap category_of tasks) -> 0 < usage tasks c.
Proof.
  rewrite usage_counts. intros Hin.
  assert (Hf : In c (List.filter (String.eqb c) (omap category_of tasks))).
  { apply filter_In. split; [exact Hin | apply String.eqb_refl]. }
  destruct (List.filter (String.eqb c) (omap category_of tasks));
    [contradiction | simpl; lia].
Qed.

Lemma usage_nonneg tasks c : 0 <= usage tasks c.
Proof. unfold usage. lia. Qed.

Lemma entries_perm {V} (o : list (string * V)) : Permutation (entries o) o.
Proof.
  unfold entries. rewrite sort_by_perm.
  induction o as [|kv r IH]; simpl; [reflexivity|].
  destruct (is_index_key kv); simpl.
  - now rewrite IH.
  - rewrite <- Permutation_middle. now rewrite IH.
Qed.

(** The counter of the code. *)
Lemma categoryFrequency_fold tasks :
  categoryFrequency tasks = bump_all [] (omap category_of tasks).
Proof.
  unfold categoryFrequency, bump_all. generalize (@nil (string * tally)).
  induction tasks as [|t r IH]; intros o; simpl; [reflexivity|].
  destruct (category_of t); simpl; apply IH.
Qed.

Lemma keys_bump_own k c first o :
  In k (map fst (bump_own c first o)) <-> k = c \/ In k (map fst o).
Proof.
  induction o as [|[k' v] r IH]; simpl.
  - intuition.
  - destruct (String.eqb_spec k' c) as [->|Hne]; simpl.
    + intuition.
    + rewrite IH. intuition.
Qed.

(** The object holds the keys counted, [__proto__] apart. *)
Lemma keys_bump k c o :
  In k (map fst (bump c o))
  <-> (k = c /\ c <> "__proto__") \/ In k (map fst o).
Proof.
  unfold bump. destruct (String.eqb_spec c "__proto__") as [->|Hne].
  - intuition.
  - rewrite keys_bump_own. intuition.
Qed.

Lemma keys_bump_all k l o :
  In k (map fst (bump_all o l))
  <-> In k (map fst o) \/ (In k l /\ k <> "__proto__").
Proof.
  revert o. induction l as [|c r IH]; intros o; simpl; [intuition|].
  unfold bump_all in *. simpl. rewrite IH, keys_bump.
  intuition; subst; intuition.
Qed.

Lemma inherited_proto c : inherited c = None -> c <> "__proto__".
Proof. intros H ->. discriminate. Qed.

(** For a key that names no member of [Object.prototype], counting in
    a counter of numbers gives a counter of numbers. *)
Lemma bump_plain c o :
  inherited c = None -> bump c (numbers o) = numbers (count_one c o).
Proof.
  intros Hc. unfold bump. rewrite Hc.
  destruct (String.eqb_spec c "__proto__") as [->|_]; [discriminate|].
  induction o as [|[k n] r IH]; simpl; [reflexivity|].
  destruct (String.eqb k c); simpl; [reflexivity|]. now rewrite IH.
Qed.

Lemma bump_all_plain l o :
  plain_names l -> bump_all (numbers o) l = numbers (count_all o l).
Proof.
  revert o. induction l as [|c r IH]; intros o Hl; [reflexivity|].
  unfold bump_all, count_all in *. simpl.
  rewrite bump_plain by (apply Hl; now left).
  apply IH. intros c' Hc'. apply Hl. now right.
Qed.

Lemma categoryFrequency_plain tasks :
  plain_names (omap category_of tasks) ->
  categoryFrequency tasks = numbers (counted tasks).
Proof.
  intros H. rewrite categoryFrequency_fold. unfold counted.
  now apply (bump_all_plain _ []).
Qed.

Lemma insert_by_map {A B} (f : A -> B) (cmp : A -> A -> Z)
    (cmp' : B -> B -> Z) x l :
  (forall a b, cmp' (f a) (f b) = cmp a b) ->
  insert_by cmp' (f x) (map f l) = map f (insert_by cmp x l).
Proof.
  intros H. induction l as [|y r IH]; simpl; [reflexivity|].
  rewrite H. destruct (cmp x y <=? 0); simpl; [reflexivity|].
  now rewrite IH.
Qed.

Lemma sort_by_map {A B} (f : A -> B) (cmp : A -> A -> Z)
    (cmp' : B -> B -> Z) l :
  (forall a b, cmp' (f a) (f b) = cmp a b) ->
  sort_by cmp' (map f l) = map f (sort_by cmp l).
Proof.
  intros H. induction l as [|x r IH]; simpl; [reflexivity|].
  change (foldr (insert_by cmp') [] (map f r)) with (sort_by cmp' (map f r)).
  rewrite IH. now apply insert_by_map.
Qed.

Lemma filter_map_key {A B} (f : A -> B) (p : B -> bool) l :
  List.filter p (map f l) = map f (List.filter (fun x => p (f x)) l).
Proof.
  induction l as [|x r IH]; simpl; [reflexivity|].
  destruct (p (f x)); simpl; now rewrite IH.
Qed.

Lemma entries_numbers o : entries (numbers o) = numbers (entries o).
Proof.
  unfold entries, numbers. rewrite !filter_map_key, map_app.
  f_equal. now apply sort_by_map.
Qed.

(** The sorted entries of a counter of numbers. *)
Lemma sortedCategories_numbers o :
  sort_by most_used_first (entries (numbers o))
  = numbers (sort_by larger_first (entries o)).
Proof. rewrite entries_numbers. now apply sort_by_map. Qed.

End CounterProperties.

(** ** Properties of the category prediction *)

Section StatisticalProperties.

Lemma In_firstn {A} (x : A) n l : In x (firstn n l) -> In x l.
Proof.
  revert l. induction n as [|n IH]; intros [|y r]; simpl; try tauto.
  intros [->|H]; [now left | right; now apply IH].
Qed.

Lemma In_omap {A B} (f : A -> option B) l y :
  In y (omap f l) <-> exists x, In x l /\ f x = Some y.
Proof.
  rewrite <- list_elem_of_In, list_elem_of_omap.
  split; intros [x [Hx Hf]]; exists x; split; try assumption;
    now apply list_elem_of_In.
Qed.

Lemma recentCategories_sub tasks c :
  In c (recentCategories tasks) -> In c (omap category_of tasks).
Proof.
  unfold recentCategories. rewrite !In_omap.
  intros [t [Ht Hc]]. exists t. split; [|exact Hc].
  apply In_firstn in Ht.
  eapply Permutation_in; [apply sort_by_perm | exact Ht].
Qed.

Lemma category_of_carried tasks c :
  In c (omap category_of tasks) -> carried tasks c.
Proof.
  rewrite In_omap. intros [t [Ht Hc]]. exists t. split; [exact Ht|].
  unfold category_of in Hc. destruct (category t) as [c'|]; [|discriminate].
  destruct (Str.is_empty c'); [discriminate | exact Hc].
Qed.

Lemma plain_categories_names tasks :
  plain_categories tasks -> plain_names (omap category_of tasks).
Proof. intros H c Hc. apply H. now apply category_of_carried. Qed.

(** The counter has a member as soon as a task carries a category other
    than [__proto__]. *)
Lemma frequency_has_entries tasks c :
  In c (omap category_of tasks) -> c <> "__proto__" ->
  (length (entries (categoryFrequency tasks)) =? 0)%nat = false.
Proof.
  intros Hin Hc. apply Nat.eqb_neq.
  rewrite (Permutation_length (entries_perm _)).
  assert (Hk : In c (map fst (categoryFrequency tasks))).
  { rewrite categoryFrequency_fold, keys_bump_all. right. now split. }
  destruct (categoryFrequency tasks); [contradiction | simpl; lia].
Qed.

Lemma larger_first_total (a b : string * Z) :
  before larger_first a b \/ before larger_first b a.
Proof. unfold before, larger_first. lia. Qed.

Lemma larger_first_trans (a b c : string * Z) :
  before larger_first a b -> before larger_first b c ->
  before larger_first a c.
Proof. unfold before, larger_first. lia. Qed.

(** The head of the sorted entries of the counter of numbers is a most
    used category. *)
Lemma sortedCategories_head tasks c n rest :
  sort_by larger_first (entries (counted tasks)) = (c, n) :: rest ->
  most_used tasks c.
Proof.
  intros Hs.
  assert (Hnd : NoDup (map fst (counted tasks))).
  { apply keys_count_all_NoDup. constructor. }
  assert (Hin : In (c, n) (counted tasks)).
  { eapply Permutation_in; [apply entries_perm|].
    eapply Permutation_in; [apply sort_by_perm|].
    rewrite Hs. now left. }
  assert (Hn : n = usage tasks c).
  { rewrite <- stored_counted. symmetry. now apply stored_In. }
  split.
  - apply usage_positive.
    assert (Hk : In c (map fst (counted tasks))).
    { change c with (fst (c, n)). now apply in_map. }
    unfold counted in Hk. rewrite keys_count_all in Hk.
    destruct Hk as [[]|Hk]. exact Hk.
  - intros c'.
    destruct (in_dec string_dec c' (map fst (counted tasks)))
      as [Hk|Hk].
    + apply in_map_iff in Hk as [[k' n'] [Hfst Hin']]. simpl in Hfst. subst k'.
      assert (Hn' : n' = usage tasks c').
      { rewrite <- stored_counted. symmetry. now apply stored_In. }
      assert (Hb : before larger_first (c, n) (c', n')).
      { eapply sort_by_head;
          [apply larger_first_total | apply larger_first_trans
          | exact Hs |].
        eapply Permutation_in; [symmetry; apply entries_perm | exact Hin']. }
      unfold before, larger_first in Hb. simpl in Hb. lia.
    + assert (H0 : usage tasks c' = 0).
      { rewrite <- stored_counted.
        clear -Hk. induction (counted tasks) as [|[k' n'] r IH];
          simpl in *; [reflexivity|].
        destruct (String.eqb_spec k' c'); [tauto | apply IH; tauto]. }
      rewrite H0, <- Hn.
      assert (0 < usage tasks c); [|lia].
      apply usage_positive.
      assert (Hkc : In c (map fst (counted tasks))).
      { change c with (fst (c, n)). now apply in_map. }
      unfold counted in Hkc. rewrite keys_count_all in Hkc.
      destruct Hkc as [[]|Hkc]. exact Hkc.
Qed.

Lemma recurs_recently_rule tasks c :
  recurs_recently tasks c <->
  recent_rule (recentCategories tasks) = Some c.
Proof.
  unfold recurs_recently, recent_rule.
  rewrite recentCategories_newest. split.
  - intros [next [rest [-> Hcount]]].
    apply Nat.leb_le in Hcount. now rewrite Hcount.
  - destruct (recentCategories tasks) as [|c0 [|next rest]];
      try discriminate.
    destruct (Nat.leb_spec 2
      (length (List.filter (String.eqb c0) (firstn 3 (c0 :: next :: rest)))));
      [|discriminate].
    intros [= ->]. now exists next, rest.
Qed.

End StatisticalProperties.

(** C3, the claim as stated, fails: in a history whose categorized tasks
    are B, A, A, C, C, C (newest first), two of the three most recent share
    the category A, and the statistical path predicts C, the most used. *)
Lemma recency_rule_counterexample :
  recent_three Scenario.six_tasks = ["B"; "A"; "A"]
  /\ two_of_three_share Scenario.six_tasks "A"
  /\ (statisticalPrediction "key" Scenario.six_tasks (boot 0)).1
     = Returned (VStr "C")
  /\ (statisticalPrediction "key" Scenario.six_tasks (boot 0)).1
     <> Returned (VStr "A").
Proof.
  split; [reflexivity|]. split; [vm_compute; lia|].
  split; [reflexivity | discriminate].
Qed.

(** The condition on the names is needed.  A category named constructor
    is read from [Object.prototype] the first time: its count is the
    text of the function [Object] followed by 1s, which no number
    compares with, and for the history A, constructor, constructor
    (newest first) the prediction is A, used once.  A category named
    [__proto__] is never written: for a history filed under it alone the
    counter is empty, and there is no prediction. *)
Example prototype_named_categories :
  categoryFrequency Cases.constructor_tasks
  = [("A", Times 1);
     ("constructor", Text "function Object() { [native code] }11")]
  /\ usage Cases.constructor_tasks "A"
     < usage Cases.constructor_tasks "constructor"
  /\ (statisticalPrediction "key" Cases.constructor_tasks (boot 0)).1
     = Returned (VStr "A")
  /\ categoryFrequency Cases.proto_tasks = []
  /\ (statisticalPrediction "key" Cases.proto_tasks (boot 0)).1
     = Returned VNull.
Proof.
  split; [reflexivity|]. split; [vm_compute; reflexivity|].
  split; [reflexivity|]. split; reflexivity.
Qed.

Section PredictionProperties.

Context {P : Platform}.

Lemma distinct_sub l c : In c (distinct l) -> In c l.
Proof.
  induction l as [|x r IH]; simpl; [tauto|].
  intros [->|H]; [now left|].
  right. apply IH. now apply filter_In in H as [H _].
Qed.


Lemma uncategorized_omap tasks :
  uncategorized tasks -> omap category_of tasks = [].
Proof.
  induction tasks as [|t r IH]; intros H; [reflexivity|].
  cbn. rewrite (H t (or_introl eq_refl)).
  apply IH. intros t' Ht'. apply H. now right.
Qed.

Lemma find_first_In {A} (p : A -> bool) l x :
  find_first p l = Some x -> In x l.
Proof. intros H. now apply find_some in H as [H _]. Qed.

Lemma mem_In x l : mem x l = true -> In x l.
Proof.
  unfold mem. rewrite existsb_exists. intros [y [Hy Heq]].
  apply String.eqb_eq in Heq. now subst.
Qed.

(** A prediction returned from the inner [try] is one of the categories
    of the tasks. *)
Lemma contextualPrediction_sound cacheKey t tasks w v w' :
  contextualPrediction cacheKey t tasks w = (Returned (Some v), w') ->
  exists c, v = VStr c /\ In c (omap category_of tasks).
Proof.
  unfold contextualPrediction.
  destruct (0 <? length (categories_of tasks))%nat; [|discriminate].
  run_M.
  match goal with
  | |- context [callGeminiAPI ?p ?u ?l ?f w] =>
      destruct (callGeminiAPI p u l f w) as [[ai|e] w1]
  end; [|discriminate].
  destruct (as_string ai) as [text|e]; [|discriminate].
  destruct (mem (clean_prediction text) (categories_of tasks)) eqn:Hmem.
  - intros [= <- _]. eexists. split; [reflexivity|].
    apply distinct_sub. now apply mem_In.
  - destruct (find_first (close_to (clean_prediction text))
                         (categories_of tasks)) as [c|] eqn:Hfind;
      [|discriminate].
    intros [= <- _]. exists c. split; [reflexivity|].
    apply distinct_sub. now apply find_first_In in Hfind.
Qed.

(** The inner [try] posts no request when no task carries a category. *)
Lemma contextualPrediction_uncategorized cacheKey t tasks w :
  uncategorized tasks ->
  contextualPrediction cacheKey t tasks w = (Returned None, w).
Proof.
  intros H. unfold contextualPrediction, categories_of.
  now rewrite (uncategorized_omap _ H).
Qed.

Lemma statisticalPrediction_sound cacheKey tasks w v w' :
  statisticalPrediction cacheKey tasks w = (Returned v, w') ->
  v = VNull \/ exists c, v = VStr c /\ In c (omap category_of tasks).
Proof.
  unfold statisticalPrediction.
  destruct (length (entries (categoryFrequency tasks)) =? 0)%nat;
    [intros [= <- _]; now left|].
  destruct (recent_rule (recentCategories tasks)) as [c|] eqn:Hr.
  - run_M. intros [= <- _]. right. exists c. split; [reflexivity|].
    apply recentCategories_sub.
    apply recurs_recently_rule in Hr as [n [r [Hr _]]].
    rewrite recentCategories_newest in Hr. rewrite Hr. now left.
  - destruct (sort_by most_used_first (entries (categoryFrequency tasks)))
      as [|[c n] rest] eqn:Hs; [discriminate|].
    run_M. intros [= <- _]. right. exists c. split; [reflexivity|].
    assert (Hin : In (c, n) (categoryFrequency tasks)).
    { eapply Permutation_in; [apply entries_perm|].
      eapply Permutation_in; [apply sort_by_perm|].
      rewrite Hs. now left. }
    assert (Hk : In c (map fst (categoryFrequency tasks))).
    { change c with (fst (c, n)). now apply in_map. }
    rewrite categoryFrequency_fold, keys_bump_all in Hk.
    destruct Hk as [[]|[Hk _]]. exact Hk.
Qed.

Lemma statisticalPrediction_uncategorized cacheKey tasks w :
  uncategorized tasks ->
  statisticalPrediction cacheKey tasks w = (Returned VNull, w).
Proof.
  intros H. unfold statisticalPrediction.
  rewrite categoryFrequency_fold, (uncategorized_omap _ H). reflexivity.
Qed.

End PredictionProperties.

Section PredictNextCategory.

Context {P : Platform}.

(** [predictNextCategory] on a history without tasks. *)
Lemma predict_empty userId supplied taskTitle w :
  history userId supplied = Returned [] ->
  predictNextCategory userId supplied taskTitle w = (Returned VNull, w).
Proof.
  unfold history, predictNextCategory, predictNextCategory_body.
  intros H. destruct supplied as [l|]; run_M.
  - injection H as ->. reflexivity.
  - rewrite H. reflexivity.
Qed.

(** [predictNextCategory] when the short-term store holds a live, truthy
    value under the key. *)
Lemma predict_hit userId supplied taskTitle w tasks :
  history userId supplied = Returned tasks ->
  tasks <> [] ->
  ~ short_miss (predictionKey userId tasks taskTitle) w ->
  predictNextCategory userId supplied taskTitle w
  = (Returned (CacheManager.get (predictionKey userId tasks taskTitle)
                                (now w) (shortTermCache w)).1,
     looked_short (predictionKey userId tasks taskTitle) w).
Proof.
  unfold history, predictNextCategory, predictNextCategory_body,
    short_miss, looked_short.
  intros H Hne Hhit.
  assert (Hlen : (length tasks =? 0)%nat = false).
  { destruct tasks; [congruence | reflexivity]. }
  apply not_false_is_true in Hhit.
  destruct supplied as [l|]; run_M.
  - injection H as ->. rewrite Hlen.
    destruct (CacheManager.get _ (now w) (shortTermCache w)) as [v c].
    simpl in *. rewrite Hhit. reflexivity.
  - rewrite H, Hlen.
    destruct (CacheManager.get _ (now w) (shortTermCache w)) as [v c].
    simpl in *. rewrite Hhit. reflexivity.
Qed.

(** [predictNextCategory] when the store holds nothing under the key. *)
Lemma predict_miss userId supplied taskTitle w tasks :
  history userId supplied = Returned tasks ->
  tasks <> [] ->
  short_miss (predictionKey userId tasks taskTitle) w ->
  predictNextCategory userId supplied taskTitle w
  = after_miss userId tasks taskTitle
               (looked_short (predictionKey userId tasks taskTitle) w).
Proof.
  unfold history, predictNextCategory, predictNextCategory_body,
    short_miss, looked_short, after_miss.
  intros H Hne Hmiss.
  assert (Hlen : (length tasks =? 0)%nat = false).
  { destruct tasks; [congruence | reflexivity]. }
  destruct supplied as [l|]; run_M.
  - injection H as ->. rewrite Hlen.
    destruct (CacheManager.get _ (now w) (shortTermCache w)) as [v c].
    simpl in *. rewrite Hmiss. reflexivity.
  - rewrite H, Hlen.
    destruct (CacheManager.get _ (now w) (shortTermCache w)) as [v c].
    simpl in *. rewrite Hmiss. reflexivity.
Qed.

Lemma after_miss_sound userId tasks taskTitle w :
  (after_miss userId tasks taskTitle w).1 = Returned VNull
  \/ exists c, (after_miss userId tasks taskTitle w).1 = Returned (VStr c)
               /\ carried tasks c.
Proof.
  unfold after_miss, computePrediction.
  set (key := predictionKey userId tasks taskTitle).
  assert (Hstat : forall w0,
    (try_catch (statisticalPrediction key tasks)
               (fun _ => ret VNull) w0).1 = Returned VNull
    \/ exists c, (try_catch (statisticalPrediction key tasks)
                            (fun _ => ret VNull) w0).1 = Returned (VStr c)
                 /\ carried tasks c).
  { intros w0. run_M.
    destruct (statisticalPrediction key tasks w0) as [[v|e] w1] eqn:Hs;
      [|now left].
    apply statisticalPrediction_sound in Hs as [->|[c [-> Hc]]];
      [now left|].
    right. exists c. split; [reflexivity | now apply category_of_carried]. }
  assert (Hctx : forall t w0,
    (try_catch
       (let* contextual :=
          try_catch (contextualPrediction key t tasks)
                    (fun _ => ret None) in
        match contextual with
        | Some prediction => ret prediction
        | None => statisticalPrediction key tasks
        end) (fun _ => ret VNull) w0).1 = Returned VNull
    \/ exists c,
        (try_catch
           (let* contextual :=
              try_catch (contextualPrediction key t tasks)
                        (fun _ => ret None) in
            match contextual with
            | Some prediction => ret prediction
            | None => statisticalPrediction key tasks
            end) (fun _ => ret VNull) w0).1 = Returned (VStr c)
        /\ carried tasks c).
  { intros t w0. specialize (Hstat). run_M.
    destruct (contextualPrediction key t tasks w0) as [[[v|]|e] w1] eqn:Hc.
    - apply contextualPrediction_sound in Hc as [c [-> Hc]].
      right. exists c. split; [reflexivity | now apply category_of_carried].
    - specialize (Hstat w1). revert Hstat. run_M. tauto.
    - specialize (Hstat w1). revert Hstat. run_M. tauto. }
  destruct taskTitle as [t|].
  - destruct (negb (Str.is_empty t) && (5 <=? length tasks)%nat).
    + apply Hctx.
    + specialize (Hstat w). revert Hstat. run_M. tauto.
  - specialize (Hstat w). revert Hstat. run_M. tauto.
Qed.

Lemma computePrediction_uncategorized key tasks taskTitle w :
  uncategorized tasks ->
  computePrediction key tasks taskTitle w = (Returned VNull, w).
Proof.
  intros H. unfold computePrediction. run_M.
  destruct taskTitle as [t|].
  - destruct (negb (Str.is_empty t) && (5 <=? length tasks)%nat).
    + rewrite contextualPrediction_uncategorized by exact H.
      now rewrite statisticalPrediction_uncategorized.
    + now rewrite statisticalPrediction_uncategorized.
  - now rewrite statisticalPrediction_uncategorized.
Qed.

Lemma after_miss_uncategorized userId tasks taskTitle w :
  uncategorized tasks ->
  after_miss userId tasks taskTitle w = (Returned VNull, w).
Proof.
  intros H. unfold after_miss, computePrediction. run_M.
  destruct taskTitle as [t|].
  - destruct (negb (Str.is_empty t) && (5 <=? length tasks)%nat).
    + rewrite contextualPrediction_uncategorized by exact H.
      now rewrite statisticalPrediction_uncategorized.
    + now rewrite statisticalPrediction_uncategorized.
  - now rewrite statisticalPrediction_uncategorized.
Qed.

End PredictNextCategory.

Section PredictionClaims.

Context {P : Platform}.

(** The statistical prediction has the same value whatever the key and
    the state of the process. *)
Lemma statisticalPrediction_value key key' tasks w w' :
  (statisticalPrediction key tasks w).1
  = (statisticalPrediction key' tasks w').1.
Proof.
  unfold statisticalPrediction.
  destruct (length (entries (categoryFrequency tasks)) =? 0)%nat;
    [reflexivity|].
  destruct (recent_rule (recentCategories tasks)); [reflexivity|].
  destruct (sort_by most_used_first (entries (categoryFrequency tasks)))
    as [|[c n] rest]; reflexivity.
Qed.

Lemma statisticalPrediction_normal key tasks w :
  exists v w', statisticalPrediction key tasks w = (Returned v, w').
Proof.
  unfold statisticalPrediction.
  destruct (length (entries (categoryFrequency tasks)) =? 0)%nat eqn:Hlen;
    [now eexists _, _|].
  destruct (recent_rule (recentCategories tasks)); [now eexists _, _|].
  destruct (sort_by most_used_first (entries (categoryFrequency tasks)))
    as [|[c n] rest] eqn:Hs; [|now eexists _, _].
  apply sort_by_nil in Hs. rewrite Hs in Hlen. discriminate.
Qed.

(** C3 (as amended).  When no task is filed under a category that names
    a member of [Object.prototype], the statistical prediction is this:
    when, of the five most recent tasks, those that are filed under a
    category are two or more and the category of the newest of them
    occurs twice or more among the first three of them, that category;
    otherwise, when some task is filed under a category, a most used
    category.  In particular, when the three most recent tasks are filed
    under A, A, B (newest first), A is predicted.  And the prediction of
    [predictNextCategory] is the statistical prediction whenever nothing
    is cached under the key of the call and the title is missing or
    empty or the history has fewer than five tasks. *)
Theorem statistical_recency_rule (cacheKey : string) (tasks : list task)
    (w : world) :
  plain_categories tasks ->
  (forall c, recurs_recently tasks c ->
     (statisticalPrediction cacheKey tasks w).1 = Returned (VStr c))
  /\ ((forall c, ~ recurs_recently tasks c) ->
      (exists c, In c (omap filed tasks)) ->
      exists c, (statisticalPrediction cacheKey tasks w).1
                = Returned (VStr c)
                /\ most_used tasks c)
  /\ (forall a b,
        map filed (firstn 3 (newest_to_oldest tasks))
        = [Some a; Some a; Some b] ->
        (statisticalPrediction cacheKey tasks w).1 = Returned (VStr a))
  /\ (forall userId supplied taskTitle w0,
        history userId supplied = Returned tasks ->
        short_miss (predictionKey userId tasks taskTitle) w0 ->
        (length tasks < 5)%nat
        \/ default EmptyString taskTitle = EmptyString ->
        (predictNextCategory userId supplied taskTitle w0).1
        = (statisticalPrediction cacheKey tasks w).1).
Proof.
  intros Hplain0.
  pose proof (plain_categories_names _ Hplain0) as Hplain.
  assert (Hentries : forall c, In c (omap category_of tasks) ->
            (length (entries (categoryFrequency tasks)) =? 0)%nat = false).
  { intros c Hc. apply frequency_has_entries with c; [exact Hc|].
    apply inherited_proto, Hplain, Hc. }
  assert (Hrule : forall c, recurs_recently tasks c ->
            (statisticalPrediction cacheKey tasks w).1 = Returned (VStr c)).
  { intros c Hc.
    assert (Hin : In c (omap category_of tasks)).
    { apply recentCategories_sub. rewrite <- recentCategories_newest.
      destruct Hc as [n [r [Hc _]]]. rewrite Hc. now left. }
    apply recurs_recently_rule in Hc.
    unfold statisticalPrediction.
    rewrite (Hentries _ Hin), Hc. reflexivity. }
  split; [exact Hrule|]. split; [|split].
  - intros Hnone [c0 Hin]. rewrite omap_filed in Hin.
    pose proof (Hentries _ Hin) as Hne.
    unfold statisticalPrediction. rewrite Hne.
    destruct (recent_rule (recentCategories tasks)) as [c|] eqn:Hr.
    { exfalso. apply (Hnone c). now apply recurs_recently_rule. }
    rewrite (categoryFrequency_plain _ Hplain) in *.
    rewrite sortedCategories_numbers.
    destruct (sort_by larger_first (entries (counted tasks)))
      as [|[c n] rest] eqn:Hs.
    { apply sort_by_nil in Hs.
      rewrite entries_numbers, Hs in Hne. discriminate. }
    exists c. split; [reflexivity|].
    now apply sortedCategories_head with n rest.
  - intros a b Hthree. apply Hrule.
    unfold recurs_recently, newest_to_oldest in *.
    destruct (sort_by _ tasks) as [|t1 [|t2 [|t3 r]]];
      try discriminate.
    simpl in Hthree. injection Hthree as H1 H2 H3.
    change (firstn 5 (t1 :: t2 :: t3 :: r))
      with (t1 :: t2 :: t3 :: firstn 2 r).
    simpl. rewrite H1, H2, H3.
    exists a, (b :: omap filed (firstn 2 r)). split; [reflexivity|].
    simpl. rewrite String.eqb_refl. simpl.
    destruct (a =? b)%string; simpl; lia.
  - intros userId supplied taskTitle w0 Hh Hmiss Hcond.
    assert (Hcase : tasks = [] \/ tasks <> [])
      by (destruct tasks; [left | right]; congruence).
    destruct Hcase as [->|Hne].
    { rewrite predict_empty by exact Hh. reflexivity. }
    rewrite (predict_miss _ _ _ _ _ Hh Hne Hmiss).
    unfold after_miss, computePrediction.
    set (key := predictionKey userId tasks taskTitle).
    assert (Hskip :
      match taskTitle with
      | Some t =>
          if negb (Str.is_empty t) && (5 <=? length tasks)%nat
          then try_catch (contextualPrediction key t tasks)
                         (fun _ => ret None)
          else ret None
      | None => ret None
      end = ret None).
    { destruct taskTitle as [t|]; [|reflexivity].
      destruct Hcond as [Hlen|Ht].
      - replace (5 <=? length tasks)%nat with false
          by (symmetry; apply Nat.leb_gt; lia).
        now rewrite andb_false_r.
      - simpl in Ht. subst t. reflexivity. }
    rewrite Hskip. run_M.
    destruct (statisticalPrediction_normal key tasks (looked_short key w0))
      as (v & w1 & Hv).
    rewrite Hv. simpl.
    rewrite (statisticalPrediction_value cacheKey key tasks w
               (looked_short key w0)), Hv.
    reflexivity.
Qed.


(** C9 (as amended).  When the short-term store holds nothing under the
    key of the call, [predictNextCategory] returns null or a category
    that some task of the history (supplied or fetched) carries; an
    answer of the remote model or of the fallback that matches no
    category is not returned.  When the store holds a live prediction
    under the key, that stored value is what is returned. *)
Theorem prediction_membership (userId : string)
    (supplied : option (list task)) (taskTitle : option string)
    (w : world) (tasks : list task) :
  history userId supplied = Returned tasks ->
  let key := predictionKey userId tasks taskTitle in
  let r := predictNextCategory userId supplied taskTitle w in
  (short_miss key w ->
   r.1 = Returned VNull
   \/ exists c, r.1 = Returned (VStr c) /\ carried tasks c)
  /\ (tasks <> [] -> ~ short_miss key w ->
      r.1 = Returned (CacheManager.get key (now w) (shortTermCache w)).1).
Proof.
  intros Hh key r. split.
  - intros Hmiss. unfold r.
    assert (Hcase : tasks = [] \/ tasks <> [])
      by (destruct tasks; [left | right]; congruence).
    destruct Hcase as [->|Hne].
    { rewrite predict_empty by exact Hh. now left. }
    rewrite (predict_miss _ _ _ _ _ Hh Hne Hmiss).
    apply after_miss_sound.
  - intros Hne Hhit. unfold r.
    now rewrite (predict_hit _ _ _ _ _ Hh Hne Hhit).
Qed.

End PredictionClaims.


(** C9, the claim as stated, fails while a prediction is cached.  The one
    task of the user is filed under Work when a first prediction is made,
    and moved to Home before a second one, a second later: the second call
    returns Work, a category that no task of the history supplied to it
    carries. *)
Lemma membership_counterexample :
  (Scenario.second_prediction (Some "Home")).1 = Returned (VStr "Work")
  /\ ~ carried (Scenario.filed_under (Some "Home")) "Work".
Proof.
  split; [vm_compute; reflexivity|].
  intros [t [[<-|[]] Hc]]. discriminate.
Qed.

(** ** Properties of the title suggestions *)

Section TitleSuggestions.

Context {P : Platform}.

Lemma first_quoted_nonempty s q :
  Str.first_quoted s = Some q -> q <> EmptyString.
Proof.
  induction s as [|a r IH]; simpl; [discriminate|].
  destruct (Ascii.eqb a Str.dquote); [|exact IH].
  destruct (Str.unquoted_run r) as [[|b run] [|]]; try exact IH.
  intros [= <-]. discriminate.
Qed.

Lemma scan_lines_nonempty text :
  Forall nonempty_string (map VStr (scan_lines text)).
Proof.
  unfold scan_lines. apply List.Forall_forall. intros v Hv.
  apply in_map_iff in Hv as [q [<- Hq]]. simpl.
  apply In_firstn in Hq. apply In_omap in Hq as [line [_ Hline]].
  now apply first_quoted_nonempty in Hline.
Qed.

Lemma scan_lines_length text : (length (scan_lines text) <= 5)%nat.
Proof. unfold scan_lines. apply firstn_le_length. Qed.

Lemma append_nonempty s c r : s +:+ String c r <> EmptyString.
Proof. destruct s; discriminate. Qed.

Lemma static_suggestions_nonempty prefix :
  Forall nonempty_string (static_suggestions prefix).
Proof.
  unfold static_suggestions. simpl.
  repeat constructor; apply append_nonempty.
Qed.

Lemma suggestions_of_prose prefix text :
  no_parseable_array text ->
  suggestions_of prefix (VStr text)
  = match Str.match_enclosed "["%char "]"%char text with
    | Some _ => static_suggestions prefix
    | None => map VStr (scan_lines text)
    end.
Proof.
  unfold no_parseable_array, suggestions_of, parse_suggestions. simpl.
  destruct (Str.match_enclosed "[" "]" text) as [m|]; [|reflexivity].
  destruct (JSON_parse m) as [[]|]; tauto.
Qed.

(** [generateTitleSuggestions] when the store holds nothing under the
    key, and when it holds a live, truthy value. *)
Lemma titles_miss prefix userId w :
  short_prefix (Some prefix) = false ->
  short_miss (suggestionsKey userId prefix) w ->
  generateTitleSuggestions (Some prefix) userId w
  = try_catch (computeSuggestions (suggestionsKey userId prefix)
                                  prefix userId)
              (fun _ => ret (VArr (static_suggestions prefix)))
              (looked_short (suggestionsKey userId prefix) w).
Proof.
  unfold generateTitleSuggestions, generateTitleSuggestions_body,
    short_miss, looked_short.
  intros Hp Hmiss. rewrite Hp. run_M.
  destruct (CacheManager.get _ (now w) (shortTermCache w)) as [v c].
  simpl in *. rewrite Hmiss. reflexivity.
Qed.

Lemma titles_hit prefix userId w :
  short_prefix (Some prefix) = false ->
  ~ short_miss (suggestionsKey userId prefix) w ->
  generateTitleSuggestions (Some prefix) userId w
  = (Returned (CacheManager.get (suggestionsKey userId prefix)
                                (now w) (shortTermCache w)).1,
     looked_short (suggestionsKey userId prefix) w).
Proof.
  unfold generateTitleSuggestions, generateTitleSuggestions_body,
    short_miss, looked_short.
  intros Hp Hhit. apply not_false_is_true in Hhit. rewrite Hp. run_M.
  destruct (CacheManager.get _ (now w) (shortTermCache w)) as [v c].
  simpl in *. rewrite Hhit. reflexivity.
Qed.

(** C4 (as amended).  For every prefix of three characters or more, when
    nothing is cached for the call, the query for the user's tasks
    succeeds and the request returns a text without a bracketed part that
    parses as an array, [generateTitleSuggestions] returns normally an
    array of at most five strings, none empty: the fixed list of five
    built on the prefix when the text has a bracketed part (that does
    not parse), and otherwise the quoted texts found by the scan of the
    lines, which may be fewer than five and may be none. *)
Theorem suggestions_from_prose (prefix userId text : string) (w : world)
    (tasks : list task) :
  (3 <= String.length prefix)%nat ->
  short_miss (suggestionsKey userId prefix) w ->
  findMany (CreatedByOrAssignedTo userId 20) = Returned tasks ->
  let prompt := titlePrompt prefix (map title tasks) (categories_of tasks) in
  wrapper_miss prompt true w ->
  remote_returns prompt w (VStr text) ->
  no_parseable_array text ->
  exists l,
    (generateTitleSuggestions (Some prefix) userId w).1 = Returned (VArr l)
    /\ (length l <= 5)%nat
    /\ Forall nonempty_string l
    /\ l = match Str.match_enclosed "["%char "]"%char text with
           | Some _ => [VStr (prefix +:+ " task");
                        VStr (prefix +:+ " project");
                        VStr (prefix +:+ " review");
                        VStr (prefix +:+ " update");
                        VStr (prefix +:+ " meeting")]
           | None => map VStr (scan_lines text)
           end.
Proof.
  intros Hlen Hshort Hdb prompt Hmiss Hok Hprose.
  exists (suggestions_of prefix (VStr text)).
  rewrite titles_miss; [|simpl; apply Nat.ltb_ge; exact Hlen | exact Hshort].
  unfold computeSuggestions. run_M. rewrite Hdb.
  fold prompt.
  rewrite (callGeminiAPI_on_success prompt true 300000 _ _ (VStr text));
    [|exact Hmiss | exact Hok].
  split; [reflexivity|].
  rewrite (suggestions_of_prose _ _ Hprose).
  destruct (Str.match_enclosed "[" "]" text).
  - split; [simpl; lia|]. split; [|reflexivity].
    apply static_suggestions_nonempty.
  - split; [rewrite length_map; apply scan_lines_length|].
    split; [apply scan_lines_nonempty | reflexivity].
Qed.

End TitleSuggestions.

(** C4, the claim as stated, fails: for the prefix upd, a request that
    returns a sentence without bracket or quoted line makes
    [generateTitleSuggestions] return the empty array, not five strings. *)
Lemma suggestions_prose_counterexample :
  no_parseable_array (P := Scenario.prose) "Sorry, no ideas."
  /\ remote_returns (P := Scenario.prose) "suggest titles" (boot 0)
                    (VStr "Sorry, no ideas.")
  /\ (generateTitleSuggestions (P := Scenario.prose)
                               (Some "upd") "u1" (boot 0)).1
     = Returned (VArr []).
Proof.
  split; [exact I|]. split; [reflexivity | vm_compute; reflexivity].
Qed.

(** ** Properties of the prioritization *)

Section Prioritization.

Context {P : Platform}.

Lemma priorityOrder_rank p :
  priorityOrder p = Z.of_nat (urgency_rank p).
Proof. destruct p; reflexivity. Qed.

Lemma past_due_overdue today t :
  past_due today t = true <-> overdue today t.
Proof.
  unfold past_due, overdue. destruct (dueDate t) as [d|].
  - rewrite Z.ltb_lt. split.
    + intros H. now exists d.
    + intros [d' [[= <-] H]]. exact H.
  - split; [discriminate | intros [d [H _]]; discriminate].
Qed.

Lemma past_due_not_overdue today t :
  past_due today t = false <-> ~ overdue today t.
Proof.
  rewrite <- past_due_overdue. destruct (past_due today t); split;
    congruence.
Qed.

Lemma is_active_active t : is_active t = true <-> active t.
Proof.
  unfold is_active, active. destruct (status t); split;
    try discriminate; try (intros [H1 H2]; congruence);
    intros _; split; discriminate.
Qed.

(** What the comparator of the fallback sort decides, in terms of its
    own tests. *)
Lemma by_urgency_decides today a b :
  before (by_urgency today) a b <->
  (past_due today a = true /\ past_due today b = false)
  \/ (past_due today a = past_due today b
      /\ ((urgency_rank (priority a) < urgency_rank (priority b))%nat
          \/ (urgency_rank (priority a) = urgency_rank (priority b)
              /\ due_no_later (dueDate a) (dueDate b)))).
Proof.
  unfold before, by_urgency, due_no_later.
  rewrite !priorityOrder_rank.
  destruct (past_due today a), (past_due today b); simpl;
    try (split; [intros; lia || (left; split; reflexivity)
                | intros [[? ?]|[? ?]]; try discriminate; lia]).
  - destruct (Z.eqb_spec (Z.of_nat (urgency_rank (priority a)))
                         (Z.of_nat (urgency_rank (priority b)))) as [He|Hn];
      simpl.
    + destruct (dueDate a), (dueDate b); split;
        try (intros H; right; split; [reflexivity|]; right;
             split; [lia | first [exact I | lia]]; fail);
        try (intros [[_ ?]|[_ [?|[_ ?]]]]; try discriminate;
             try contradiction; lia).
    + split.
      * intros H. right. split; [reflexivity|]. left. lia.
      * intros [[_ ?]|[_ [?|[? _]]]]; try discriminate; lia.
  - destruct (Z.eqb_spec (Z.of_nat (urgency_rank (priority a)))
                         (Z.of_nat (urgency_rank (priority b)))) as [He|Hn];
      simpl.
    + destruct (dueDate a), (dueDate b); split;
        try (intros H; right; split; [reflexivity|]; right;
             split; [lia | first [exact I | lia]]; fail);
        try (intros [[? _]|[_ [?|[_ ?]]]]; try discriminate;
             try contradiction; lia).
    + split.
      * intros H. right. split; [reflexivity|]. left. lia.
      * intros [[? _]|[_ [?|[? _]]]]; try discriminate; lia.
Qed.

(** The comparator of the fallback sort puts [a] before [b] exactly
    when the order of the specification does. *)
Lemma by_urgency_precedes today a b :
  before (by_urgency today) a b <-> precedes today a b.
Proof.
  rewrite by_urgency_decides. unfold precedes.
  rewrite <- !past_due_overdue.
  destruct (past_due today a), (past_due today b);
    intuition congruence.
Qed.

Lemma by_urgency_total today a b :
  before (by_urgency today) a b \/ before (by_urgency today) b a.
Proof.
  unfold before, by_urgency.
  destruct (past_due today a), (past_due today b); simpl; try lia;
    rewrite (Z.eqb_sym (priorityOrder (priority b)));
    destruct (Z.eqb_spec (priorityOrder (priority a))
                         (priorityOrder (priority b))); simpl; try lia;
    destruct (dueDate a), (dueDate b); lia.
Qed.

Lemma by_urgency_trans today a b c :
  before (by_urgency today) a b -> before (by_urgency today) b c ->
  before (by_urgency today) a c.
Proof.
  unfold before, by_urgency.
  destruct (past_due today a), (past_due today b), (past_due today c);
    simpl; try lia;
    destruct (Z.eqb_spec (priorityOrder (priority a))
                         (priorityOrder (priority b)));
    destruct (Z.eqb_spec (priorityOrder (priority b))
                         (priorityOrder (priority c)));
    destruct (Z.eqb_spec (priorityOrder (priority a))
                         (priorityOrder (priority c)));
    simpl; try lia;
    destruct (dueDate a), (dueDate b), (dueDate c); lia.
Qed.

(** The sorted tasks are the active tasks in the order of the
    specification. *)
Lemma fallback_sort_ordered today activeTasks :
  StronglySorted (precedes today) (sort_by (by_urgency today) activeTasks).
Proof.
  pose proof (sort_by_sorted (by_urgency today) (by_urgency_total today)
                (by_urgency_trans today) activeTasks) as Hs.
  induction Hs as [|x l Hs IH Hall]; constructor; [exact IH|].
  eapply List.Forall_impl; [|exact Hall].
  intros y. apply by_urgency_precedes.
Qed.

(** [generateTaskPrioritization] when the store holds nothing under the
    key, and when it holds a live, truthy value. *)
Lemma prioritize_miss userId tasks w :
  let activeTasks := List.filter is_active tasks in
  activeTasks <> [] ->
  medium_miss (prioritizationKey userId activeTasks) w ->
  generateTaskPrioritization userId (Some tasks) w
  = try_catch
      (computePrioritization (prioritizationKey userId activeTasks)
                             activeTasks)
      (fun _ =>
         ret (VObj
                [("message",
                  VStr "Error generating task prioritization. Using default sorting by priority and due date.");
                 ("prioritizedTasks", VArr []);
                 ("logic", VStr "Default sorting by priority and due date.");
                 ("atRiskTasks", VArr []);
                 ("suggestions", VArr [])]))
      (looked_medium (prioritizationKey userId activeTasks) w).
Proof.
  intros activeTasks Hne Hmiss.
  unfold generateTaskPrioritization, generateTaskPrioritization_body,
    medium_miss, looked_medium in *.
  destruct tasks as [|t0 rest]; [now contradiction Hne|].
  fold activeTasks.
  assert (Hlen : (length activeTasks =? 0)%nat = false).
  { destruct activeTasks; [congruence | reflexivity]. }
  rewrite Hlen. run_M.
  destruct (CacheManager.get _ (now w) (mediumTermCache w)) as [v c].
  simpl in *. rewrite Hmiss. reflexivity.
Qed.

Lemma prioritize_hit userId tasks w :
  let activeTasks := List.filter is_active tasks in
  activeTasks <> [] ->
  ~ medium_miss (prioritizationKey userId activeTasks) w ->
  generateTaskPrioritization userId (Some tasks) w
  = (Returned (CacheManager.get (prioritizationKey userId activeTasks)
                                (now w) (mediumTermCache w)).1,
     looked_medium (prioritizationKey userId activeTasks) w).
Proof.
  intros activeTasks Hne Hhit.
  unfold generateTaskPrioritization, generateTaskPrioritization_body,
    medium_miss, looked_medium in *.
  apply not_false_is_true in Hhit.
  destruct tasks as [|t0 rest]; [now contradiction Hne|].
  fold activeTasks.
  assert (Hlen : (length activeTasks =? 0)%nat = false).
  { destruct activeTasks; [congruence | reflexivity]. }
  rewrite Hlen. run_M.
  destruct (CacheManager.get _ (now w) (mediumTermCache w)) as [v c].
  simpl in *. rewrite Hhit. reflexivity.
Qed.

Lemma active_split tasks :
  Permutation tasks
    (List.filter is_active tasks
     ++ List.filter (fun t => negb (is_active t)) tasks).
Proof.
  induction tasks as [|t r IH]; simpl; [reflexivity|].
  destruct (is_active t); simpl.
  - now constructor.
  - rewrite <- Permutation_middle. now constructor.
Qed.

(** In a list in the order of the specification, the first task is
    overdue as soon as one of them is. *)
Lemma first_overdue today t rest x :
  StronglySorted (precedes today) (t :: rest) ->
  In x (t :: rest) -> overdue today x -> overdue today t.
Proof.
  intros Hs [<-|Hx] Hover; [exact Hover|].
  inversion Hs as [|? ? _ Hall]; subst.
  rewrite List.Forall_forall in Hall.
  destruct (Hall x Hx) as [[H _]|[H _]]; [exact H | now apply H].
Qed.

(** C6.  When some task is active, nothing is cached for the call and
    the response that the wrapper returns cannot be parsed,
    [generateTaskPrioritization] returns as [prioritizedTasks] the first
    five of the active tasks - the tasks that are neither completed nor
    cancelled, the others being left out - sorted overdue first, then by
    priority (URGENT, HIGH, MEDIUM, LOW), then by ascending due date
    with the tasks without due date last, each with its id, its title
    and a reason made of its priority and its due date.  In particular,
    of three active tasks of priority LOW (not overdue), URGENT
    (overdue) and HIGH (not overdue), the URGENT one comes first. *)
Theorem prioritization_fallback_ordering (userId : string)
    (tasks : list task) (w w' : world) (response : jsval) :
  let activeTasks := List.filter is_active tasks in
  let key := prioritizationKey userId activeTasks in
  let prompt := prioritizationPrompt (map (ai_row (now w)) activeTasks) in
  (exists t, In t tasks /\ active t) ->
  medium_miss key w ->
  callGeminiAPI prompt true 3600000 None (looked_medium key w)
  = (Returned response, w') ->
  (exists e, parse_prioritization response = Thrown e) ->
  exists sortedTasks finished,
    Permutation tasks (sortedTasks ++ finished)
    /\ List.Forall active sortedTasks
    /\ List.Forall (fun t => ~ active t) finished
    /\ StronglySorted (precedes (now w')) sortedTasks
    /\ (generateTaskPrioritization userId (Some tasks) w).1
       = Returned
           (VObj
              [("message",
                VStr "Here are your prioritized tasks based on urgency, importance, and deadlines.");
               ("prioritizedTasks",
                VArr (map (fun t =>
                             VObj [("id", VStr (id t));
                                   ("title", opt_str (title t));
                                   ("reason",
                                    VStr (priority_name (priority t)
                                          +:+ " priority"
                                          +:+ match dueDate t with
                                              | Some d =>
                                                  ", due "
                                                  +:+ toLocaleDateString d
                                              | None => ""
                                              end))])
                          (firstn 5 sortedTasks)));
               ("logic",
                VStr "Tasks are prioritized based on urgency, priority level, and due date.");
               ("atRiskTasks", VArr []);
               ("suggestions", VArr [])])
    /\ (forall t1 t2 t3,
          tasks = [t1; t2; t3] ->
          active t1 -> active t2 -> active t3 ->
          priority t1 = LOW -> ~ overdue (now w') t1 ->
          priority t2 = URGENT -> overdue (now w') t2 ->
          priority t3 = HIGH -> ~ overdue (now w') t3 ->
          exists rest, sortedTasks = t2 :: rest).
Proof.
  intros activeTasks key prompt [t0 [Ht0 Hactive0]] Hmiss Hcall [e He].
  assert (Hne : activeTasks <> []).
  { intros Hnil.
    assert (Hin : In t0 activeTasks).
    { apply filter_In. split; [exact Ht0 | now apply is_active_active]. }
    rewrite Hnil in Hin. contradiction. }
  exists (sort_by (by_urgency (now w')) activeTasks),
         (List.filter (fun t => negb (is_active t)) tasks).
  split; [|split; [|split; [|split; [|split]]]].
  - rewrite sort_by_perm. apply active_split.
  - apply List.Forall_forall. intros t Ht.
    apply is_active_active.
    assert (Hin : In t activeTasks).
    { eapply Permutation_in; [apply sort_by_perm | exact Ht]. }
    now apply filter_In in Hin as [_ Hin].
  - apply List.Forall_forall. intros t Ht.
    apply filter_In in Ht as [_ Ht]. rewrite <- is_active_active.
    destruct (is_active t); [discriminate | congruence].
  - apply fallback_sort_ordered.
  - rewrite prioritize_miss by assumption.
    fold activeTasks key. unfold computePrioritization, parsedResponse.
    run_M. simpl now. fold prompt. rewrite Hcall, He. reflexivity.
  - intros t1 t2 t3 Htasks Ha1 Ha2 Ha3 Hp1 Ho1 Hp2 Ho2 Hp3 Ho3.
    apply is_active_active in Ha1, Ha2, Ha3.
    apply past_due_not_overdue in Ho1, Ho3.
    apply past_due_overdue in Ho2.
    unfold activeTasks. rewrite Htasks. simpl.
    rewrite Ha1, Ha2, Ha3. simpl.
    assert (H23 : (by_urgency (now w') t2 t3 <=? 0) = true).
    { unfold by_urgency. now rewrite Ho2, Ho3. }
    assert (H12 : (by_urgency (now w') t1 t2 <=? 0) = false).
    { unfold by_urgency. now rewrite Ho1, Ho2. }
    rewrite H23. simpl. rewrite H12.
    destruct (by_urgency (now w') t1 t3 <=? 0); simpl; eauto.
Qed.

End Prioritization.

(** ** Containment of exceptions *)

Section Containment.

Context {P : Platform}.

(** A [try] whose handler returns a value returns normally. *)
Lemma try_catch_returns {A} (m : M A) (h : exn -> A) w :
  exists v w', try_catch m (fun e => ret (h e)) w = (Returned v, w').
Proof.
  unfold try_catch, ret. destruct (m w) as [[a|e] w']; eauto.
Qed.

(** What the handler makes of an exception of the body. *)
Lemma try_catch_handles {A} (m : M A) (h : exn -> A) w e w' :
  m w = (Thrown e, w') ->
  try_catch m (fun e => ret (h e)) w = (Returned (h e), w').
Proof. unfold try_catch, ret. now intros ->. Qed.

(** C5.  Each of the five feature functions returns normally, whatever
    the arguments, the state of the process and the behaviour of the
    remote endpoint, of the database and of [JSON.parse]; and whenever
    the body of its [try] raises, for whatever reason, the value returned
    is the fallback of the feature: null for the category; the summary
    for the description; the fixed list built on the prefix for the
    titles; the error object with an empty list for the prioritization;
    the error text for the report. *)
Theorem feature_exception_containment (w : world) :
  (forall userId userTasks taskTitle,
      (exists v w', predictNextCategory userId userTasks taskTitle w
                    = (Returned v, w'))
      /\ forall e w',
          predictNextCategory_body userId userTasks taskTitle w
          = (Thrown e, w') ->
          predictNextCategory userId userTasks taskTitle w
          = (Returned VNull, w'))
  /\ (forall title summary userId,
      (forall omitted,
          exists v w', generateTaskDescription title omitted userId w
                       = (Returned v, w'))
      /\ forall e w',
          generateTaskDescription_body title (Some summary) userId w
          = (Thrown e, w') ->
          generateTaskDescription title (Some summary) userId w
          = (Returned (VStr summary), w'))
  /\ (forall prefix userId,
      (forall omitted,
          exists v w', generateTitleSuggestions omitted userId w
                       = (Returned v, w'))
      /\ forall e w',
          generateTitleSuggestions_body (Some prefix) userId w
          = (Thrown e, w') ->
          generateTitleSuggestions (Some prefix) userId w
          = (Returned (VArr [VStr (prefix +:+ " task");
                             VStr (prefix +:+ " project");
                             VStr (prefix +:+ " review");
                             VStr (prefix +:+ " update");
                             VStr (prefix +:+ " meeting")]), w'))
  /\ (forall userId userTasks,
      (exists v w', generateTaskPrioritization userId userTasks w
                    = (Returned v, w'))
      /\ forall e w',
          generateTaskPrioritization_body userId userTasks w
          = (Thrown e, w') ->
          exists message logic,
            generateTaskPrioritization userId userTasks w
            = (Returned (VObj [("message", VStr message);
                               ("prioritizedTasks", VArr []);
                               ("logic", VStr logic);
                               ("atRiskTasks", VArr []);
                               ("suggestions", VArr [])]), w'))
  /\ (forall tasks,
      (exists v w', generateCriticalTasksReport tasks w = (Returned v, w'))
      /\ forall e w',
          generateCriticalTasksReport_body tasks w = (Thrown e, w') ->
          generateCriticalTasksReport tasks w
          = (Returned
               (VStr "Error generating report. Please try again later."),
             w')).
Proof.
  split; [|split; [|split; [|split]]].
  - intros userId userTasks taskTitle. split.
    + apply (try_catch_returns _ (fun _ => VNull)).
    + intros e w' H.
      exact (try_catch_handles _ (fun _ => VNull) _ _ _ H).
  - intros title summary userId. split.
    + intros omitted. apply (try_catch_returns _ (fun _ => _)).
    + intros e w' H.
      exact (try_catch_handles _ (fun _ => VStr summary) _ _ _ H).
  - intros prefix userId. split.
    + intros omitted. apply (try_catch_returns _ (fun _ => VArr _)).
    + intros e w' H.
      exact (try_catch_handles _
               (fun _ => VArr (static_suggestions prefix)) _ _ _ H).
  - intros userId userTasks. split.
    + unfold generateTaskPrioritization.
      apply (try_catch_returns _ (fun _ => VObj _)).
    + intros e w' H. do 2 eexists.
      unfold generateTaskPrioritization.
      exact (try_catch_handles _ (fun _ => VObj _) _ _ _ H).
  - intros tasks. split.
    + apply (try_catch_returns _ (fun _ => VStr _)).
    + intros e w' H.
      exact (try_catch_handles _ (fun _ => VStr _) _ _ _ H).
Qed.

End Containment.

(** ** Repeated calls *)

Section Idempotence.

Context {P : Platform}.

Lemma looked_short_holds key v e w :
  holds key v e (shortTermCache w) -> now w <= e ->
  CacheManager.get key (now w) (shortTermCache w) = (v, shortTermCache w)
  /\ looked_short key w = w.
Proof.
  intros H Hle. pose proof (get_holds _ _ _ _ _ H Hle) as Hg.
  split; [exact Hg|]. unfold looked_short. rewrite Hg. now destruct w.
Qed.

Lemma looked_medium_holds key v e w :
  holds key v e (mediumTermCache w) -> now w <= e ->
  CacheManager.get key (now w) (mediumTermCache w) = (v, mediumTermCache w)
  /\ looked_medium key w = w.
Proof.
  intros H Hle. pose proof (get_holds _ _ _ _ _ H Hle) as Hg.
  split; [exact Hg|]. unfold looked_medium. rewrite Hg. now destruct w.
Qed.

Lemma looked_short_unexpired key w :
  unexpired key (now w) (shortTermCache w) -> looked_short key w = w.
Proof.
  intros H. unfold looked_short. rewrite (get_unexpired _ _ _ H).
  now destruct w.
Qed.

(** *** Title suggestions *)

Lemma computeSuggestions_stores key prefix userId w r w1 :
  computeSuggestions key prefix userId w = (Returned r, w1) ->
  truthy r = true /\ holds key r (now w1 + 300000) (shortTermCache w1).
Proof.
  unfold computeSuggestions. run_M.
  destruct (findMany (CreatedByOrAssignedTo userId 20)) as [tasks|e];
    [|discriminate].
  match goal with
  | |- context [callGeminiAPI ?p ?u ?l ?f w] =>
      destruct (callGeminiAPI p u l f w) as [[response|e] w']
  end; [|discriminate].
  intros [= <- <-]. split; [reflexivity|]. simpl.
  now apply holds_set.
Qed.

Lemma titles_served prefix userId w v e :
  short_prefix (Some prefix) = false ->
  holds (suggestionsKey userId prefix) v e (shortTermCache w) ->
  truthy v = true -> now w <= e ->
  generateTitleSuggestions (Some prefix) userId w = (Returned v, w).
Proof.
  intros Hp Hh Ht Hle.
  destruct (looked_short_holds _ _ _ _ Hh Hle) as [Hg Hw].
  rewrite titles_hit; [| exact Hp | unfold short_miss; rewrite Hg; simpl;
                                    congruence].
  now rewrite Hg, Hw.
Qed.

Lemma titles_twice prefix userId w r1 w1 d :
  generateTitleSuggestions_body prefix userId w = (Returned r1, w1) ->
  unexpired (suggestionsKey userId (default EmptyString prefix))
            (now w1 + d) (shortTermCache w1) ->
  generateTitleSuggestions prefix userId (elapse d w1)
  = (Returned r1, elapse d w1).
Proof.
  intros Hbody Hun.
  destruct prefix as [prefix|];
    [|injection Hbody as <- <-; reflexivity].
  simpl in Hun.
  destruct (short_prefix (Some prefix)) eqn:Hp.
  { unfold generateTitleSuggestions_body in Hbody. rewrite Hp in Hbody.
    injection Hbody as <- <-.
    unfold generateTitleSuggestions, generateTitleSuggestions_body.
    rewrite Hp. reflexivity. }
  assert (Hstored : truthy r1 = true
            /\ exists e, holds (suggestionsKey userId prefix) r1 e
                               (shortTermCache w1)).
  { unfold generateTitleSuggestions_body in Hbody. rewrite Hp in Hbody.
    revert Hbody. run_M.
    destruct (CacheManager.get (suggestionsKey userId prefix) (now w)
                               (shortTermCache w)) as [v c] eqn:Hg.
    destruct (truthy v) eqn:Hv.
    - intros [= <- <-]. split; [exact Hv|]. simpl.
      assert (Hv' : truthy (CacheManager.get (suggestionsKey userId prefix)
                              (now w) (shortTermCache w)).1 = true)
        by now rewrite Hg.
      apply get_truthy in Hv' as [e [Hh [_ Hc]]].
      rewrite Hg in Hh, Hc. simpl in Hh, Hc. subst c. now exists e.
    - intros Hc. apply computeSuggestions_stores in Hc as [Ht Hh].
      split; [exact Ht | eauto]. }
  destruct Hstored as [Ht [e Hh]].
  apply titles_served with e; try assumption.
  simpl. exact (holds_unexpired _ _ _ _ _ Hh Hun).
Qed.

(** *** Prioritization *)

Lemma computePrioritization_stores key activeTasks w r w1 :
  computePrioritization key activeTasks w = (Returned r, w1) ->
  truthy r = true /\ holds key r (now w1 + 1800000) (mediumTermCache w1).
Proof.
  unfold computePrioritization, parsedResponse. run_M.
  match goal with
  | |- context [callGeminiAPI ?p ?u ?l ?f w] =>
      destruct (callGeminiAPI p u l f w) as [[response|e] w']
  end; [|discriminate].
  destruct (parse_prioritization response);
    intros [= <- <-]; (split; [reflexivity|]); simpl;
    now apply holds_set.
Qed.

Lemma prioritize_served userId tasks w v e :
  let activeTasks := List.filter is_active tasks in
  activeTasks <> [] ->
  holds (prioritizationKey userId activeTasks) v e (mediumTermCache w) ->
  truthy v = true -> now w <= e ->
  generateTaskPrioritization userId (Some tasks) w = (Returned v, w).
Proof.
  intros activeTasks Hne Hh Ht Hle.
  destruct (looked_medium_holds _ _ _ _ Hh Hle) as [Hg Hw].
  rewrite prioritize_hit;
    [| exact Hne | unfold medium_miss; fold activeTasks; rewrite Hg; simpl;
                   congruence].
  fold activeTasks. now rewrite Hg, Hw.
Qed.

Lemma prioritize_twice userId userTasks w r1 w1 d :
  generateTaskPrioritization_body userId userTasks w = (Returned r1, w1) ->
  unexpired (prioritizationKey userId
               (List.filter is_active (default [] userTasks)))
            (now w1 + d) (mediumTermCache w1) ->
  generateTaskPrioritization userId userTasks (elapse d w1)
  = (Returned r1, elapse d w1).
Proof.
  intros Hbody Hun.
  destruct userTasks as [[|t0 rest]|];
    try (injection Hbody as <- <-; reflexivity).
  simpl default in Hun.
  set (activeTasks := List.filter is_active (t0 :: rest)) in *.
  destruct (length activeTasks =? 0)%nat eqn:Hlen.
  { unfold generateTaskPrioritization_body in Hbody.
    fold activeTasks in Hbody. rewrite Hlen in Hbody.
    injection Hbody as <- <-.
    unfold generateTaskPrioritization, generateTaskPrioritization_body.
    fold activeTasks. rewrite Hlen. reflexivity. }
  assert (Hne : activeTasks <> []).
  { intros H0. rewrite H0 in Hlen. discriminate. }
  assert (Hstored : truthy r1 = true
            /\ exists e, holds (prioritizationKey userId activeTasks) r1 e
                               (mediumTermCache w1)).
  { unfold generateTaskPrioritization_body in Hbody.
    fold activeTasks in Hbody. rewrite Hlen in Hbody.
    revert Hbody. run_M.
    destruct (CacheManager.get (prioritizationKey userId activeTasks)
                               (now w) (mediumTermCache w))
      as [v c] eqn:Hg.
    destruct (truthy v) eqn:Hv.
    - intros [= <- <-]. split; [exact Hv|]. simpl.
      assert (Hv' : truthy (CacheManager.get
                              (prioritizationKey userId activeTasks)
                              (now w) (mediumTermCache w)).1 = true)
        by now rewrite Hg.
      apply get_truthy in Hv' as [e [Hh [_ Hc]]].
      rewrite Hg in Hh, Hc. simpl in Hh, Hc. subst c. now exists e.
    - intros Hc. apply computePrioritization_stores in Hc as [Ht Hh].
      split; [exact Ht | eauto]. }
  destruct Hstored as [Ht [e Hh]].
  apply prioritize_served with e; try assumption.
  simpl. exact (holds_unexpired _ _ _ _ _ Hh Hun).
Qed.

(** *** Description *)

Lemma computeDescription_stores key title summary userId w r w1 :
  computeDescription key title summary userId w = (Returned r, w1) ->
  holds key r (now w1 + 3600000) (mediumTermCache w1).
Proof.
  unfold computeDescription. run_M.
  destruct (userContext userId w) as [[recent|e] w0]; [|discriminate].
  match goal with
  | |- context [callGeminiAPI ?p ?u ?l ?f w0] =>
      destruct (callGeminiAPI p u l f w0) as [[response|e] w']
  end; [|discriminate].
  destruct (as_string response); [|discriminate].
  intros [= <- <-]. simpl. now apply holds_set.
Qed.

Lemma description_served title summary userId w v e :
  no_summary (Some summary) = false ->
  holds (descriptionKey title summary) v e (mediumTermCache w) ->
  truthy v = true -> now w <= e ->
  generateTaskDescription title (Some summary) userId w = (Returned v, w).
Proof.
  intros Hs Hh Ht Hle.
  destruct (looked_medium_holds _ _ _ _ Hh Hle) as [Hg Hw].
  unfold generateTaskDescription, generateTaskDescription_body.
  rewrite Hs. run_M. rewrite Hg, Ht.
  unfold looked_medium in Hw. rewrite Hg in Hw. simpl in Hw.
  now rewrite Hw.
Qed.

Lemma description_twice title summary userId w r1 w1 d :
  generateTaskDescription_body title summary userId w = (Returned r1, w1) ->
  r1 <> VStr EmptyString ->
  unexpired (descriptionKey title (default EmptyString summary))
            (now w1 + d) (mediumTermCache w1) ->
  generateTaskDescription title summary userId (elapse d w1)
  = (Returned r1, elapse d w1).
Proof.
  intros Hbody Hr Hun.
  destruct summary as [summary|];
    [|injection Hbody as <- <-; reflexivity].
  simpl in Hun.
  destruct (no_summary (Some summary)) eqn:Hs.
  { unfold generateTaskDescription_body in Hbody. rewrite Hs in Hbody.
    injection Hbody as <- <-.
    unfold generateTaskDescription, generateTaskDescription_body.
    rewrite Hs. reflexivity. }
  assert (Hstored : truthy r1 = true
            /\ exists e, holds (descriptionKey title summary) r1 e
                               (mediumTermCache w1)).
  { unfold generateTaskDescription_body in Hbody. rewrite Hs in Hbody.
    revert Hbody. run_M.
    destruct (CacheManager.get (descriptionKey title summary)
                               (now w) (mediumTermCache w))
      as [v c] eqn:Hg.
    destruct (truthy v) eqn:Hv.
    - intros [= <- <-]. split; [exact Hv|]. simpl.
      assert (Hv' : truthy (CacheManager.get
                              (descriptionKey title summary)
                              (now w) (mediumTermCache w)).1 = true)
        by now rewrite Hg.
      apply get_truthy in Hv' as [e [Hh [_ Hc]]].
      rewrite Hg in Hh, Hc. simpl in Hh, Hc. subst c. now exists e.
    - intros Hc. pose proof Hc as Hc'.
      apply computeDescription_stores in Hc. split; [|eauto].
      revert Hc'. unfold computeDescription. run_M.
      match goal with
      | |- context [userContext userId ?w0] =>
          destruct (userContext userId w0) as [[recent|e] w2]
      end; [|discriminate].
      match goal with
      | |- context [callGeminiAPI ?p ?u ?l ?f w2] =>
          destruct (callGeminiAPI p u l f w2) as [[response|e] w']
      end; [|discriminate].
      destruct (as_string response) as [text|]; [|discriminate].
      intros [= Hr1 _]. subst r1. simpl.
      destruct (clean_description text); [congruence | reflexivity]. }
  destruct Hstored as [Ht [e Hh]].
  apply description_served with e; try assumption.
  simpl. exact (holds_unexpired _ _ _ _ _ Hh Hun).
Qed.

(** *** Category prediction *)

Lemma category_truthy tasks c :
  In c (omap category_of tasks) -> truthy (VStr c) = true.
Proof.
  rewrite In_omap. intros [t [_ Hc]]. unfold category_of in Hc.
  destruct (category t) as [c'|]; [|discriminate].
  destruct (Str.is_empty c') eqn:He; [discriminate|].
  injection Hc as <-. simpl. now rewrite He.
Qed.

Lemma contextualPrediction_stores key t tasks w v w1 :
  contextualPrediction key t tasks w = (Returned (Some v), w1) ->
  truthy v = true /\ holds key v (now w1 + 300000) (shortTermCache w1).
Proof.
  intros H. pose proof (contextualPrediction_sound _ _ _ _ _ _ H)
    as [c [-> Hc]].
  split; [now apply category_truthy with tasks|].
  revert H. unfold contextualPrediction.
  destruct (0 <? length (categories_of tasks))%nat; [|discriminate].
  run_M.
  match goal with
  | |- context [callGeminiAPI ?p ?u ?l ?f w] =>
      destruct (callGeminiAPI p u l f w) as [[ai|e] w']
  end; [|discriminate].
  destruct (as_string ai) as [text|e]; [|discriminate].
  destruct (mem (clean_prediction text) (categories_of tasks)).
  - intros [= <- <-]. simpl. now apply holds_set.
  - destruct (find_first (close_to (clean_prediction text))
                         (categories_of tasks)); [|discriminate].
    intros [= <- <-]. simpl. now apply holds_set.
Qed.

Lemma statisticalPrediction_stores key tasks w r w1 :
  statisticalPrediction key tasks w = (Returned r, w1) ->
  r = VNull
  \/ (truthy r = true
      /\ holds key r (now w1 + 300000) (shortTermCache w1)).
Proof.
  intros H. pose proof (statisticalPrediction_sound _ _ _ _ _ H) as Hs.
  revert H. unfold statisticalPrediction.
  destruct (length (entries (categoryFrequency tasks)) =? 0)%nat eqn:Hlen.
  { intros [= <- <-]. now left. }
  destruct (recent_rule (recentCategories tasks)) as [c|].
  - run_M. intros [= <- <-]. right.
    destruct Hs as [Hs|[c' [[= <-] Hc]]]; [discriminate|].
    split; [now apply category_truthy with tasks|].
    simpl. now apply holds_set.
  - destruct (sort_by most_used_first (entries (categoryFrequency tasks)))
      as [|[c n] rest]; [discriminate|].
    run_M. intros [= <- <-]. right.
    destruct Hs as [Hs|[c' [[= <-] Hc]]]; [discriminate|].
    split; [now apply category_truthy with tasks|].
    simpl. now apply holds_set.
Qed.

(** A prediction that is computed is null, or stored for five minutes
    under the key. *)
Lemma computePrediction_stores key tasks taskTitle w r w1 :
  computePrediction key tasks taskTitle w = (Returned r, w1) ->
  r = VNull
  \/ (truthy r = true
      /\ holds key r (now w1 + 300000) (shortTermCache w1)).
Proof.
  unfold computePrediction.
  destruct taskTitle as [t|];
    [|run_M; apply statisticalPrediction_stores].
  destruct (negb (Str.is_empty t) && (5 <=? length tasks)%nat);
    [|run_M; apply statisticalPrediction_stores].
  run_M.
  destruct (contextualPrediction key t tasks w) as [[[v|]|e] w'] eqn:Hc.
  - intros [= <- <-]. right.
    now apply contextualPrediction_stores with t tasks w.
  - apply statisticalPrediction_stores.
  - apply statisticalPrediction_stores.
Qed.

Lemma predict_served userId supplied taskTitle w tasks v e :
  history userId supplied = Returned tasks ->
  tasks <> [] ->
  holds (predictionKey userId tasks taskTitle) v e (shortTermCache w) ->
  truthy v = true -> now w <= e ->
  predictNextCategory userId supplied taskTitle w = (Returned v, w).
Proof.
  intros Hh Hne Hheld Ht Hle.
  destruct (looked_short_holds _ _ _ _ Hheld Hle) as [Hg Hw].
  rewrite (predict_hit _ _ _ _ _ Hh Hne);
    [| unfold short_miss; rewrite Hg; simpl; congruence].
  now rewrite Hg, Hw.
Qed.

Lemma predict_twice userId supplied taskTitle w tasks r1 w1 d :
  history userId supplied = Returned tasks ->
  predictNextCategory_body userId supplied taskTitle w = (Returned r1, w1) ->
  r1 <> VNull \/ uncategorized tasks ->
  unexpired (predictionKey userId tasks taskTitle)
            (now w1 + d) (shortTermCache w1) ->
  predictNextCategory userId supplied taskTitle (elapse d w1)
  = (Returned r1, elapse d w1).
Proof.
  intros Hh Hbody Hcat Hun.
  assert (Hbody' :
    (if (length tasks =? 0)%nat then ret VNull
     else
       let* cachedPrediction :=
         shortGet (predictionKey userId tasks taskTitle) in
       if truthy cachedPrediction then ret cachedPrediction
       else computePrediction (predictionKey userId tasks taskTitle)
                              tasks taskTitle) w
    = (Returned r1, w1)).
  { revert Hbody. unfold predictNextCategory_body, history in *.
    destruct supplied as [l|]; run_M.
    - injection Hh as ->. tauto.
    - rewrite Hh. tauto. }
  clear Hbody.
  assert (Hcase : tasks = [] \/ tasks <> [])
    by (destruct tasks; [left | right]; congruence).
  destruct Hcase as [->|Hne].
  { injection Hbody' as <- <-. now apply predict_empty. }
  assert (Hlen : (length tasks =? 0)%nat = false).
  { destruct tasks; [congruence | reflexivity]. }
  rewrite Hlen in Hbody'. revert Hbody'. run_M.
  destruct (CacheManager.get (predictionKey userId tasks taskTitle)
                             (now w) (shortTermCache w)) as [v c] eqn:Hg.
  destruct (truthy v) eqn:Hv.
  - intros [= <- <-].
    assert (Hv' : truthy (CacheManager.get
                            (predictionKey userId tasks taskTitle)
                            (now w) (shortTermCache w)).1 = true)
      by now rewrite Hg.
    apply get_truthy in Hv' as [e [Hheld [_ Hc]]].
    rewrite Hg in Hheld, Hc. simpl in Hheld, Hc. subst c.
    apply predict_served with tasks e; try assumption.
    simpl. simpl in Hun. exact (holds_unexpired _ _ _ _ _ Hheld Hun).
  - intros Hc. pose proof (computePrediction_stores _ _ _ _ _ _ Hc)
      as [->|[Ht Hheld]].
    + destruct Hcat as [Hcat|Huncat]; [congruence|].
      rewrite (computePrediction_uncategorized _ _ _ _ Huncat) in Hc.
      injection Hc as <-.
      set (w0 := {| now := now w; shortTermCache := c;
                    mediumTermCache := mediumTermCache w;
                    requests := requests w |}) in *.
      assert (Hmiss : short_miss (predictionKey userId tasks taskTitle)
                                 (elapse d w0)).
      { unfold short_miss. simpl.
        replace c with (CacheManager.get
                          (predictionKey userId tasks taskTitle)
                          (now w) (shortTermCache w)).2 by now rewrite Hg.
        apply get_falsy_stays. now rewrite Hg. }
      rewrite (predict_miss _ _ _ _ _ Hh Hne Hmiss).
      rewrite after_miss_uncategorized by exact Huncat.
      now rewrite looked_short_unexpired by exact Hun.
    + apply predict_served with tasks (now w1 + 300000); try assumption.
      simpl. exact (holds_unexpired _ _ _ _ _ Hheld Hun).
Qed.

(** *** Report *)

(** What the wrapper returns is what its store holds afterwards under
    the hash of the prompt, when that is truthy. *)
Lemma callGeminiAPI_returned prompt cacheTtl fallbackFn w x w1 v e :
  callGeminiAPI prompt true cacheTtl fallbackFn w = (Returned x, w1) ->
  holds (generateHash prompt) v e (mediumTermCache w1) ->
  truthy v = true ->
  x = v.
Proof.
  run_wrapper. simpl.
  destruct (CacheManager.get (generateHash prompt) (now w)
                             (mediumTermCache w)) as [v0 c] eqn:Hg.
  destruct (truthy v0) eqn:Hv0.
  - intros [= <- <-] Hh _. simpl in Hh.
    replace c with (CacheManager.get (generateHash prompt) (now w)
                                     (mediumTermCache w)).2 in Hh
      by now rewrite Hg.
    apply get_keeps in Hh. rewrite Hg in Hh. now injection Hh.
  - simpl.
    destruct (remote (requests w) prompt) as [lat [data|err]]; simpl.
    + destruct (generated_text data) as [text|err]; simpl.
      * intros [= <- <-] Hh _. simpl in Hh. unfold holds in Hh.
        rewrite lookup_set in Hh. now injection Hh.
      * destruct fallbackFn as [f|]; simpl; [|discriminate].
        destruct (f prompt (now w + Z.of_N lat)); [|discriminate].
        intros [= <- <-] Hh Ht. simpl in Hh.
        replace c with (CacheManager.get (generateHash prompt) (now w)
                                         (mediumTermCache w)).2 in Hh
          by now rewrite Hg.
        apply get_keeps in Hh. rewrite Hg in Hh.
        injection Hh as -> _. congruence.
    + destruct fallbackFn as [f|]; simpl; [|discriminate].
      destruct (f prompt (now w + Z.of_N lat)); [|discriminate].
      intros [= <- <-] Hh Ht. simpl in Hh.
      replace c with (CacheManager.get (generateHash prompt) (now w)
                                       (mediumTermCache w)).2 in Hh
        by now rewrite Hg.
      apply get_keeps in Hh. rewrite Hg in Hh.
      injection Hh as -> _. congruence.
Qed.

(** The wrapper returns what its store holds, truthy and unexpired,
    under the hash of the prompt, and changes nothing. *)
Lemma callGeminiAPI_served prompt cacheTtl fallbackFn w v e :
  holds (generateHash prompt) v e (mediumTermCache w) ->
  truthy v = true -> now w <= e ->
  callGeminiAPI prompt true cacheTtl fallbackFn w = (Returned v, w).
Proof.
  intros Hh Ht Hle.
  destruct (looked_medium_holds _ _ _ _ Hh Hle) as [Hg Hw].
  run_wrapper. simpl. rewrite Hg, Ht.
  unfold looked_medium in Hw. rewrite Hg in Hw. simpl in Hw.
  now rewrite Hw.
Qed.

Lemma report_twice tasks w r1 w1 d :
  generateCriticalTasksReport_body (Some tasks) w = (Returned r1, w1) ->
  (tasks <> [] ->
   report_prompt (now w1 + d) tasks = report_prompt (now w) tasks
   /\ report_text_held (now w) tasks (now w1 + d) (mediumTermCache w1)) ->
  generateCriticalTasksReport (Some tasks) (elapse d w1)
  = (Returned r1, elapse d w1).
Proof.
  intros Hbody Hcond.
  destruct tasks as [|t0 rest]; [injection Hbody as <- <-; reflexivity|].
  destruct Hcond as [Hsame [prompt [v [e [Hp [Hh [Ht Hle]]]]]]];
    [discriminate|].
  revert Hbody.
  unfold generateCriticalTasksReport, generateCriticalTasksReport_body.
  run_M. simpl now. rewrite Hsame, Hp.
  match goal with
  | |- context [callGeminiAPI prompt ?u ?l ?f w] =>
      destruct (callGeminiAPI prompt u l f w) as [[x|err] w'] eqn:Hcall
  end; [|discriminate].
  destruct (as_string x) as [text|err] eqn:Hx; [|discriminate].
  intros [= <- <-].
  assert (x = v) as -> by exact (callGeminiAPI_returned _ _ _ _ _ _ _ _
                                   Hcall Hh Ht).
  rewrite (callGeminiAPI_served prompt 3600000 _ (elapse d w') v e);
    [| exact Hh | exact Ht | exact Hle].
  now rewrite Hx.
Qed.

End Idempotence.

Section RepeatedCalls.

Context {P : Platform}.

(** C8 (as amended).  Let the body of the [try] of a feature function
    complete without raising on a first call, returning [r1] and leaving
    the process in [w1].  A second call with the same arguments, after
    any delay [d] at which no entry of the store under the key of the
    call has expired, returns [r1] and leaves the process as it was: no
    request is posted and no store changes.  This holds for
    [generateTitleSuggestions] and [generateTaskPrioritization]; for
    [predictNextCategory] when [r1] is not null or no task carries a
    category; for [generateTaskDescription] when [r1] is not the empty
    string; and for [generateCriticalTasksReport], which stores nothing
    itself, when the second call builds the same prompt and the store
    of the wrapper holds under its hash a truthy text that has not
    expired. *)
Theorem repeated_call_idempotence (w w1 : world) (r1 : jsval) (d : Z) :
  (forall userId supplied taskTitle tasks,
      history userId supplied = Returned tasks ->
      predictNextCategory_body userId supplied taskTitle w
      = (Returned r1, w1) ->
      r1 <> VNull \/ uncategorized tasks ->
      unexpired (predictionKey userId tasks taskTitle)
                (now w1 + d) (shortTermCache w1) ->
      predictNextCategory userId supplied taskTitle (elapse d w1)
      = (Returned r1, elapse d w1))
  /\ (forall title summary userId,
      generateTaskDescription_body title summary userId w
      = (Returned r1, w1) ->
      r1 <> VStr EmptyString ->
      unexpired (descriptionKey title (default EmptyString summary))
                (now w1 + d) (mediumTermCache w1) ->
      generateTaskDescription title summary userId (elapse d w1)
      = (Returned r1, elapse d w1))
  /\ (forall prefix userId,
      generateTitleSuggestions_body prefix userId w = (Returned r1, w1) ->
      unexpired (suggestionsKey userId (default EmptyString prefix))
                (now w1 + d) (shortTermCache w1) ->
      generateTitleSuggestions prefix userId (elapse d w1)
      = (Returned r1, elapse d w1))
  /\ (forall userId userTasks,
      generateTaskPrioritization_body userId userTasks w
      = (Returned r1, w1) ->
      unexpired (prioritizationKey userId
                   (List.filter is_active (default [] userTasks)))
                (now w1 + d) (mediumTermCache w1) ->
      generateTaskPrioritization userId userTasks (elapse d w1)
      = (Returned r1, elapse d w1))
  /\ (forall tasks,
      generateCriticalTasksReport_body (Some tasks) w
      = (Returned r1, w1) ->
      (tasks <> [] ->
       report_prompt (now w1 + d) tasks = report_prompt (now w) tasks
       /\ report_text_held (now w) tasks (now w1 + d)
                           (mediumTermCache w1)) ->
      generateCriticalTasksReport (Some tasks) (elapse d w1)
      = (Returned r1, elapse d w1)).
Proof.
  split; [|split; [|split; [|split]]].
  - intros userId supplied taskTitle tasks. apply predict_twice.
  - intros title summary userId. apply description_twice.
  - intros prefix userId. apply titles_twice.
  - intros userId userTasks. apply prioritize_twice.
  - intros tasks. apply report_twice.
Qed.

End RepeatedCalls.

(** C8, the claim as stated, fails when the first call stores nothing.
    The endpoint is down for a first prioritization, which returns the
    error object and writes no entry in either store; the endpoint answers
    the second call, made at once with the same arguments, and that call
    returns a prioritized list. *)
Lemma idempotence_counterexample :
  Scenario.first_prioritization.1
  = Returned
      (VObj
         [("message",
           VStr "Error generating task prioritization. Using default sorting by priority and due date.");
          ("prioritizedTasks", VArr []);
          ("logic", VStr "Default sorting by priority and due date.");
          ("atRiskTasks", VArr []);
          ("suggestions", VArr [])])
  /\ shortTermCache Scenario.first_prioritization.2 = CacheManager.new 300000
  /\ mediumTermCache Scenario.first_prioritization.2
     = CacheManager.new 3600000
  /\ Scenario.second_prioritization.1
     = Returned
         (VObj
            [("message",
              VStr "Here are your prioritized tasks based on urgency, importance, and deadlines.");
             ("prioritizedTasks",
              VArr [VObj [("id", VStr "1"); ("title", VStr "Task 1");
                          ("reason", VStr "MEDIUM priority")]]);
             ("logic",
              VStr "Tasks are prioritized based on urgency, priority level, and due date.");
             ("atRiskTasks", VArr []);
             ("suggestions", VArr [])])
  /\ Scenario.first_prioritization.1 <> Scenario.second_prioritization.1.
Proof.
  split; [vm_compute; reflexivity|].
  split; [vm_compute; reflexivity|].
  split; [vm_compute; reflexivity|].
  split; [vm_compute; reflexivity|].
  vm_compute. discriminate.
Qed.

(** The condition on the category prediction is needed.  The counter of
    the statistical prediction never holds the key [__proto__]: for
    five tasks filed under that name, a first call that the endpoint
    answers with another name returns null and stores nothing in the
    short-term store; the answer is kept by the wrapper for five
    minutes, and a second call made a millisecond after that, which the
    endpoint answers with the category, returns the category. *)
Example prototype_category_recomputed :
  carried Cases.proto_tasks "__proto__"
  /\ Cases.first_proto.1 = Returned VNull
  /\ shortTermCache Cases.first_proto.2 = CacheManager.new 300000
  /\ requests Cases.first_proto.2 = 1%nat
  /\ (predictNextCategory (P := Cases.late) "u1" (Some Cases.proto_tasks)
                          (Some "Plan the sprint")
                          (elapse 300001 Cases.first_proto.2)).1
     = Returned (VStr "__proto__")
  /\ requests
       (predictNextCategory (P := Cases.late) "u1" (Some Cases.proto_tasks)
                            (Some "Plan the sprint")
                            (elapse 300001 Cases.first_proto.2)).2
     = 2%nat.
Proof.
  split.
  { eexists. split; [now left | reflexivity]. }
  split; [reflexivity|]. split; [reflexivity|]. split; [reflexivity|].
  split; vm_compute; reflexivity.
Qed.

(** ** Worked instances *)

(** The wrapper at start-up with the endpoint down: the value of the
    fallback is returned, and without fallback the error is thrown. *)
Lemma wrapper_failure_witness :
  wrapper_miss (P := Scenario.platform []) "prompt" true (boot 0)
  /\ remote_failure (P := Scenario.platform []) "prompt" (boot 0)
  /\ (callGeminiAPI (P := Scenario.platform []) "prompt" true 1000
                    (Some Scenario.local_answer) (boot 0)).1
     = Returned (VStr "local answer")
  /\ (callGeminiAPI (P := Scenario.platform []) "prompt" true 1000 None
                    (boot 0)).1
     = Thrown (Error "Failed to generate content with AI").
Proof.
  assert (Hmiss : wrapper_miss (P := Scenario.platform []) "prompt" true
                               (boot 0)) by (intros _; reflexivity).
  assert (Hfail : remote_failure (P := Scenario.platform []) "prompt"
                                 (boot 0)) by exact I.
  destruct (wrapper_failure_semantics (P := Scenario.platform [])
              "prompt" true 1000 (boot 0) Hmiss) as [Hfailed _].
  destruct (Hfailed Hfail) as [Hfb Hnone].
  split; [exact Hmiss|]. split; [exact Hfail|].
  split; [exact (Hfb Scenario.local_answer) | exact Hnone].
Defined.

(** The same call leaves the stores empty, and a second call posts a
    second request. *)
Lemma wrapper_fallback_witness :
  Scenario.fell_back.1 = Returned (VStr "local answer")
  /\ mediumTermCache Scenario.fell_back.2 = CacheManager.new 3600000
  /\ requests (callGeminiAPI (P := Scenario.platform []) "prompt" true 1000
                             None (elapse 0 Scenario.fell_back.2)).2
     = 2%nat.
Proof.
  assert (Hmiss : wrapper_miss (P := Scenario.platform []) "prompt" true
                               (boot 0)) by (intros _; reflexivity).
  assert (Hfail : remote_failure (P := Scenario.platform []) "prompt"
                                 (boot 0)) by exact I.
  destruct (wrapper_does_not_cache_fallback (P := Scenario.platform [])
              "prompt" true 1000 Scenario.local_answer
              (boot 0) Hmiss Hfail)
    as [Hres [Hstore [_ [_ [_ [_ Hagain]]]]]].
  split; [exact Hres|]. split; [exact Hstore|].
  destruct (Hagain 0 1000 None) as [_ Hposts]. exact Hposts.
Defined.

(** The categories that the listed tasks carry name no member of
    [Object.prototype]. *)
Ltac plain_by_cases :=
  let c := fresh "c" in
  let t := fresh "t" in
  let Hin := fresh "Hin" in
  let Hc := fresh "Hc" in
  intros c (t & Hin & Hc); simpl in Hin;
  repeat (destruct Hin as [<-|Hin];
          [simpl in Hc; try discriminate; injection Hc as <-; reflexivity|]);
  contradiction.

(** The recency rule on A, A, B, also through [predictNextCategory]
    called without a title, and the most used category on
    B, A, A, C, C, C. *)
Lemma statistical_recency_witness :
  plain_categories Scenario.recent_aab
  /\ recurs_recently Scenario.recent_aab "A"
  /\ (statisticalPrediction "key" Scenario.recent_aab (boot 0)).1
     = Returned (VStr "A")
  /\ (predictNextCategory (P := Scenario.platform []) "u1"
                          (Some Scenario.recent_aab) None (boot 0)).1
     = Returned (VStr "A")
  /\ plain_categories Scenario.six_tasks
  /\ (forall c, ~ recurs_recently Scenario.six_tasks c)
  /\ exists c,
      (statisticalPrediction "key" Scenario.six_tasks (boot 0)).1
      = Returned (VStr c)
      /\ most_used Scenario.six_tasks c.
Proof.
  assert (Haab : recurs_recently Scenario.recent_aab "A").
  { exists "A", ["B"]. split; [reflexivity | vm_compute; lia]. }
  assert (Hnone : forall c, ~ recurs_recently Scenario.six_tasks c).
  { intros c [next [rest [Heq Hcount]]].
    vm_compute in Heq. injection Heq as <- <- <-.
    vm_compute in Hcount. lia. }
  assert (Hplain3 : plain_categories Scenario.recent_aab)
    by plain_by_cases.
  assert (Hplain6 : plain_categories Scenario.six_tasks)
    by plain_by_cases.
  destruct (statistical_recency_rule (P := Scenario.platform []) "key"
              Scenario.recent_aab (boot 0) Hplain3)
    as (Hrule & _ & Hthree & Hpath).
  destruct (statistical_recency_rule (P := Scenario.platform []) "key"
              Scenario.six_tasks (boot 0) Hplain6) as (_ & Hmost & _).
  split; [exact Hplain3|].
  split; [exact Haab|].
  split; [exact (Hthree "A" "B" eq_refl)|].
  split.
  { rewrite (Hpath "u1" (Some Scenario.recent_aab) None (boot 0) eq_refl);
      [exact (Hthree "A" "B" eq_refl) | reflexivity | now right]. }
  split; [exact Hplain6|].
  split; [exact Hnone|].
  apply Hmost; [exact Hnone|].
  exists "B". vm_compute. now left.
Defined.


(** A first prediction, computed from the history, and a second one,
    served from the store. *)
Lemma prediction_membership_witness :
  carried (Scenario.filed_under (Some "Work")) "Work"
  /\ (predictNextCategory (P := Scenario.platform []) "u1"
        (Some (Scenario.filed_under (Some "Work"))) None (boot 0)).1
     = Returned (VStr "Work")
  /\ (predictNextCategory (P := Scenario.platform []) "u1"
        (Some (Scenario.filed_under (Some "Work"))) None
        (elapse 1000 Scenario.first_prediction.2)).1
     = Returned (VStr "Work").
Proof.
  destruct (prediction_membership (P := Scenario.platform [])
              "u1" (Some (Scenario.filed_under (Some "Work"))) None (boot 0)
              (Scenario.filed_under (Some "Work")) eq_refl) as [Hmiss _].
  destruct (prediction_membership (P := Scenario.platform [])
              "u1" (Some (Scenario.filed_under (Some "Work"))) None
              (elapse 1000 Scenario.first_prediction.2)
              (Scenario.filed_under (Some "Work")) eq_refl) as [_ Hhit].
  split; [|split].
  - exists (Scenario.a_task "1" (Some "Work") 1000).
    split; [now left | reflexivity].
  - destruct (Hmiss eq_refl) as [Hnull|[c [Hc _]]].
    + vm_compute in Hnull. discriminate.
    + vm_compute. reflexivity.
  - rewrite Hhit; [vm_compute; reflexivity | discriminate |].
    unfold short_miss. vm_compute. discriminate.
Defined.

(** Suggestions for the prefix upd when the endpoint answers with a
    sentence. *)
Lemma suggestions_from_prose_witness :
  (3 <= String.length "upd")%nat
  /\ no_parseable_array (P := Scenario.prose) "Sorry, no ideas."
  /\ exists l,
      (generateTitleSuggestions (P := Scenario.prose) (Some "upd") "u1"
                                (boot 0)).1
      = Returned (VArr l)
      /\ (length l <= 5)%nat.
Proof.
  assert (Hlen : (3 <= String.length "upd")%nat) by (simpl; lia).
  destruct (suggestions_from_prose (P := Scenario.prose)
              "upd" "u1" "Sorry, no ideas." (boot 0) [])
    as [l [Hres [Hle _]]].
  - exact Hlen.
  - reflexivity.
  - reflexivity.
  - intros _. reflexivity.
  - reflexivity.
  - exact I.
  - split; [exact Hlen|]. split; [exact I|]. exists l. now split.
Defined.

(** The fallback order, the endpoint answering with a sentence.  Of a
    LOW task, an overdue URGENT task and a HIGH task, the URGENT one
    comes first; of an URGENT task that is not overdue, an overdue LOW
    task and a cancelled URGENT task that is overdue, the LOW one comes
    first. *)
Lemma prioritization_fallback_witness :
  (exists first rest,
      (generateTaskPrioritization (P := Scenario.prose) "u1"
                                  (Some Scenario.three_tasks)
                                  (boot 1000000)).1
      = Returned
          (VObj
             [("message",
               VStr "Here are your prioritized tasks based on urgency, importance, and deadlines.");
              ("prioritizedTasks", VArr (first :: rest));
              ("logic",
               VStr "Tasks are prioritized based on urgency, priority level, and due date.");
              ("atRiskTasks", VArr []);
              ("suggestions", VArr [])])
      /\ first = VObj [("id", VStr "urgent"); ("title", VStr "Task urgent");
                       ("reason", VStr "URGENT priority, due 1/1/1970")])
  /\ (exists first rest,
        (generateTaskPrioritization (P := Scenario.prose) "u1"
                                    (Some Cases.late_low_tasks)
                                    (boot 1000000)).1
        = Returned
            (VObj
               [("message",
                 VStr "Here are your prioritized tasks based on urgency, importance, and deadlines.");
                ("prioritizedTasks", VArr (first :: rest));
                ("logic",
                 VStr "Tasks are prioritized based on urgency, priority level, and due date.");
                ("atRiskTasks", VArr []);
                ("suggestions", VArr [])])
        /\ first = VObj [("id", VStr "low"); ("title", VStr "Task low");
                         ("reason", VStr "LOW priority, due 1/1/1970")]).
Proof.
  set (w' := (callGeminiAPI (P := Scenario.prose) "prioritize" true 3600000
                            None (boot 1000000)).2).
  assert (Hnow : now w' = 1000250) by reflexivity.
  split.
  - destruct (prioritization_fallback_ordering (P := Scenario.prose)
                "u1" Scenario.three_tasks (boot 1000000) w'
                (VStr "Sorry, no ideas."))
      as (sorted & finished & _ & _ & _ & _ & Hres & Hfirst).
    + exists (Scenario.due_task "low" LOW None).
      split; [now left | split; discriminate].
    + reflexivity.
    + vm_compute. reflexivity.
    + eexists. reflexivity.
    + destruct (Hfirst (Scenario.due_task "low" LOW None)
                       (Scenario.due_task "urgent" URGENT (Some 0))
                       (Scenario.due_task "high" HIGH (Some 9000000)))
        as [rest Hrest];
        try reflexivity; try (split; discriminate).
      * intros [d [Hd _]]. discriminate.
      * exists 0. split; [reflexivity | rewrite Hnow; lia].
      * intros [d [[= <-] Hd]]. rewrite Hnow in Hd. lia.
      * rewrite Hrest in Hres. simpl map in Hres.
        eexists. eexists. split; [exact Hres | reflexivity].
  - destruct (prioritization_fallback_ordering (P := Scenario.prose)
                "u1" Cases.late_low_tasks (boot 1000000) w'
                (VStr "Sorry, no ideas."))
      as (sorted & finished & Hperm & Hact & Hfin & Hsort & Hres & _).
    + exists (Scenario.due_task "low" LOW (Some 0)).
      split; [right; now left | split; discriminate].
    + reflexivity.
    + vm_compute. reflexivity.
    + eexists. reflexivity.
    + set (low := Scenario.due_task "low" LOW (Some 0)) in *.
      assert (Hlow : overdue (now w') low).
      { exists 0. split; [reflexivity | rewrite Hnow; lia]. }
      assert (Hin : In low sorted).
      { assert (H : In low (sorted ++ finished)).
        { eapply Permutation_in; [exact Hperm | right; now left]. }
        apply in_app_or in H as [H|H]; [exact H|].
        rewrite List.Forall_forall in Hfin. exfalso.
        apply (Hfin low H). split; discriminate. }
      destruct sorted as [|t rest]; [contradiction|].
      pose proof (first_overdue _ _ _ _ Hsort Hin Hlow) as [d [Hd Hlt]].
      assert (Ht : In t Cases.late_low_tasks).
      { eapply Permutation_in; [symmetry; exact Hperm | now left]. }
      assert (Hactive : active t) by now inversion Hact.
      assert (Heq : t = low).
      { destruct Ht as [<-|[<-|[<-|[]]]].
        - injection Hd as <-. rewrite Hnow in Hlt. lia.
        - reflexivity.
        - destruct Hactive as [_ H]. now contradiction H. }
      rewrite Heq in Hres. simpl map in Hres.
      eexists. eexists. split; [exact Hres | reflexivity].
Defined.


(** Each feature with the endpoint and the database down and the fallbacks
    failing: the body of each [try] raises, and the value of the handler
    is returned. *)
Lemma containment_witness :
  (predictNextCategory (P := Scenario.offline) "u1" None None (boot 0)).1
  = Returned VNull
  /\ (generateTaskDescription (P := Scenario.offline) "Report"
                              (Some "Write it.") None (boot 0)).1
     = Returned (VStr "Write it.")
  /\ (generateTitleSuggestions (P := Scenario.offline) (Some "upd") "u1"
                               (boot 0)).1
     = Returned (VArr [VStr "upd task"; VStr "upd project";
                       VStr "upd review"; VStr "upd update";
                       VStr "upd meeting"])
  /\ (exists message logic,
        (generateTaskPrioritization (P := Scenario.offline) "u1"
           (Some [Scenario.due_task "1" MEDIUM None]) (boot 0)).1
        = Returned (VObj [("message", VStr message);
                          ("prioritizedTasks", VArr []);
                          ("logic", VStr logic);
                          ("atRiskTasks", VArr []);
                          ("suggestions", VArr [])]))
  /\ (generateCriticalTasksReport (P := Scenario.offline)
        (Some [Scenario.orphan_task "1" HIGH]) (boot 0)).1
     = Returned (VStr "Error generating report. Please try again later.").
Proof.
  destruct (feature_exception_containment (P := Scenario.offline) (boot 0))
    as [Hpredict [Hdescribe [Hsuggest [Hprioritize Hreport]]]].
  split; [|split; [|split; [|split]]].
  - destruct (Hpredict "u1" None None) as [_ H].
    erewrite H; [reflexivity | vm_compute; reflexivity].
  - destruct (Hdescribe "Report" "Write it." None) as [_ H].
    erewrite H; [reflexivity | vm_compute; reflexivity].
  - destruct (Hsuggest "upd" "u1") as [_ H].
    erewrite H; [reflexivity | vm_compute; reflexivity].
  - destruct (Hprioritize "u1" (Some [Scenario.due_task "1" MEDIUM None]))
      as [_ H].
    destruct (H (Error "Failed to generate content with AI")
                {| now := 250;
                   shortTermCache := CacheManager.new 300000;
                   mediumTermCache := CacheManager.new 3600000;
                   requests := 1 |})
      as [message [logic Hres]]; [vm_compute; reflexivity|].
    exists message, logic. now rewrite Hres.
  - destruct (Hreport (Some [Scenario.orphan_task "1" HIGH])) as [_ H].
    erewrite H; [reflexivity | vm_compute; reflexivity].
Defined.

(** Each feature called twice, one second apart, the endpoint having
    answered the first call with a sentence: the second call returns what
    the first returned and changes nothing. *)
Lemma repeated_call_witness :
  predictNextCategory (P := Scenario.prose) "u1"
    (Some (Scenario.filed_under (Some "Work"))) None
    (elapse 1000 Scenario.predicted.2)
  = (Returned (VStr "Work"), elapse 1000 Scenario.predicted.2)
  /\ generateTaskDescription (P := Scenario.prose) "Report"
       (Some "Write it.") None (elapse 1000 Scenario.described.2)
     = (Returned (VStr "Sorry, no ideas."),
        elapse 1000 Scenario.described.2)
  /\ generateTitleSuggestions (P := Scenario.prose) (Some "upd") "u1"
       (elapse 1000 Scenario.suggested.2)
     = (Returned (VArr []), elapse 1000 Scenario.suggested.2)
  /\ generateTaskPrioritization (P := Scenario.prose) "u1"
       (Some [Scenario.due_task "1" MEDIUM None])
       (elapse 1000 Scenario.prioritized.2)
     = (Scenario.prioritized.1, elapse 1000 Scenario.prioritized.2)
  /\ generateCriticalTasksReport (P := Scenario.prose)
       (Some [Scenario.due_task "1" HIGH None])
       (elapse 1000 Scenario.reported.2)
     = (Returned (VStr "Sorry, no ideas."),
        elapse 1000 Scenario.reported.2).
Proof.
  split; [|split; [|split; [|split]]].
  - destruct (repeated_call_idempotence (P := Scenario.prose) (boot 0)
                Scenario.predicted.2 (VStr "Work") 1000) as [H _].
    apply (H "u1" (Some (Scenario.filed_under (Some "Work"))) None
             (Scenario.filed_under (Some "Work")));
      [reflexivity | vm_compute; reflexivity | left; discriminate
      | unexpired_by_evaluation].
  - destruct (repeated_call_idempotence (P := Scenario.prose) (boot 0)
                Scenario.described.2 (VStr "Sorry, no ideas.") 1000)
      as [_ [H _]].
    apply (H "Report" (Some "Write it.") None);
      [vm_compute; reflexivity | discriminate | unexpired_by_evaluation].
  - destruct (repeated_call_idempotence (P := Scenario.prose) (boot 0)
                Scenario.suggested.2 (VArr []) 1000) as [_ [_ [H _]]].
    apply (H (Some "upd") "u1");
      [vm_compute; reflexivity | unexpired_by_evaluation].
  - destruct Scenario.prioritized as [o w1] eqn:Hfirst.
    assert (Ho : exists r1, o = Returned r1).
    { vm_compute in Hfirst. injection Hfirst as <- _. eexists. reflexivity. }
    destruct Ho as [r1 ->].
    destruct (repeated_call_idempotence (P := Scenario.prose) (boot 0)
                w1 r1 1000) as [_ [_ [_ [H _]]]].
    apply (H "u1" (Some [Scenario.due_task "1" MEDIUM None]));
      [exact Hfirst|].
    vm_compute in Hfirst. injection Hfirst as _ <-.
    unexpired_by_evaluation.
  - destruct (repeated_call_idempotence (P := Scenario.prose) (boot 0)
                Scenario.reported.2 (VStr "Sorry, no ideas.") 1000)
      as [_ [_ [_ [_ H]]]].
    apply (H [Scenario.due_task "1" HIGH None]);
      [vm_compute; reflexivity|].
    intros _. split; [reflexivity|].
    exists "write the report", (VStr "Sorry, no ideas."), 3600250.
    split; [reflexivity|]. split; [vm_compute; reflexivity|].
    split; [reflexivity | vm_compute; discriminate].
Defined.

(** C10, the claim as stated, fails for an entry that has expired.  A
    first call stores the text of the response for one second; five
    seconds later the endpoint is down and a second call with the same
    prompt returns the result of the fallback: the entry under the hash of
    the prompt, still in the store before that call, is gone after it. *)
Lemma fallback_frame_counterexample :
  remote_failure (P := Scenario.prose) "prompt"
                 (elapse 5000 Scenario.answered.2)
  /\ Scenario.then_down.1 = Returned (VStr "local answer")
  /\ CacheManager.cache (mediumTermCache (elapse 5000 Scenario.answered.2))
       !! "prompt"
     = Some {| CacheManager.value := VStr "Sorry, no ideas.";
               CacheManager.expiry := 1250 |}
  /\ CacheManager.cache (mediumTermCache Scenario.then_down.2) !! "prompt"
     = None.
Proof.
  split; [exact I|]. split; [vm_compute; reflexivity|].
  split; vm_compute; reflexivity.
Qed.

(** A value stored for one second, read half a second and two seconds
    later; and a key that was never stored. *)
Lemma cache_ttl_witness :
  CacheManager.get "k" 500 (Scenario.stored_for 1000)
  = (VStr "v", Scenario.stored_for 1000)
  /\ (CacheManager.get "k" 2000 (Scenario.stored_for 1000)).1 = VNull
  /\ CacheManager.has "k"
       (CacheManager.get "k" 2000 (Scenario.stored_for 1000)).2 = false
  /\ CacheManager.get "other" 2000 (CacheManager.new 3600000)
     = (VNull, CacheManager.new 3600000).
Proof.
  destruct (cache_ttl_correctness (CacheManager.new 3600000) "k" (VStr "v")
              1000 0 500) as [Hlive _].
  destruct (cache_ttl_correctness (CacheManager.new 3600000) "k" (VStr "v")
              1000 0 2000) as [_ [Hexpired Habsent]].
  destruct Hexpired as [Hnull Hgone]; [vm_compute; reflexivity|].
  split; [apply Hlive; vm_compute; discriminate|].
  split; [exact Hnull|]. split; [exact Hgone|].
  apply Habsent. reflexivity.
Defined.

(** The first test of the repository's script for the AI features: four
    tasks filed under Work, Development, Work, Work, and no title.  The two
    most recent are filed under Work, which is predicted. *)
Example test_history_prediction :
  (predictNextCategory (P := Scenario.platform []) "user1"
     (Some (Scenario.test_history 1700000000000)) None
     (boot 1700000000000)).1
  = Returned (VStr "Work").
Proof. vm_compute. reflexivity. Qed.

(** The seven tasks of the repository's script for the prioritization,
    sorted one second after they were written: the overdue tasks first
    (the URGENT one, then the HIGH one due at the time of writing), then
    the others by priority, and by due date within a priority. *)
Example mockTasks_order :
  map id (firstn 5 (sort_by (by_urgency 1700000001000)
                            (List.filter is_active
                               (Scenario.mockTasks 1700000000000))))
  = ["task2"; "task7"; "task1"; "task6"; "task5"].
Proof. vm_compute. reflexivity. Qed.

(** The fallback order at time 1000250 on an URGENT task due later, a
    LOW task that is overdue and a cancelled task: the overdue task
    comes first though its priority is the lowest, and the cancelled
    task is left out. *)
Example overdue_before_urgent :
  map id (firstn 5 (sort_by (by_urgency 1000250)
                            (List.filter is_active Cases.late_low_tasks)))
  = ["low"; "urgent"].
Proof. vm_compute. reflexivity. Qed.

(** * Further properties of the code *)

(** ** The other operations of the store *)

Section StoreOperations.

Import CacheManager.

(** X1.  After [delete(key)] a [get(key)] returns null at any time and
    leaves the store as it is, whatever was stored under the key; and a
    [get] of any other key returns what it returned before. *)
Theorem delete_forgets (key k : string) (now : Z) (c : t) :
  get key now (delete key c) = (VNull, delete key c)
  /\ (k <> key -> (get k now (delete key c)).1 = (get k now c).1).
Proof.
  split.
  - apply get_absent. unfold delete. simpl. apply lookup_delete_eq.
  - intros Hne. unfold get, delete. simpl.
    rewrite lookup_delete_ne by congruence.
    destruct (cache c !! k) as [e|]; [|reflexivity].
    destruct (now >? expiry e); reflexivity.
Qed.

(** X2.  [cleanup()] run when the clock reads [now] keeps exactly the
    entries that have not expired at [now], and no [get] at that time or
    later returns anything else than it would have returned without the
    [cleanup]. *)
Theorem cleanup_transparent (now later : Z) (k : string) (c : t) :
  now <= later ->
  (forall e, cache (cleanup now c) !! k = Some e
             <-> cache c !! k = Some e /\ now <= expiry e)
  /\ (get k later (cleanup now c)).1 = (get k later c).1.
Proof.
  intros Hle.
  assert (Hk : forall e, cache (cleanup now c) !! k = Some e
                         <-> cache c !! k = Some e /\ now <= expiry e).
  { intros e. unfold cleanup. simpl. rewrite map_lookup_filter_Some.
    simpl. split; intros [H1 H2]; (split; [exact H1 | lia]). }
  split; [exact Hk|].
  assert (Hl : cache (cleanup now c) !! k
               = match cache c !! k with
                 | Some e => if now >? expiry e then None else Some e
                 | None => None
                 end).
  { apply option_eq. intros e. rewrite Hk.
    destruct (cache c !! k) as [e0|]; [|split; [intros [? _]|]; congruence].
    destruct (Z.gtb_spec now (expiry e0)); split.
    - intros [[= ->] ?]. lia.
    - discriminate.
    - now intros [? _].
    - intros [= ->]. split; [reflexivity | lia]. }
  unfold get. rewrite Hl.
  destruct (cache c !! k) as [e|]; [|reflexivity].
  destruct (Z.gtb_spec now (expiry e)).
  - destruct (Z.gtb_spec later (expiry e)); [reflexivity | lia].
  - destruct (later >? expiry e); reflexivity.
Qed.

(** X3.  [cleanup()] changes nothing in a store none of whose entries
    has expired, and empties, as [clear()] does, a store all of whose
    entries have expired. *)
Theorem cleanup_extremes (now : Z) (c : t) :
  ((forall k e, cache c !! k = Some e -> now <= expiry e) ->
   cleanup now c = c)
  /\ ((forall k e, cache c !! k = Some e -> expiry e < now) ->
      cleanup now c = clear c).
Proof.
  split; intros H; unfold cleanup, clear.
  - destruct c as [m d]. simpl in *. f_equal.
    apply map_filter_id. intros k e He. simpl. specialize (H k e He). lia.
  - f_equal. apply map_empty. intros k.
    apply map_lookup_filter_None. destruct (cache c !! k) as [e|] eqn:He.
    + right. intros e' [= <-]. simpl. specialize (H k e He). lia.
    + now left.
Qed.

(** X4.  A second [set] of a key replaces the value and the expiry of
    the first altogether, and a [set] of one key never changes what a
    [get] of another key returns. *)
Theorem set_overwrites (key k : string) (v1 v2 : jsval)
    (ttl1 ttl2 : option Z) (t1 t2 now : Z) (c : t) :
  set key v2 ttl2 t2 (set key v1 ttl1 t1 c) = set key v2 ttl2 t2 c
  /\ (k <> key -> (get k now (set key v1 ttl1 t1 c)).1 = (get k now c).1).
Proof.
  split.
  - unfold set. simpl. f_equal. apply insert_insert_eq.
  - intros Hne. unfold get. rewrite lookup_set_ne by congruence.
    destruct (cache c !! k) as [e|]; [|reflexivity].
    destruct (now >? expiry e); reflexivity.
Qed.

End StoreOperations.

(** ** Footprints *)

Section SameElsewhere.

Import CacheManager.

Lemma same_elsewhere_refl key c : same_elsewhere key c c.
Proof. split; [reflexivity | intros; reflexivity]. Qed.

Lemma same_elsewhere_trans key c1 c2 c3 :
  same_elsewhere key c1 c2 -> same_elsewhere key c2 c3 ->
  same_elsewhere key c1 c3.
Proof.
  intros [Ht1 H1] [Ht2 H2]. split; [congruence|].
  intros k Hk. rewrite H2, H1 by exact Hk. reflexivity.
Qed.

Lemma same_elsewhere_get key now c : same_elsewhere key c (get key now c).2.
Proof.
  unfold get. destruct (cache c !! key) as [e|];
    [|apply same_elsewhere_refl].
  destruct (now >? expiry e); [|apply same_elsewhere_refl].
  split; [reflexivity|]. intros k Hk. simpl.
  apply lookup_delete_ne. congruence.
Qed.

Lemma same_elsewhere_set key v ttl' now c :
  same_elsewhere key c (set key v ttl' now c).
Proof.
  split; [reflexivity|]. intros k Hk. apply lookup_set_ne. congruence.
Qed.

End SameElsewhere.

Section Keeps.

Context {P : Platform}.

Lemma keeps_seq {A B} (R1 R2 R : world -> world -> Prop)
    (m : M A) (k : A -> M B) :
  (forall w1 w2 w3, R1 w1 w2 -> R2 w2 w3 -> R w1 w3) ->
  (forall w, R2 w w) ->
  keeps R1 m -> (forall a, keeps R2 (k a)) -> keeps R (bind m k).
Proof.
  unfold keeps, bind. intros Hc Hr Hm Hk w.
  specialize (Hm w). destruct (m w) as [[a|e] w1]; simpl in *.
  - eapply Hc; [exact Hm | apply Hk].
  - eapply Hc; [exact Hm | apply Hr].
Qed.

Lemma keeps_handled {A} (R1 R2 R : world -> world -> Prop)
    (m : M A) (h : exn -> M A) :
  (forall w1 w2 w3, R1 w1 w2 -> R2 w2 w3 -> R w1 w3) ->
  (forall w, R2 w w) ->
  keeps R1 m -> (forall e, keeps R2 (h e)) -> keeps R (try_catch m h).
Proof.
  unfold keeps, try_catch. intros Hc Hr Hm Hh w.
  specialize (Hm w). destruct (m w) as [[a|e] w1]; simpl in *.
  - eapply Hc; [exact Hm | apply Hr].
  - eapply Hc; [exact Hm | apply Hh].
Qed.

Section Preorder.

Variable R : world -> world -> Prop.
Hypothesis R_refl : forall w, R w w.
Hypothesis R_trans : forall w1 w2 w3, R w1 w2 -> R w2 w3 -> R w1 w3.

Lemma keeps_ret {A} (a : A) : keeps R (ret a).
Proof. intros w. apply R_refl. Qed.

Lemma keeps_throw {A} (e : exn) : keeps R (throw (A := A) e).
Proof. intros w. apply R_refl. Qed.

Lemma keeps_lift {A} (o : outcome A) : keeps R (lift o).
Proof. intros w. apply R_refl. Qed.

Lemma keeps_clock : keeps R clock.
Proof. intros w. apply R_refl. Qed.

Lemma keeps_bind {A B} (m : M A) (k : A -> M B) :
  keeps R m -> (forall a, keeps R (k a)) -> keeps R (bind m k).
Proof. apply keeps_seq; assumption. Qed.

Lemma keeps_try_catch {A} (m : M A) (h : exn -> M A) :
  keeps R m -> (forall e, keeps R (h e)) -> keeps R (try_catch m h).
Proof. apply keeps_handled; assumption. Qed.

End Preorder.

(** The footprint of the operations on the stores and of the wrapper. *)

Lemma short_only_refl key w : short_only key w w.
Proof. apply same_elsewhere_refl. Qed.

Lemma short_only_trans key w1 w2 w3 :
  short_only key w1 w2 -> short_only key w2 w3 -> short_only key w1 w3.
Proof. apply same_elsewhere_trans. Qed.

Lemma short_untouched_refl w : short_untouched w w.
Proof. reflexivity. Qed.

Lemma short_untouched_trans w1 w2 w3 :
  short_untouched w1 w2 -> short_untouched w2 w3 -> short_untouched w1 w3.
Proof. unfold short_untouched. congruence. Qed.

Lemma short_untouched_only key w w' :
  short_untouched w w' -> short_only key w w'.
Proof.
  unfold short_untouched, short_only. intros ->. apply same_elsewhere_refl.
Qed.

Lemma quiet_refl w : quiet w w.
Proof. reflexivity. Qed.

Lemma quiet_trans w1 w2 w3 : quiet w1 w2 -> quiet w2 w3 -> quiet w1 w3.
Proof. unfold quiet. congruence. Qed.

Lemma one_request_refl w : one_request_at_most w w.
Proof. unfold one_request_at_most. lia. Qed.

Lemma quiet_then_one w1 w2 w3 :
  quiet w1 w2 -> one_request_at_most w2 w3 -> one_request_at_most w1 w3.
Proof. unfold quiet, one_request_at_most. lia. Qed.

Lemma one_then_quiet w1 w2 w3 :
  one_request_at_most w1 w2 -> quiet w2 w3 -> one_request_at_most w1 w3.
Proof. unfold quiet, one_request_at_most. lia. Qed.

Lemma shortGet_short_only key : keeps (short_only key) (shortGet key).
Proof.
  intros w. unfold shortGet, short_only.
  pose proof (same_elsewhere_get key (now w) (shortTermCache w)) as H.
  destruct (CacheManager.get key (now w) (shortTermCache w)). exact H.
Qed.

Lemma shortSet_short_only key v ttl :
  keeps (short_only key) (shortSet key v ttl).
Proof. intros w. apply same_elsewhere_set. Qed.

Lemma mediumGet_short_untouched key : keeps short_untouched (mediumGet key).
Proof.
  intros w. unfold mediumGet, short_untouched.
  destruct (CacheManager.get key (now w) (mediumTermCache w)). reflexivity.
Qed.

Lemma mediumSet_short_untouched key v ttl :
  keeps short_untouched (mediumSet key v ttl).
Proof. intros w. reflexivity. Qed.

Lemma shortGet_quiet key : keeps quiet (shortGet key).
Proof.
  intros w. unfold shortGet, quiet.
  destruct (CacheManager.get key (now w) (shortTermCache w)). reflexivity.
Qed.

Lemma shortSet_quiet key v ttl : keeps quiet (shortSet key v ttl).
Proof. intros w. reflexivity. Qed.

Lemma mediumGet_quiet key : keeps quiet (mediumGet key).
Proof.
  intros w. unfold mediumGet, quiet.
  destruct (CacheManager.get key (now w) (mediumTermCache w)). reflexivity.
Qed.

Lemma mediumSet_quiet key v ttl : keeps quiet (mediumSet key v ttl).
Proof. intros w. reflexivity. Qed.

(** The footprint of the wrapper. *)
Lemma callGeminiAPI_footprint prompt useCache cacheTtl fallbackFn w :
  let w' := (callGeminiAPI prompt useCache cacheTtl fallbackFn w).2 in
  shortTermCache w' = shortTermCache w
  /\ same_elsewhere (generateHash prompt)
                    (mediumTermCache w) (mediumTermCache w')
  /\ (useCache = false -> mediumTermCache w' = mediumTermCache w)
  /\ (requests w <= requests w' <= S (requests w))%nat.
Proof.
  run_wrapper.
  destruct useCache; simpl.
  - pose proof (same_elsewhere_get (generateHash prompt) (now w)
                                   (mediumTermCache w)) as Hg.
    destruct (CacheManager.get (generateHash prompt) (now w)
                               (mediumTermCache w)) as [v c].
    simpl in Hg.
    destruct (truthy v); simpl.
    { split; [reflexivity|]. split; [exact Hg|].
      split; [discriminate|]. lia. }
    destruct (remote (requests w) prompt) as [d [data|e]]; simpl.
    + destruct (generated_text data); simpl.
      * split; [reflexivity|]. split.
        { eapply same_elsewhere_trans; [exact Hg|].
          apply same_elsewhere_set. }
        split; [discriminate|]. lia.
      * destruct fallbackFn as [f|]; simpl;
          [destruct (f prompt (now w + Z.of_N d)); simpl|];
          (split; [reflexivity|]; split; [exact Hg|];
           split; [discriminate|]; lia).
    + destruct fallbackFn as [f|]; simpl;
        [destruct (f prompt (now w + Z.of_N d)); simpl|];
        (split; [reflexivity|]; split; [exact Hg|];
         split; [discriminate|]; lia).
  - destruct (remote (requests w) prompt) as [d [data|e]]; simpl.
    + destruct (generated_text data); simpl;
        [|destruct fallbackFn as [f|]; simpl;
          [destruct (f prompt (now w + Z.of_N d)); simpl|]];
        (split; [reflexivity|]; split; [apply same_elsewhere_refl|];
         split; [reflexivity|]; lia).
    + destruct fallbackFn as [f|]; simpl;
        [destruct (f prompt (now w + Z.of_N d)); simpl|];
        (split; [reflexivity|]; split; [apply same_elsewhere_refl|];
         split; [reflexivity|]; lia).
Qed.

Lemma callGeminiAPI_short_untouched prompt useCache cacheTtl fallbackFn :
  keeps short_untouched (callGeminiAPI prompt useCache cacheTtl fallbackFn).
Proof. intros w. apply callGeminiAPI_footprint. Qed.

Lemma callGeminiAPI_one_request prompt useCache cacheTtl fallbackFn :
  keeps one_request_at_most
        (callGeminiAPI prompt useCache cacheTtl fallbackFn).
Proof. intros w. apply callGeminiAPI_footprint. Qed.

Lemma keeps_weaken {A} (R R' : world -> world -> Prop) (m : M A) :
  (forall w w', R w w' -> R' w w') -> keeps R m -> keeps R' m.
Proof. unfold keeps. auto. Qed.

End Keeps.

(** ** Further properties of the wrapper *)

Section WrapperExtras.

Context {P : Platform}.

(** X5.  With caching on, the wrapper posts a request exactly when a
    lookup of the hash of the prompt finds nothing truthy: what the
    lookup finds truthy is returned as it is, whatever the fallback and
    the state of the endpoint, and the process is left as it was;
    otherwise one request is posted. *)
Theorem wrapper_hit_or_post (prompt : string) (cacheTtl : Z)
    (fallbackFn : option fallback) (w : world) :
  let found :=
    (CacheManager.get (generateHash prompt) (now w) (mediumTermCache w)).1 in
  (truthy found = true ->
   callGeminiAPI prompt true cacheTtl fallbackFn w = (Returned found, w))
  /\ (truthy found = false ->
      requests (callGeminiAPI prompt true cacheTtl fallbackFn w).2
      = S (requests w)).
Proof.
  intros found. split; intros H.
  - destruct (get_truthy _ _ _ H) as (e & Hh & Hle & _).
    exact (callGeminiAPI_served _ _ _ _ _ _ Hh H Hle).
  - apply callGeminiAPI_posts. intros _. exact H.
Qed.

(** X6.  Whatever its arguments and whatever the endpoint and the
    fallback do, a call of the wrapper leaves the short-term store as it
    is, changes the medium-term store under no other key than the hash
    of the prompt (and not at all when caching is off), and posts no
    more than one request. *)
Theorem wrapper_frame (prompt : string) (useCache : bool) (cacheTtl : Z)
    (fallbackFn : option fallback) (w : world) :
  let w' := (callGeminiAPI prompt useCache cacheTtl fallbackFn w).2 in
  shortTermCache w' = shortTermCache w
  /\ same_elsewhere (generateHash prompt)
                    (mediumTermCache w) (mediumTermCache w')
  /\ (useCache = false -> mediumTermCache w' = mediumTermCache w)
  /\ (requests w <= requests w' <= S (requests w))%nat.
Proof. apply callGeminiAPI_footprint. Qed.

(** X7.  When a request brings a truthy text, the wrapper called again
    with the same prompt within the time-to-live it was called with (the
    default of the store when that is 0) returns the same text, whatever
    the fallback and the state of the endpoint by then, posts nothing and
    leaves the process as it was. *)
Theorem wrapper_round_trip (prompt : string) (cacheTtl d : Z)
    (fallbackFn fallbackFn' : option fallback) (w : world) (v : jsval) :
  wrapper_miss prompt true w ->
  remote_returns prompt w v ->
  truthy v = true ->
  0 <= d <= effective_ttl (mediumTermCache w) cacheTtl ->
  let w1 := (callGeminiAPI prompt true cacheTtl fallbackFn w).2 in
  callGeminiAPI prompt true cacheTtl fallbackFn w = (Returned v, w1)
  /\ callGeminiAPI prompt true cacheTtl fallbackFn' (elapse d w1)
     = (Returned v, elapse d w1).
Proof.
  intros Hmiss Hok Hv Hd w1. subst w1.
  rewrite (callGeminiAPI_on_success _ _ cacheTtl fallbackFn _ _ Hmiss Hok).
  split; [reflexivity|]. simpl.
  eapply callGeminiAPI_served; [|exact Hv|].
  - unfold elapse, after_success. simpl. unfold holds.
    apply lookup_set.
  - simpl. unfold effective_ttl in *.
    assert (Ht : CacheManager.ttl
                   (CacheManager.get (generateHash prompt) (now w)
                                     (mediumTermCache w)).2
                 = CacheManager.ttl (mediumTermCache w))
      by apply same_elsewhere_get.
    rewrite Ht. lia.
Qed.

(** X8.  A text that is the empty string is stored by the wrapper but
    never served: called again with the same prompt, at whatever time,
    the wrapper posts a new request. *)
Theorem wrapper_empty_text_not_served (prompt : string) (cacheTtl d : Z)
    (fallbackFn fallbackFn' : option fallback) (w : world) :
  wrapper_miss prompt true w ->
  remote_returns prompt w (VStr EmptyString) ->
  let w1 := (callGeminiAPI prompt true cacheTtl fallbackFn w).2 in
  callGeminiAPI prompt true cacheTtl fallbackFn w
  = (Returned (VStr EmptyString), w1)
  /\ CacheManager.has (generateHash prompt) (mediumTermCache w1) = true
  /\ requests (callGeminiAPI prompt true cacheTtl fallbackFn'
                             (elapse d w1)).2
     = S (requests w1).
Proof.
  intros Hmiss Hok w1. subst w1.
  rewrite (callGeminiAPI_on_success _ _ cacheTtl fallbackFn _ _ Hmiss Hok).
  split; [reflexivity|]. simpl. split.
  - unfold CacheManager.has. now rewrite lookup_set.
  - apply callGeminiAPI_posts. intros _. simpl.
    unfold CacheManager.get. rewrite lookup_set. simpl.
    match goal with |- context [if ?b then _ else _] => destruct b end;
      reflexivity.
Qed.

End WrapperExtras.

(** Walks a computation made of the operations above. *)
Ltac case_split :=
  match goal with
  | |- keeps _ (match ?x with _ => _ end) => destruct x
  | |- keeps _ (if ?b then _ else _) => destruct b
  end.

Ltac walk_with R_refl R_trans atoms :=
  repeat first
    [ apply (keeps_ret _ R_refl)
    | apply (keeps_throw _ R_refl)
    | apply (keeps_lift _ R_refl)
    | apply (keeps_clock _ R_refl)
    | atoms
    | apply (keeps_bind _ R_refl R_trans); [|intros ?]
    | apply (keeps_try_catch _ R_refl R_trans); [|intros ?]
    | case_split ].

Ltac short_untouched_atoms :=
  first [ apply mediumGet_short_untouched
        | apply mediumSet_short_untouched
        | apply callGeminiAPI_short_untouched ].

Ltac quiet_atoms :=
  first [ apply shortGet_quiet | apply shortSet_quiet
        | apply mediumGet_quiet | apply mediumSet_quiet ].

Ltac short_only_atoms key :=
  first [ apply (shortGet_short_only key)
        | apply (shortSet_short_only key)
        | apply (keeps_weaken short_untouched (short_only key) _
                              (short_untouched_only key));
          short_untouched_atoms ].

Ltac walk_quiet := walk_with quiet_refl quiet_trans quiet_atoms.

(** Walks a computation that calls the wrapper once at most. *)
Ltac walk_one :=
  first
    [ solve [apply (keeps_weaken quiet one_request_at_most);
             [unfold quiet, one_request_at_most; intros; lia
             | walk_quiet]]
    | apply callGeminiAPI_one_request
    | apply (keeps_seq quiet one_request_at_most one_request_at_most
                       _ _ quiet_then_one one_request_refl);
      [solve [walk_quiet] | intros ?; walk_one]
    | apply (keeps_seq one_request_at_most quiet one_request_at_most
                       _ _ one_then_quiet quiet_refl);
      [walk_one | intros ?; solve [walk_quiet]]
    | apply (keeps_handled quiet one_request_at_most one_request_at_most
                           _ _ quiet_then_one one_request_refl);
      [solve [walk_quiet] | intros ?; walk_one]
    | apply (keeps_handled one_request_at_most quiet one_request_at_most
                           _ _ one_then_quiet quiet_refl);
      [walk_one | intros ?; solve [walk_quiet]]
    | case_split; walk_one ].

Section FeatureFootprints.

Context {P : Platform}.

(** *** The short-term store *)

Lemma description_short_untouched title summary userId :
  keeps short_untouched (generateTaskDescription title summary userId).
Proof.
  unfold generateTaskDescription, generateTaskDescription_body,
    computeDescription, userContext.
  walk_with short_untouched_refl short_untouched_trans
            short_untouched_atoms.
Qed.

Lemma report_short_untouched tasks :
  keeps short_untouched (generateCriticalTasksReport tasks).
Proof.
  unfold generateCriticalTasksReport, generateCriticalTasksReport_body.
  walk_with short_untouched_refl short_untouched_trans
            short_untouched_atoms.
Qed.

Lemma prioritization_short_untouched userId userTasks :
  keeps short_untouched (generateTaskPrioritization userId userTasks).
Proof.
  unfold generateTaskPrioritization, generateTaskPrioritization_body,
    computePrioritization, parsedResponse.
  walk_with short_untouched_refl short_untouched_trans
            short_untouched_atoms.
Qed.

Lemma after_miss_short_only userId tasks taskTitle :
  keeps (short_only (predictionKey userId tasks taskTitle))
        (after_miss userId tasks taskTitle).
Proof.
  unfold after_miss, computePrediction, contextualPrediction,
    statisticalPrediction.
  set (key := predictionKey userId tasks taskTitle).
  walk_with (short_only_refl key) (short_only_trans key)
            ltac:(short_only_atoms key).
Qed.

Lemma looked_short_only key w : short_only key w (looked_short key w).
Proof. apply same_elsewhere_get. Qed.

Lemma prediction_short_only userId supplied taskTitle tasks :
  history userId supplied = Returned tasks ->
  keeps (short_only (predictionKey userId tasks taskTitle))
        (predictNextCategory userId supplied taskTitle).
Proof.
  intros Hh w.
  assert (Hcase : tasks = [] \/ tasks <> [])
    by (destruct tasks; [left | right]; congruence).
  destruct Hcase as [->|Hne].
  { rewrite predict_empty by exact Hh. apply short_only_refl. }
  destruct (truthy (CacheManager.get
                      (predictionKey userId tasks taskTitle)
                      (now w) (shortTermCache w)).1) eqn:Hc.
  - rewrite (predict_hit _ _ _ _ _ Hh Hne)
      by (unfold short_miss; congruence).
    apply looked_short_only.
  - rewrite (predict_miss _ _ _ _ _ Hh Hne Hc).
    eapply short_only_trans; [apply looked_short_only|].
    apply after_miss_short_only.
Qed.

Lemma prediction_short_untouched userId supplied taskTitle e :
  history userId supplied = Thrown e ->
  keeps short_untouched (predictNextCategory userId supplied taskTitle).
Proof.
  intros Hh w. unfold predictNextCategory, predictNextCategory_body.
  destruct supplied as [l|]; [discriminate|]. simpl in Hh.
  run_M. rewrite Hh. reflexivity.
Qed.

Lemma suggestions_short_only prefix userId :
  keeps (short_only (suggestionsKey userId (default EmptyString prefix)))
        (generateTitleSuggestions prefix userId).
Proof.
  unfold generateTitleSuggestions, generateTitleSuggestions_body,
    computeSuggestions.
  destruct prefix as [prefix|]; simpl default.
  - set (key := suggestionsKey userId prefix).
    walk_with (short_only_refl key) (short_only_trans key)
              ltac:(short_only_atoms key).
  - set (key := suggestionsKey userId EmptyString).
    walk_with (short_only_refl key) (short_only_trans key)
              ltac:(short_only_atoms key).
Qed.

(** *** Requests *)

Lemma prediction_one_request userId supplied taskTitle :
  keeps one_request_at_most (predictNextCategory userId supplied taskTitle).
Proof.
  unfold predictNextCategory, predictNextCategory_body, computePrediction,
    contextualPrediction, statisticalPrediction.
  walk_one.
Qed.

Lemma description_one_request title summary userId :
  keeps one_request_at_most (generateTaskDescription title summary userId).
Proof.
  unfold generateTaskDescription, generateTaskDescription_body,
    computeDescription, userContext.
  walk_one.
Qed.

Lemma report_one_request tasks :
  keeps one_request_at_most (generateCriticalTasksReport tasks).
Proof.
  unfold generateCriticalTasksReport, generateCriticalTasksReport_body.
  walk_one.
Qed.

Lemma suggestions_one_request prefix userId :
  keeps one_request_at_most (generateTitleSuggestions prefix userId).
Proof.
  unfold generateTitleSuggestions, generateTitleSuggestions_body,
    computeSuggestions.
  walk_one.
Qed.

Lemma prioritization_one_request userId userTasks :
  keeps one_request_at_most (generateTaskPrioritization userId userTasks).
Proof.
  unfold generateTaskPrioritization, generateTaskPrioritization_body,
    computePrioritization, parsedResponse.
  walk_one.
Qed.

End FeatureFootprints.

(** ** Further properties of the feature functions *)

Section GuardedCalls.

Context {P : Platform}.

(** X9.  Called with a prefix that is missing or shorter than three
    characters, with a summary that is missing or blank, or with no task
    or no active task, the feature functions return their fixed answer
    and touch nothing: no lookup in a store, no query, no request. *)
Theorem guarded_calls_touch_nothing (w : world) :
  (forall prefix userId,
      short_prefix prefix = true ->
      generateTitleSuggestions prefix userId w = (Returned (VArr []), w))
  /\ (forall title summary userId,
      no_summary summary = true ->
      generateTaskDescription title summary userId w = (Returned VNull, w))
  /\ (forall userId userTasks,
      default [] userTasks = [] ->
      generateTaskPrioritization userId userTasks w
      = (Returned (no_tasks "No tasks found to prioritize."), w))
  /\ (forall userId userTasks,
      default [] userTasks <> [] ->
      List.filter is_active (default [] userTasks) = [] ->
      generateTaskPrioritization userId userTasks w
      = (Returned (no_tasks "No active tasks found to prioritize."), w))
  /\ (forall tasks,
      default [] tasks = [] ->
      generateCriticalTasksReport tasks w
      = (Returned (VStr "No tasks found for analysis."), w)).
Proof.
  split; [|split; [|split; [|split]]].
  - intros prefix userId H.
    unfold generateTitleSuggestions, generateTitleSuggestions_body.
    destruct prefix as [p|]; [rewrite H|]; reflexivity.
  - intros title summary userId H.
    unfold generateTaskDescription, generateTaskDescription_body.
    destruct summary as [s|]; [rewrite H|]; reflexivity.
  - intros userId [[|t r]|] H; try discriminate; reflexivity.
  - intros userId [[|t r]|] Hne H; simpl in Hne; try congruence.
    unfold generateTaskPrioritization, generateTaskPrioritization_body.
    change (List.filter is_active (t :: r) = []) in H.
    cbv zeta. rewrite H. reflexivity.
  - intros [[|t r]|] H; try discriminate; reflexivity.
Qed.

End GuardedCalls.

Section SuggestionBounds.

Context {P : Platform}.

Lemma static_suggestions_strings prefix :
  Forall (fun v => is_string v = true) (static_suggestions prefix).
Proof. unfold static_suggestions. simpl. repeat constructor. Qed.

Lemma suggestions_of_bounded prefix response :
  (length (suggestions_of prefix response) <= 5)%nat
  /\ Forall (fun v => is_string v = true) (suggestions_of prefix response).
Proof.
  unfold suggestions_of, parse_suggestions.
  destruct (as_string response) as [text|];
    [|split; [simpl; lia | apply static_suggestions_strings]].
  destruct (Str.match_enclosed "[" "]" text) as [m|].
  - destruct (JSON_parse m) as [[| | | | |items|]|];
      try (split; [simpl; lia | apply static_suggestions_strings]).
    split; [apply firstn_le_length|].
    apply List.Forall_forall. intros v Hv.
    apply In_firstn in Hv. now apply filter_In in Hv.
  - split.
    + rewrite length_map. apply scan_lines_length.
    + apply List.Forall_forall. intros v Hv.
      apply in_map_iff in Hv as [q [<- _]]. reflexivity.
Qed.

(** X10.  For a prefix of three characters or more and nothing cached
    for the call, [generateTitleSuggestions] returns an array of at most
    five elements, all of them strings, whatever the database, the
    endpoint, the fallback and [JSON.parse] do. *)
Theorem suggestions_at_most_five (prefix userId : string) (w : world) :
  short_prefix (Some prefix) = false ->
  short_miss (suggestionsKey userId prefix) w ->
  exists l w',
    generateTitleSuggestions (Some prefix) userId w = (Returned (VArr l), w')
    /\ (length l <= 5)%nat
    /\ Forall (fun v => is_string v = true) l.
Proof.
  intros Hp Hmiss. rewrite (titles_miss _ _ _ Hp Hmiss).
  set (w0 := looked_short (suggestionsKey userId prefix) w).
  unfold computeSuggestions. run_M.
  destruct (findMany (CreatedByOrAssignedTo userId 20)) as [userTasks|e].
  - destruct (callGeminiAPI _ true 300000 _ w0) as [[response|e] w1].
    + destruct (suggestions_of_bounded prefix response) as [Hl Hs].
      eexists _, _. split; [reflexivity|]. split; assumption.
    + eexists _, _. split; [reflexivity|].
      split; [simpl; lia | apply static_suggestions_strings].
  - eexists _, _. split; [reflexivity|].
    split; [simpl; lia | apply static_suggestions_strings].
Qed.

End SuggestionBounds.

Section DescriptionText.

Context {P : Platform}.

Lemma description_miss title summary userId w :
  no_summary (Some summary) = false ->
  medium_miss (descriptionKey title summary) w ->
  generateTaskDescription title (Some summary) userId w
  = try_catch (computeDescription (descriptionKey title summary)
                                  title summary userId)
              (fun _ => ret (VStr summary))
              (looked_medium (descriptionKey title summary) w).
Proof.
  unfold generateTaskDescription, generateTaskDescription_body,
    medium_miss, looked_medium.
  intros Hs Hmiss. rewrite Hs. run_M.
  destruct (CacheManager.get _ (now w) (mediumTermCache w)) as [v c].
  simpl in *. rewrite Hmiss. reflexivity.
Qed.

Lemma description_hit title summary userId w :
  no_summary (Some summary) = false ->
  ~ medium_miss (descriptionKey title summary) w ->
  generateTaskDescription title (Some summary) userId w
  = (Returned (CacheManager.get (descriptionKey title summary)
                                (now w) (mediumTermCache w)).1,
     looked_medium (descriptionKey title summary) w).
Proof.
  unfold generateTaskDescription, generateTaskDescription_body,
    medium_miss, looked_medium.
  intros Hs Hhit. apply not_false_is_true in Hhit. rewrite Hs. run_M.
  destruct (CacheManager.get _ (now w) (mediumTermCache w)) as [v c].
  simpl in *. rewrite Hhit. reflexivity.
Qed.

Lemma computeDescription_text key title summary userId w r w1 :
  computeDescription key title summary userId w = (Returned r, w1) ->
  is_string r = true.
Proof.
  unfold computeDescription, userContext. run_M.
  destruct userId as [u|]; [destruct (Str.is_empty u)|]; simpl;
    try destruct (findMany (CreatedBy u 3)); simpl;
    match goal with
    | |- context [callGeminiAPI ?p ?c ?t ?f w] =>
        destruct (callGeminiAPI p c t f w) as [[g|?] w2]
    end; try discriminate;
    destruct (as_string g); simpl; try discriminate;
    now intros [= <- _].
Qed.

(** X11.  For a summary that is not blank [generateTaskDescription]
    never returns null: it returns the live value of the store when
    that is truthy, and otherwise a string, whatever the database, the
    endpoint and the fallback do. *)
Theorem description_never_null (title summary : string)
    (userId : option string) (w : world) :
  no_summary (Some summary) = false ->
  exists r w',
    generateTaskDescription title (Some summary) userId w = (Returned r, w')
    /\ r <> VNull /\ r <> VUndefined
    /\ (medium_miss (descriptionKey title summary) w -> is_string r = true).
Proof.
  intros Hs.
  destruct (truthy (CacheManager.get (descriptionKey title summary)
                                     (now w) (mediumTermCache w)).1)
    eqn:Hc.
  - rewrite (description_hit _ _ _ _ Hs)
      by (unfold medium_miss; congruence).
    eexists _, _. split; [reflexivity|].
    split; [|split].
    + intros H. rewrite H in Hc. discriminate.
    + intros H. rewrite H in Hc. discriminate.
    + unfold medium_miss. congruence.
  - rewrite (description_miss _ _ _ _ Hs Hc).
    unfold try_catch.
    destruct (computeDescription _ title summary userId _)
      as [[r|e] w1] eqn:Hcomp.
    + apply computeDescription_text in Hcomp.
      eexists _, _. split; [reflexivity|].
      destruct r; try discriminate.
      split; [discriminate|]. split; [discriminate|]. reflexivity.
    + eexists _, _. split; [reflexivity|].
      split; [discriminate|]. split; [discriminate|]. reflexivity.
Qed.

End DescriptionText.

Section Report.

Context {P : Platform}.

Lemma map_outcome_throws {A B} (f : A -> outcome B) l x e :
  In x l -> f x = Thrown e -> exists e', map_outcome f l = Thrown e'.
Proof.
  induction l as [|y r IH]; simpl; [contradiction|].
  intros [->|Hin] Hx.
  - rewrite Hx. eauto.
  - destruct (f y); [|eauto].
    destruct (IH Hin Hx) as [e' ->]. eauto.
Qed.

Lemma map_outcome_returns {A B} (f : A -> outcome B) l ys :
  map_outcome f l = Returned ys -> Forall2 (fun x y => f x = Returned y) l ys.
Proof.
  revert ys. induction l as [|x r IH]; simpl; intros ys.
  - intros [= <-]. constructor.
  - destruct (f x) as [y|] eqn:Hx; [|discriminate].
    destruct (map_outcome f r) as [ys'|]; [|discriminate].
    intros [= <-]. constructor; [exact Hx | now apply IH].
Qed.

Lemma report_prompt_rows today tasks :
  report_prompt today tasks
  = match criticalTasksData today tasks with
    | Thrown e => Thrown e
    | Returned criticalRows =>
        match overdueTasksData today tasks with
        | Thrown e => Thrown e
        | Returned overdueRows =>
            Returned (reportPrompt criticalRows overdueRows)
        end
    end.
Proof. reflexivity. Qed.

(** X12.  When a task of the list that is critical or overdue comes
    without its creator, [generateCriticalTasksReport] returns the error
    text and touches nothing: no request is posted and no store is
    read. *)
Theorem report_needs_creators (tasks : list task) (t : task) (w : world) :
  In t tasks ->
  createdBy t = None ->
  is_critical t || is_overdue (now w) t = true ->
  generateCriticalTasksReport (Some tasks) w
  = (Returned (VStr "Error generating report. Please try again later."), w).
Proof.
  intros Hin Hnone Hlisted.
  assert (Hthrow : exists e, report_prompt (now w) tasks = Thrown e).
  { rewrite report_prompt_rows. unfold criticalTasksData, overdueTasksData.
    assert (Hrow : forall o, report_row o (now w) t
                             = Thrown (TypeError
                                         "Cannot read properties: firstName")).
    { intros o. unfold report_row. now rewrite Hnone. }
    apply orb_true_iff in Hlisted as [Hc|Ho].
    - edestruct (map_outcome_throws (report_row false (now w))
                   (List.filter is_critical tasks) t) as [e ->];
        [apply filter_In; now split | apply Hrow | eauto].
    - destruct (map_outcome (report_row false (now w))
                            (List.filter is_critical tasks)); [|eauto].
      edestruct (map_outcome_throws (report_row true (now w))
                   (sort_by earliest_due_first
                      (List.filter (is_overdue (now w)) tasks)) t)
        as [e ->]; [| apply Hrow | eauto].
      eapply Permutation_in; [symmetry; apply sort_by_perm|].
      apply filter_In. now split. }
  destruct Hthrow as [e He].
  unfold generateCriticalTasksReport, generateCriticalTasksReport_body.
  destruct tasks as [|t0 rest]; [contradiction|].
  run_M. rewrite He. reflexivity.
Qed.

(** Sorting a list on whose elements the comparator is total and
    transitive. *)
Lemma sort_by_sorted_on {A} (cmp : A -> A -> Z) (Q : A -> Prop) l :
  (forall a b, Q a -> Q b -> before cmp a b \/ before cmp b a) ->
  (forall a b c, Q a -> Q b -> Q c ->
                 before cmp a b -> before cmp b c -> before cmp a c) ->
  List.Forall Q l ->
  StronglySorted (before cmp) (sort_by cmp l).
Proof.
  intros Htot Htrans. induction 1 as [|x r Hx Hr IH]; simpl; [constructor|].
  assert (HQ : List.Forall Q (sort_by cmp r)).
  { eapply Permutation_Forall; [symmetry; apply sort_by_perm | exact Hr]. }
  revert IH HQ. generalize (sort_by cmp r). clear Hr r.
  induction 1 as [|y r Hs IH Hall]; simpl; intros HQ.
  - repeat constructor.
  - inversion HQ as [|? ? Hy HQr]; subst.
    destruct (Z.leb_spec (cmp x y) 0) as [Hxy|Hxy].
    + constructor; [now constructor|].
      constructor; [exact Hxy|].
      rewrite List.Forall_forall in Hall, HQr.
      apply List.Forall_forall. intros z Hz.
      apply (Htrans x y z); auto.
    + constructor; [now apply IH|].
      assert (Hyx : before cmp y x).
      { destruct (Htot x y Hx Hy) as [H|H]; [|exact H].
        unfold before in H. lia. }
      eapply Permutation_Forall; [symmetry; apply insert_by_perm|].
      now constructor.
Qed.

Lemma daysOverdue_of_row today t r :
  report_row true today t = Returned r ->
  days_overdue r = match dueDate t with
                   | Some d => (today - d) / 86400000
                   | None => 0
                   end.
Proof.
  unfold report_row, days_overdue.
  destruct (createdBy t); [|discriminate]. now intros [= <-].
Qed.

(** X13.  In the prompt of the report the rows of the overdue tasks are
    as many as the active tasks of the list that are past due, none
    counts a negative number of days, and they come most overdue
    first. *)
Theorem overdue_rows_most_overdue_first (today : Z) (tasks : list task)
    (rows : list reportRow) :
  overdueTasksData today tasks = Returned rows ->
  length rows = length (List.filter (is_overdue today) tasks)
  /\ List.Forall (fun r => 0 <= days_overdue r) rows
  /\ StronglySorted (fun r1 r2 => days_overdue r2 <= days_overdue r1) rows.
Proof.
  unfold overdueTasksData. intros Hrows.
  apply map_outcome_returns in Hrows.
  set (overdue := List.filter (is_overdue today) tasks) in *.
  set (Q := fun t : task => exists d, dueDate t = Some d /\ d < today).
  assert (HQ : List.Forall Q overdue).
  { apply List.Forall_forall. intros t Ht.
    apply filter_In in Ht as [_ Ht]. unfold is_overdue, past_due in Ht.
    apply andb_true_iff in Ht as [Ht _].
    destruct (dueDate t) as [d|] eqn:Hd; [|discriminate].
    exists d. split; [exact Hd | now apply Z.ltb_lt]. }
  assert (Hsorted : StronglySorted (before earliest_due_first)
                      (sort_by earliest_due_first overdue)).
  { apply (sort_by_sorted_on _ Q); [| |exact HQ].
    - intros a b [x [Ha _]] [y [Hb _]].
      unfold before, earliest_due_first. rewrite Ha, Hb. lia.
    - intros a b c [x [Ha _]] [y [Hb _]] [z [Hc _]].
      unfold before, earliest_due_first. rewrite Ha, Hb, Hc. lia. }
  assert (HQs : List.Forall Q (sort_by earliest_due_first overdue)).
  { eapply Permutation_Forall; [symmetry; apply sort_by_perm | exact HQ]. }
  split; [|split].
  - rewrite <- (sort_by_length earliest_due_first overdue).
    symmetry. eapply Forall2_length. exact Hrows.
  - clear Hsorted. induction Hrows as [|t r ts rs Hrow _ IH];
      [constructor|].
    inversion HQs as [|? ? [d [Hd Hlt]] HQr]; subst.
    constructor; [|now apply IH].
    rewrite (daysOverdue_of_row _ _ _ Hrow), Hd.
    apply Z.div_pos; lia.
  - induction Hrows as [|t r ts rs Hrow Hrest IH]; [constructor|].
    inversion HQs as [|? ? [d [Hd Hlt]] HQr]; subst.
    inversion Hsorted as [|? ? Hs Hall]; subst.
    constructor; [now apply IH|].
    rewrite (daysOverdue_of_row _ _ _ Hrow), Hd.
    clear IH Hs Hsorted HQs Hrow.
    induction Hrest as [|t' r' ts' rs' Hrow' _ IH']; [constructor|].
    inversion Hall as [|? ? Hb Hall']; subst.
    inversion HQr as [|? ? [d' [Hd' _]] HQr']; subst.
    constructor; [|now apply IH'].
    rewrite (daysOverdue_of_row _ _ _ Hrow'), Hd'.
    unfold before, earliest_due_first in Hb. rewrite Hd, Hd' in Hb.
    apply Z.div_le_mono; lia.
Qed.

End Report.

Section Spread.

Lemma assoc_put_eq k v o : assoc k (put k v o) = v.
Proof.
  induction o as [|[k' v'] r IH]; simpl.
  - now rewrite String.eqb_refl.
  - destruct (String.eqb_spec k' k) as [->|Hne]; simpl.
    + now rewrite String.eqb_refl.
    + destruct (String.eqb_spec k' k); [contradiction | exact IH].
Qed.

Lemma assoc_put_ne k k0 v o : k0 <> k -> assoc k (put k0 v o) = assoc k o.
Proof.
  intros Hne. induction o as [|[k' v'] r IH]; simpl.
  - destruct (String.eqb_spec k0 k); [contradiction | reflexivity].
  - destruct (String.eqb_spec k' k0) as [->|Hk0]; simpl.
    + destruct (String.eqb_spec k0 k); [contradiction | reflexivity].
    + destruct (String.eqb_spec k' k); [reflexivity | exact IH].
Qed.

Lemma assoc_absent k (o : list (string * jsval)) :
  ~ In k (keys o) -> assoc k o = VUndefined.
Proof.
  induction o as [|[k' v'] r IH]; simpl; [reflexivity|].
  intros Hnot. destruct (String.eqb_spec k' k) as [->|Hne].
  - exfalso. apply Hnot. now left.
  - apply IH. intros Hin. apply Hnot. now right.
Qed.

Lemma assoc_spread_members k base fs :
  NoDup (keys fs) ->
  let result := foldl (fun o kv => put kv.1 kv.2 o) base fs in
  (In k (keys fs) -> assoc k result = assoc k fs)
  /\ (~ In k (keys fs) -> assoc k result = assoc k base).
Proof.
  revert base. induction fs as [|[k0 v0] r IH]; intros base Hnd; simpl.
  - split; [contradiction | reflexivity].
  - apply NoDup_cons in Hnd as [Hnot Hnd]. rewrite list_elem_of_In in Hnot.
    destruct (IH (put k0 v0 base) Hnd) as [Hin Hout].
    destruct (String.eqb_spec k0 k) as [->|Hne].
    + split; [|intros H; exfalso; apply H; now left].
      intros _. rewrite (Hout Hnot). apply assoc_put_eq.
    + split.
      * intros [?|Hk]; [contradiction | now apply Hin].
      * intros Hk. rewrite Hout by (intros ?; apply Hk; now right).
        now apply assoc_put_ne.
Qed.

End Spread.

Section PrioritizationMembers.

Context {P : Platform}.

(** X14.  When nothing is cached for the call and the response of the
    wrapper parses as an object, every member of that object is a member
    of the result of [generateTaskPrioritization] with the same value, a
    member named message included; the fixed message is the message of
    the result only when the object has none. *)
Theorem prioritization_passes_members (userId : string) (tasks : list task)
    (w w' : world) (response : jsval) (fs : list (string * jsval)) :
  let activeTasks := List.filter is_active tasks in
  let key := prioritizationKey userId activeTasks in
  let prompt := prioritizationPrompt (map (ai_row (now w)) activeTasks) in
  activeTasks <> [] ->
  medium_miss key w ->
  callGeminiAPI prompt true 3600000 None (looked_medium key w)
  = (Returned response, w') ->
  parse_prioritization response = Returned (VObj fs) ->
  NoDup (keys fs) ->
  exists result,
    (generateTaskPrioritization userId (Some tasks) w).1
    = Returned (VObj result)
    /\ (forall k, In k (keys fs) -> assoc k result = assoc k fs)
    /\ (~ In "message" (keys fs) ->
        assoc "message" result
        = VStr "Here are your prioritized tasks based on urgency, importance, and deadlines.").
Proof.
  intros activeTasks key prompt Hne Hmiss Hcall Hparse Hnd.
  rewrite (prioritize_miss _ _ _ Hne Hmiss).
  fold activeTasks. fold key.
  unfold computePrioritization, parsedResponse. run_M.
  change (now (looked_medium key w)) with (now w). fold prompt.
  rewrite Hcall. simpl. rewrite Hparse. simpl.
  eexists. split; [reflexivity|].
  unfold spread. simpl own_members. split.
  - intros k Hk. now apply (assoc_spread_members k _ _ Hnd).
  - intros Hk. now rewrite (proj2 (assoc_spread_members _ _ _ Hnd) Hk).
Qed.

End PrioritizationMembers.

Section Keys.

Context {P : Platform}.

Lemma get_same_elsewhere key k t c c' :
  same_elsewhere key c c' -> k <> key ->
  (CacheManager.get k t c').1 = (CacheManager.get k t c).1.
Proof.
  intros [_ H] Hne. unfold CacheManager.get. rewrite (H k Hne).
  destruct (CacheManager.cache c !! k) as [e|]; [|reflexivity].
  destruct (t >? CacheManager.expiry e); reflexivity.
Qed.

Lemma prediction_key_not_suggestions userId tasks taskTitle u prefix :
  predictionKey userId tasks taskTitle <> suggestionsKey u prefix.
Proof. unfold predictionKey, suggestionsKey. simpl. discriminate. Qed.

Lemma description_key_not_prioritization title summary u activeTasks :
  descriptionKey title summary <> prioritizationKey u activeTasks.
Proof. unfold descriptionKey, prioritizationKey. simpl. discriminate. Qed.

Lemma length_append (s1 s2 : string) :
  String.length (s1 +:+ s2) = (String.length s1 + String.length s2)%nat.
Proof. induction s1 as [|a r IH]; simpl; [reflexivity | now rewrite IH]. Qed.

(** X15.  The keys under which the features store their results never
    coincide: a prediction key is no suggestions key (short-term store),
    a description key is no prioritization key (medium-term store), and,
    the digest being 32 characters long, neither of the latter is a key
    of the wrapper, which is the digest of a prompt. *)
Theorem feature_keys_disjoint :
  (forall userId tasks taskTitle u prefix,
      predictionKey userId tasks taskTitle <> suggestionsKey u prefix)
  /\ (forall title summary u activeTasks,
      descriptionKey title summary <> prioritizationKey u activeTasks)
  /\ ((forall s, String.length (generateHash s) = 32%nat) ->
      forall prompt title summary u activeTasks,
        generateHash prompt <> descriptionKey title summary
        /\ generateHash prompt <> prioritizationKey u activeTasks).
Proof.
  split; [|split].
  - intros. apply prediction_key_not_suggestions.
  - intros. apply description_key_not_prioritization.
  - intros Hlen prompt title summary u activeTasks.
    split; intros Heq; apply (f_equal String.length) in Heq;
      unfold descriptionKey, prioritizationKey in Heq;
      rewrite !length_append, !Hlen in Heq; simpl in Heq; lia.
Qed.

(** X16.  A category prediction never changes what a lookup of a title
    suggestions key finds in the short-term store, at any time, and a
    call for title suggestions never changes what a lookup of a
    prediction key finds. *)
Theorem predictions_and_suggestions_apart (w : world) (t : Z) :
  (forall userId supplied taskTitle u prefix,
      (CacheManager.get (suggestionsKey u prefix) t
         (shortTermCache
            (predictNextCategory userId supplied taskTitle w).2)).1
      = (CacheManager.get (suggestionsKey u prefix) t
                          (shortTermCache w)).1)
  /\ (forall prefix userId u tasks taskTitle,
      (CacheManager.get (predictionKey u tasks taskTitle) t
         (shortTermCache (generateTitleSuggestions prefix userId w).2)).1
      = (CacheManager.get (predictionKey u tasks taskTitle) t
                          (shortTermCache w)).1).
Proof.
  split.
  - intros userId supplied taskTitle u prefix.
    destruct (history userId supplied) as [tasks|e] eqn:Hh.
    + eapply get_same_elsewhere;
        [exact (prediction_short_only _ _ taskTitle _ Hh w)|].
      intros H. symmetry in H.
      exact (prediction_key_not_suggestions _ _ _ _ _ H).
    + now rewrite (prediction_short_untouched _ _ taskTitle _ Hh w).
  - intros prefix userId u tasks taskTitle.
    eapply get_same_elsewhere; [apply suggestions_short_only|].
    apply prediction_key_not_suggestions.
Qed.

(** X17.  The footprint of the features on the short-term store: a
    prediction changes it under no other key than the prediction key of
    the call, a call for title suggestions under no other key than its
    suggestions key, and the description, the prioritization and the
    report leave it as it is. *)
Theorem short_store_footprint (w : world) :
  (forall userId supplied taskTitle tasks,
      history userId supplied = Returned tasks ->
      same_elsewhere (predictionKey userId tasks taskTitle)
        (shortTermCache w)
        (shortTermCache (predictNextCategory userId supplied taskTitle w).2))
  /\ (forall prefix userId,
      same_elsewhere (suggestionsKey userId (default EmptyString prefix))
        (shortTermCache w)
        (shortTermCache (generateTitleSuggestions prefix userId w).2))
  /\ (forall title summary userId,
      shortTermCache (generateTaskDescription title summary userId w).2
      = shortTermCache w)
  /\ (forall userId userTasks,
      shortTermCache (generateTaskPrioritization userId userTasks w).2
      = shortTermCache w)
  /\ (forall tasks,
      shortTermCache (generateCriticalTasksReport tasks w).2
      = shortTermCache w).
Proof.
  split; [|split; [|split; [|split]]].
  - intros userId supplied taskTitle tasks Hh.
    exact (prediction_short_only _ _ _ _ Hh w).
  - intros prefix userId. exact (suggestions_short_only prefix userId w).
  - intros. apply description_short_untouched.
  - intros. apply prioritization_short_untouched.
  - intros. apply report_short_untouched.
Qed.

(** X18.  A call of a feature function posts one request at most,
    whatever its arguments and whatever the database, the endpoint, the
    fallbacks and [JSON.parse] do: a failed request is not repeated. *)
Theorem features_post_one_request_at_most (w : world) :
  (forall userId supplied taskTitle,
      (requests w
       <= requests (predictNextCategory userId supplied taskTitle w).2
       <= S (requests w))%nat)
  /\ (forall title summary userId,
      (requests w
       <= requests (generateTaskDescription title summary userId w).2
       <= S (requests w))%nat)
  /\ (forall prefix userId,
      (requests w
       <= requests (generateTitleSuggestions prefix userId w).2
       <= S (requests w))%nat)
  /\ (forall userId userTasks,
      (requests w
       <= requests (generateTaskPrioritization userId userTasks w).2
       <= S (requests w))%nat)
  /\ (forall tasks,
      (requests w
       <= requests (generateCriticalTasksReport tasks w).2
       <= S (requests w))%nat).
Proof.
  split; [|split; [|split; [|split]]]; intros.
  - apply prediction_one_request.
  - apply description_one_request.
  - apply suggestions_one_request.
  - apply prioritization_one_request.
  - apply report_one_request.
Qed.

End Keys.

Section TieBreak.

Context {P : Platform}.

Local Open Scope list_scope.

(** The members of an object none of whose names is an array index are
    enumerated in order of creation. *)
Lemma entries_plain {V} (o : list (string * V)) :
  (forall kv, In kv o -> array_index kv.1 = None) -> entries o = o.
Proof.
  intros H. unfold entries.
  assert (Hi : List.filter is_index_key o = []).
  { induction o as [|kv r IH]; simpl; [reflexivity|].
    unfold is_index_key at 1. rewrite (H kv) by now left.
    apply IH. intros kv' Hkv'. apply H. now right. }
  assert (Hn : List.filter (fun kv => negb (is_index_key kv)) o = o).
  { induction o as [|kv r IH]; simpl; [reflexivity|].
    unfold is_index_key at 1. rewrite (H kv) by now left. simpl.
    f_equal. apply IH.
    - intros kv' Hkv'. apply H. now right.
    - simpl in Hi. unfold is_index_key at 1 in Hi.
      rewrite (H kv) in Hi by now left. exact Hi. }
  rewrite Hi, Hn. reflexivity.
Qed.

(** The sort is stable: an element that no earlier element may stand
    before, and that may stand before every later one, comes first. *)
Lemma sort_by_first_best {A} (cmp : A -> A -> Z) l1 x l2 :
  (forall y, In y l1 -> 0 < cmp y x) ->
  (forall y, In y l2 -> cmp x y <= 0) ->
  exists r, sort_by cmp (l1 ++ x :: l2) = x :: r.
Proof.
  intros H1 H2.
  assert (Hx : exists r, sort_by cmp (x :: l2) = x :: r).
  { simpl. destruct (sort_by cmp l2) as [|y r] eqn:Hs; simpl; [eauto|].
    assert (Hy : In y l2).
    { eapply Permutation_in; [apply (sort_by_perm cmp)|].
      rewrite Hs. now left. }
    destruct (Z.leb_spec (cmp x y) 0) as [_|Hgt]; [eauto|].
    specialize (H2 y Hy). lia. }
  induction l1 as [|y l1 IH]; [exact Hx|].
  destruct IH as [r Hr]; [intros z Hz; apply H1; now right|].
  simpl. change (foldr (insert_by cmp) [] (l1 ++ x :: l2))
    with (sort_by cmp (l1 ++ x :: l2)).
  rewrite Hr. simpl.
  destruct (Z.leb_spec (cmp y x) 0) as [Hle|_]; [|eauto].
  specialize (H1 y (or_introl eq_refl)). lia.
Qed.

Lemma count_fresh c o : ~ In c (keys o) -> count_one c o = o ++ [(c, 1)].
Proof.
  induction o as [|[k n] r IH]; simpl; intros Hnot; [reflexivity|].
  destruct (String.eqb_spec k c) as [->|Hne].
  - exfalso. apply Hnot. now left.
  - f_equal. apply IH. intros Hin. apply Hnot. now right.
Qed.

Lemma count_known k o rest :
  In k (keys o) ->
  count_one k (o ++ rest) = count_one k o ++ rest /\ keys (count_one k o) = keys o.
Proof.
  induction o as [|[k' n] r IH]; simpl; intros Hin; [contradiction|].
  destruct (String.eqb_spec k' k) as [->|Hne]; simpl; [now split|].
  destruct Hin as [?|Hin]; [contradiction|].
  destruct (IH Hin) as [-> Hk]. split; [reflexivity|].
  unfold keys in *. now rewrite Hk.
Qed.

Lemma count_unknown k o rest :
  ~ In k (keys o) -> count_one k (o ++ rest) = o ++ count_one k rest.
Proof.
  induction o as [|[k' n] r IH]; simpl; intros Hnot; [reflexivity|].
  destruct (String.eqb_spec k' k) as [->|Hne].
  - exfalso. apply Hnot. now left.
  - f_equal. apply IH. intros Hin. apply Hnot. now right.
Qed.

(** Counting never reorders the members of the counter. *)
Lemma count_all_keeps_place l o1 c n o2 :
  ~ In c (keys o1) ->
  exists o1' n' o2',
    count_all (o1 ++ (c, n) :: o2) l = o1' ++ (c, n') :: o2'
    /\ keys o1' = keys o1.
Proof.
  revert o1 n o2. induction l as [|k l IH]; intros o1 n o2 Hc.
  - exists o1, n, o2. split; reflexivity.
  - change (count_all (o1 ++ (c, n) :: o2) (k :: l))
      with (count_all (count_one k (o1 ++ (c, n) :: o2)) l).
    destruct (in_dec string_dec k (keys o1)) as [Hk|Hk].
    + destruct (count_known k o1 ((c, n) :: o2) Hk) as [-> Hkeys].
      destruct (IH (count_one k o1) n o2) as (o1' & n' & o2' & -> & Hk');
        [now rewrite Hkeys|].
      exists o1', n', o2'. split; [reflexivity | congruence].
    + rewrite (count_unknown k o1 _ Hk). simpl.
      destruct (String.eqb_spec c k) as [->|Hne];
        now apply IH.
Qed.

Lemma count_all_app o l1 l2 :
  count_all o (l1 ++ l2) = count_all (count_all o l1) l2.
Proof. unfold count_all. apply foldl_app. Qed.

(** The counter of the categories lists a category first met after
    [earlier] behind categories of [earlier] only. *)
Lemma frequency_place earlier c later :
  ~ In c earlier ->
  exists o1 n o2,
    count_all [] (earlier ++ c :: later) = o1 ++ (c, n) :: o2
    /\ forall k, In k (keys o1) -> In k earlier.
Proof.
  intros Hc. rewrite count_all_app.
  change (count_all (count_all [] earlier) (c :: later))
    with (count_all (count_one c (count_all [] earlier)) later).
  assert (Hsub : forall k, In k (keys (count_all [] earlier)) ->
                           In k earlier).
  { intros k Hk. apply keys_count_all in Hk as [[]|Hk]. exact Hk. }
  rewrite count_fresh by (intros H; apply Hc, Hsub, H).
  destruct (count_all_keeps_place later (count_all [] earlier) c 1 [])
    as (o1 & n & o2 & -> & Hkeys); [intros H; apply Hc, Hsub, H|].
  exists o1, n, o2. split; [reflexivity|].
  intros k Hk. apply Hsub. now rewrite <- Hkeys.
Qed.

(** X19.  When no category recurs recently, so that the recency rule
    does not apply, and no category names an array index or a member of
    [Object.prototype], the statistical prediction is, of the most used
    categories, the one met first in the list of tasks as it was
    passed: a category that is used more often than every category met
    before it, and as often at least as every category met after it. *)
Theorem statistical_tie_break (cacheKey : string) (tasks : list task)
    (w : world) (c : string) (earlier later : list string) :
  (forall c', ~ recurs_recently tasks c') ->
  omap filed tasks = earlier ++ c :: later ->
  (forall c', In c' (earlier ++ c :: later) ->
              array_index c' = None /\ inherited c' = None) ->
  (forall c', In c' earlier -> usage tasks c' < usage tasks c) ->
  (forall c', In c' later -> usage tasks c' <= usage tasks c) ->
  (statisticalPrediction cacheKey tasks w).1 = Returned (VStr c).
Proof.
  intros Hnone Hsplit Hnames Hearlier Hlater.
  rewrite omap_filed in Hsplit.
  assert (Hrule : recent_rule (recentCategories tasks) = None).
  { destruct (recent_rule (recentCategories tasks)) as [c'|] eqn:Hr;
      [|reflexivity].
    exfalso. apply (Hnone c'). now apply recurs_recently_rule. }
  assert (Hin : In c (omap category_of tasks)).
  { rewrite Hsplit. apply in_or_app. right. now left. }
  assert (Hplain : plain_names (omap category_of tasks)).
  { intros c' Hc'. rewrite Hsplit in Hc'. now apply Hnames. }
  assert (Hc : ~ In c earlier).
  { intros H. specialize (Hearlier c H). lia. }
  assert (Hnd : NoDup (map fst (counted tasks))).
  { apply keys_count_all_NoDup. constructor. }
  assert (Hcount : forall k n, In (k, n) (counted tasks) ->
                               n = usage tasks k
                               /\ In k (earlier ++ c :: later)).
  { intros k n Hkn. split.
    - rewrite <- stored_counted. symmetry. now apply stored_In.
    - rewrite <- Hsplit.
      assert (Hk : In k (map fst (counted tasks))).
      { change k with (fst (k, n)). now apply in_map. }
      unfold counted in Hk. rewrite keys_count_all in Hk.
      destruct Hk as [[]|Hk]. exact Hk. }
  destruct (frequency_place earlier c later Hc)
    as (o1 & n & o2 & Hfreq & Ho1).
  rewrite <- Hsplit in Hfreq. fold (counted tasks) in Hfreq.
  assert (Hentries : entries (counted tasks) = counted tasks).
  { apply entries_plain. intros [k m] Hkm. simpl.
    apply Hnames. now apply (Hcount k m). }
  assert (Hhead : exists r,
             sort_by larger_first (entries (counted tasks)) = (c, n) :: r).
  { rewrite Hentries, Hfreq.
    assert (Hn : n = usage tasks c).
    { apply (Hcount c n). rewrite Hfreq. apply in_or_app. right. now left. }
    apply sort_by_first_best.
    - intros [k m] Hkm. unfold larger_first. simpl.
      assert (Hm : m = usage tasks k).
      { apply (Hcount k m). rewrite Hfreq. apply in_or_app. now left. }
      assert (Hk : In k earlier).
      { apply Ho1. change k with (fst (k, m)). now apply in_map. }
      specialize (Hearlier k Hk). lia.
    - intros [k m] Hkm. unfold larger_first. simpl.
      assert (Hkm' : In (k, m) (counted tasks)).
      { rewrite Hfreq. apply in_or_app. right. now right. }
      destruct (Hcount k m Hkm') as [Hm Hk].
      assert (Hle : usage tasks k <= usage tasks c).
      { apply in_app_or in Hk as [Hk|[<-|Hk]].
        - specialize (Hearlier k Hk). lia.
        - lia.
        - now apply Hlater. }
      lia. }
  destruct Hhead as [r Hr].
  unfold statisticalPrediction.
  rewrite (frequency_has_entries _ _ Hin)
    by (apply inherited_proto, Hplain, Hin).
  rewrite Hrule, (categoryFrequency_plain _ Hplain).
  rewrite sortedCategories_numbers, Hr. reflexivity.
Qed.

End TieBreak.

Section LocalPrediction.

Context {P : Platform}.

(** X20.  For a history of fewer than five tasks, and for a title that
    is missing or empty, [predictNextCategory] does not consult the
    remote model: no request is posted and the medium-term store is left
    as it is. *)
Theorem short_history_predicts_locally (userId : string)
    (supplied : option (list task)) (taskTitle : option string)
    (tasks : list task) (w : world) :
  history userId supplied = Returned tasks ->
  (length tasks < 5)%nat \/ default EmptyString taskTitle = EmptyString ->
  requests (predictNextCategory userId supplied taskTitle w).2 = requests w
  /\ mediumTermCache (predictNextCategory userId supplied taskTitle w).2
     = mediumTermCache w.
Proof.
  intros Hh Hcond.
  assert (Hcase : tasks = [] \/ tasks <> [])
    by (destruct tasks; [left | right]; congruence).
  destruct Hcase as [->|Hne].
  { rewrite predict_empty by exact Hh. split; reflexivity. }
  destruct (truthy (CacheManager.get
                      (predictionKey userId tasks taskTitle)
                      (now w) (shortTermCache w)).1) eqn:Hc.
  { rewrite (predict_hit _ _ _ _ _ Hh Hne)
      by (unfold short_miss; congruence).
    split; reflexivity. }
  rewrite (predict_miss _ _ _ _ _ Hh Hne Hc).
  unfold after_miss, computePrediction.
  set (key := predictionKey userId tasks taskTitle).
  set (w0 := looked_short key w).
  assert (Hskip :
    match taskTitle with
    | Some t =>
        if negb (Str.is_empty t) && (5 <=? length tasks)%nat
        then try_catch (contextualPrediction key t tasks)
                       (fun _ => ret None)
        else ret None
    | None => ret None
    end = ret None).
  { destruct taskTitle as [t|]; [|reflexivity].
    destruct Hcond as [Hlen|Ht].
    - replace (5 <=? length tasks)%nat with false
        by (symmetry; apply Nat.leb_gt; lia).
      now rewrite andb_false_r.
    - simpl in Ht. subst t. reflexivity. }
  rewrite Hskip. unfold statisticalPrediction. run_M.
  destruct (length (entries (categoryFrequency tasks)) =? 0)%nat;
    [split; reflexivity|].
  destruct (recent_rule (recentCategories tasks));
    [split; reflexivity|].
  destruct (sort_by most_used_first (entries (categoryFrequency tasks)))
    as [|[c n] r]; split; reflexivity.
Qed.

End LocalPrediction.

Section TimeToLive.

Context {P : Platform}.

Lemma held_until key v e c t :
  holds key v e c ->
  (t <= e -> CacheManager.get key t c = (v, c))
  /\ (e < t -> (CacheManager.get key t c).1 = VNull).
Proof.
  intros Hh. split; intros Ht.
  - now apply get_holds with e.
  - unfold holds in Hh. now rewrite (get_expired _ _ _ _ Hh Ht).
Qed.

Lemma suggestions_body_stores prefix userId w r w1 :
  short_prefix (Some prefix) = false ->
  short_miss (suggestionsKey userId prefix) w ->
  generateTitleSuggestions_body (Some prefix) userId w = (Returned r, w1) ->
  truthy r = true
  /\ holds (suggestionsKey userId prefix) r (now w1 + 300000)
           (shortTermCache w1).
Proof.
  unfold generateTitleSuggestions_body, short_miss.
  intros Hp Hmiss. rewrite Hp. run_M.
  destruct (CacheManager.get _ (now w) (shortTermCache w)) as [v c].
  simpl in Hmiss. rewrite Hmiss.
  apply computeSuggestions_stores.
Qed.

Lemma description_body_stores title summary userId w r w1 :
  no_summary (Some summary) = false ->
  medium_miss (descriptionKey title summary) w ->
  generateTaskDescription_body title (Some summary) userId w
  = (Returned r, w1) ->
  holds (descriptionKey title summary) r (now w1 + 3600000)
        (mediumTermCache w1).
Proof.
  unfold generateTaskDescription_body, medium_miss.
  intros Hs Hmiss. rewrite Hs. run_M.
  destruct (CacheManager.get _ (now w) (mediumTermCache w)) as [v c].
  simpl in Hmiss. rewrite Hmiss.
  apply computeDescription_stores.
Qed.

Lemma prioritization_body_stores userId tasks w r w1 :
  List.filter is_active tasks <> [] ->
  medium_miss (prioritizationKey userId (List.filter is_active tasks)) w ->
  generateTaskPrioritization_body userId (Some tasks) w = (Returned r, w1) ->
  truthy r = true
  /\ holds (prioritizationKey userId (List.filter is_active tasks)) r
           (now w1 + 1800000) (mediumTermCache w1).
Proof.
  unfold generateTaskPrioritization_body, medium_miss.
  intros Hne Hmiss.
  destruct tasks as [|t0 rest]; [now contradiction Hne|].
  set (activeTasks := List.filter is_active (t0 :: rest)) in *.
  assert (Hlen : (length activeTasks =? 0)%nat = false).
  { destruct activeTasks; [congruence | reflexivity]. }
  cbv zeta. fold activeTasks. rewrite Hlen. run_M.
  destruct (CacheManager.get _ (now w) (mediumTermCache w)) as [v c].
  simpl in Hmiss. rewrite Hmiss.
  apply computePrioritization_stores.
Qed.

Lemma prediction_body_stores userId supplied taskTitle tasks w r w1 :
  history userId supplied = Returned tasks ->
  short_miss (predictionKey userId tasks taskTitle) w ->
  predictNextCategory_body userId supplied taskTitle w = (Returned r, w1) ->
  truthy r = true ->
  tasks <> []
  /\ holds (predictionKey userId tasks taskTitle) r (now w1 + 300000)
           (shortTermCache w1).
Proof.
  unfold history, predictNextCategory_body, short_miss.
  intros Hh Hmiss Hbody Hr.
  assert (Hrun : (if (length tasks =? 0)%nat then ret VNull
                  else
                    let* cachedPrediction :=
                      shortGet (predictionKey userId tasks taskTitle) in
                    if truthy cachedPrediction then ret cachedPrediction
                    else computePrediction
                           (predictionKey userId tasks taskTitle)
                           tasks taskTitle) w
                 = (Returned r, w1)).
  { destruct supplied as [l|]; revert Hbody; run_M.
    - injection Hh as ->. exact (fun H => H).
    - rewrite Hh. exact (fun H => H). }
  clear Hbody. revert Hrun.
  destruct tasks as [|t0 rest].
  { simpl. unfold ret. intros [= <- _]. discriminate. }
  split; [discriminate|]. revert Hrun.
  change (length (t0 :: rest) =? 0)%nat with false. run_M.
  destruct (CacheManager.get _ (now w) (shortTermCache w)) as [v c].
  simpl in Hmiss. rewrite Hmiss. intros Hc.
  apply computePrediction_stores in Hc as [->|[_ Hh']];
    [discriminate | exact Hh'].
Qed.

(** X21.  How long a computed result is served.  A result that the body
    of a feature function computes on a miss - a truthy one, that is,
    for the category a result that is not null and for the description
    a text that is not empty, the lists of titles and the
    prioritizations being truthy always - is returned again, the process
    being left as it is, by every call with the same arguments made up
    to 5 minutes later for the category and for the titles, 60 minutes
    for the description, 30 minutes for the prioritization; a call made
    later than that finds nothing under the key. *)
Theorem computed_results_expire (w w1 : world) (r : jsval) (d : Z) :
  (forall userId supplied taskTitle tasks,
      history userId supplied = Returned tasks ->
      short_miss (predictionKey userId tasks taskTitle) w ->
      predictNextCategory_body userId supplied taskTitle w
      = (Returned r, w1) ->
      truthy r = true ->
      (0 <= d <= 300000 ->
       predictNextCategory userId supplied taskTitle (elapse d w1)
       = (Returned r, elapse d w1))
      /\ (300000 < d ->
          short_miss (predictionKey userId tasks taskTitle) (elapse d w1)))
  /\ (forall prefix userId,
      short_prefix (Some prefix) = false ->
      short_miss (suggestionsKey userId prefix) w ->
      generateTitleSuggestions_body (Some prefix) userId w
      = (Returned r, w1) ->
      (0 <= d <= 300000 ->
       generateTitleSuggestions (Some prefix) userId (elapse d w1)
       = (Returned r, elapse d w1))
      /\ (300000 < d ->
          short_miss (suggestionsKey userId prefix) (elapse d w1)))
  /\ (forall title summary userId,
      no_summary (Some summary) = false ->
      medium_miss (descriptionKey title summary) w ->
      generateTaskDescription_body title (Some summary) userId w
      = (Returned r, w1) ->
      truthy r = true ->
      (0 <= d <= 3600000 ->
       generateTaskDescription title (Some summary) userId (elapse d w1)
       = (Returned r, elapse d w1))
      /\ (3600000 < d ->
          medium_miss (descriptionKey title summary) (elapse d w1)))
  /\ (forall userId tasks,
      List.filter is_active tasks <> [] ->
      medium_miss (prioritizationKey userId (List.filter is_active tasks))
                  w ->
      generateTaskPrioritization_body userId (Some tasks) w
      = (Returned r, w1) ->
      (0 <= d <= 1800000 ->
       generateTaskPrioritization userId (Some tasks) (elapse d w1)
       = (Returned r, elapse d w1))
      /\ (1800000 < d ->
          medium_miss
            (prioritizationKey userId (List.filter is_active tasks))
            (elapse d w1))).
Proof.
  split; [|split; [|split]].
  - intros userId supplied taskTitle tasks Hh Hmiss Hbody Hr.
    destruct (prediction_body_stores _ _ _ _ _ _ _ Hh Hmiss Hbody Hr)
      as [Hne Hheld].
    split; intros Hd.
    + apply predict_served with tasks (now w1 + 300000);
        try assumption. simpl. lia.
    + unfold short_miss. simpl.
      rewrite (proj2 (held_until _ _ _ _ (now w1 + d) Hheld)) by lia.
      reflexivity.
  - intros prefix userId Hp Hmiss Hbody.
    destruct (suggestions_body_stores _ _ _ _ _ Hp Hmiss Hbody)
      as [Hr Hheld].
    split; intros Hd.
    + apply titles_served with (now w1 + 300000); try assumption.
      simpl. lia.
    + unfold short_miss. simpl.
      rewrite (proj2 (held_until _ _ _ _ (now w1 + d) Hheld)) by lia.
      reflexivity.
  - intros title summary userId Hs Hmiss Hbody Hr.
    pose proof (description_body_stores _ _ _ _ _ _ Hs Hmiss Hbody)
      as Hheld.
    split; intros Hd.
    + apply description_served with (now w1 + 3600000); try assumption.
      simpl. lia.
    + unfold medium_miss. simpl.
      rewrite (proj2 (held_until _ _ _ _ (now w1 + d) Hheld)) by lia.
      reflexivity.
  - intros userId tasks Hne Hmiss Hbody.
    destruct (prioritization_body_stores _ _ _ _ _ Hne Hmiss Hbody)
      as [Hr Hheld].
    split; intros Hd.
    + apply prioritize_served with (now w1 + 1800000); try assumption.
      simpl. lia.
    + unfold medium_miss. simpl.
      rewrite (proj2 (held_until _ _ _ _ (now w1 + d) Hheld)) by lia.
      reflexivity.
Qed.

End TimeToLive.

(** ** Properties of the handlers *)

Section RouteProperties.

Context {P : Platform}.

Lemma predictNextCategory_returns userId supplied taskTitle w :
  exists v w',
    predictNextCategory userId supplied taskTitle w = (Returned v, w').
Proof. apply try_catch_returns. Qed.

Lemma generateTitleSuggestions_returns prefix userId w :
  exists v w', generateTitleSuggestions prefix userId w = (Returned v, w').
Proof.
  exact (try_catch_returns
           (generateTitleSuggestions_body prefix userId)
           (fun _ => VArr (static_suggestions (default "undefined" prefix)))
           w).
Qed.

Lemma generateTaskDescription_returns title summary userId w :
  exists v w',
    generateTaskDescription title summary userId w = (Returned v, w').
Proof.
  exact (try_catch_returns
           (generateTaskDescription_body title summary userId)
           (fun _ => match summary with
                     | Some s => VStr s
                     | None => VNull
                     end) w).
Qed.

(** X22.  The handlers of the title, category and description routes
    never answer 500 on account of the endpoint, of the database, of
    [JSON.parse] or of a fallback.  The title route answers 400 without
    touching anything for a prefix that is missing or shorter than
    three characters, and 200 with the suggestions otherwise; the
    category route answers 200 with the prediction; the description
    route answers 200 or 400. *)
Theorem ai_routes_status (w : world) :
  (forall prefix userId,
      (short_prefix prefix = true ->
       suggestTitle prefix userId w
       = (Returned (refused "Prefix must be at least 3 characters long"),
          w))
      /\ (short_prefix prefix = false ->
          exists suggestions w',
            generateTitleSuggestions prefix userId w
            = (Returned suggestions, w')
            /\ suggestTitle prefix userId w
               = (Returned (ok (VObj [("suggestions", suggestions)])), w')))
  /\ (forall taskTitle userId,
      exists predictedCategory w',
        predictNextCategory userId None taskTitle w
        = (Returned predictedCategory, w')
        /\ predictCategory taskTitle userId w
           = (Returned (ok (VObj [("predictedCategory",
                                   predictedCategory)])), w'))
  /\ (forall errors title summary userId,
      exists r w',
        generateDescription errors title summary userId w = (Returned r, w')
        /\ (statusCode r = 200 \/ statusCode r = 400)).
Proof.
  split; [|split].
  - intros prefix userId. split; intros Hp.
    + unfold suggestTitle. rewrite Hp. reflexivity.
    + destruct (generateTitleSuggestions_returns prefix userId w)
        as (v & w' & Hv).
      exists v, w'. split; [exact Hv|].
      unfold suggestTitle. rewrite Hp. run_M. rewrite Hv. reflexivity.
  - intros taskTitle userId.
    destruct (predictNextCategory_returns userId None taskTitle w)
      as (v & w' & Hv).
    exists v, w'. split; [exact Hv|].
    unfold predictCategory. run_M. rewrite Hv. reflexivity.
  - intros errors title summary userId.
    unfold generateDescription. destruct errors as [|e0 rest].
    + destruct (generateTaskDescription_returns title (Some summary)
                  (Some userId) w) as (v & w' & Hv).
      run_M. rewrite Hv. destruct (truthy v);
        eexists _, _; (split; [reflexivity|]); simpl; auto.
    + eexists _, _. split; [reflexivity|]. simpl. auto.
Qed.

(** X23.  Once the validators have passed the request, the description
    route answers 400 exactly when the summary is blank or the
    description that comes back is the empty string; otherwise it
    answers 200 with the description. *)
Theorem description_route_refuses (title summary userId : string)
    (w : world) :
  exists description r w',
    generateTaskDescription title (Some summary) (Some userId) w
    = (Returned description, w')
    /\ generateDescription [] title summary userId w = (Returned r, w')
    /\ (statusCode r = 400 <->
        no_summary (Some summary) = true
        \/ description = VStr EmptyString)
    /\ (statusCode r <> 400 ->
        r = ok (VObj [("description", description)])).
Proof.
  destruct (no_summary (Some summary)) eqn:Hs.
  - exists VNull, (refused "Failed to generate description. Please try again or provide more details in your summary."), w.
    assert (Hd : generateTaskDescription title (Some summary)
                   (Some userId) w = (Returned VNull, w)).
    { unfold generateTaskDescription, generateTaskDescription_body.
      rewrite Hs. reflexivity. }
    split; [exact Hd|]. split.
    { unfold generateDescription. run_M. rewrite Hd. reflexivity. }
    split; [|intros H; now contradiction H].
    split; [now left | reflexivity].
  - destruct (description_never_null title summary (Some userId) w Hs)
      as (d & w' & Hd & Hnull & Hundef & Hstr).
    exists d.
    destruct (truthy d) eqn:Ht.
    + exists (ok (VObj [("description", d)])), w'.
      split; [exact Hd|]. split.
      { unfold generateDescription. run_M. rewrite Hd, Ht. reflexivity. }
      split; [|reflexivity].
      split; [discriminate|].
      intros [?| ->]; discriminate.
    + exists (refused "Failed to generate description. Please try again or provide more details in your summary."), w'.
      split; [exact Hd|]. split.
      { unfold generateDescription. run_M. rewrite Hd, Ht. reflexivity. }
      split; [|intros H; now contradiction H].
      split; [|reflexivity]. intros _. right.
      assert (Hmiss : medium_miss (descriptionKey title summary) w).
      { unfold medium_miss.
        destruct (truthy (CacheManager.get (descriptionKey title summary)
                                           (now w) (mediumTermCache w)).1)
          eqn:Hc; [|reflexivity].
        rewrite (description_hit _ _ _ _ Hs) in Hd
          by (unfold medium_miss; congruence).
        injection Hd as <- _. congruence. }
      specialize (Hstr Hmiss).
      destruct d as [| | | |s| |]; try discriminate.
      destruct s; [reflexivity | discriminate].
Qed.

End RouteProperties.

(** ** The medium-term store *)

Section MediumFootprint.

Context {P : Platform}.

Lemma same_outside_refl K c : same_outside K c c.
Proof. split; [reflexivity | intros; reflexivity]. Qed.

Lemma same_outside_trans K c1 c2 c3 :
  same_outside K c1 c2 -> same_outside K c2 c3 -> same_outside K c1 c3.
Proof.
  intros [Ht1 H1] [Ht2 H2]. split; [congruence|].
  intros k Hk. rewrite H2, H1 by exact Hk. reflexivity.
Qed.

Lemma same_elsewhere_outside (K : string -> Prop) key c c' :
  K key -> same_elsewhere key c c' -> same_outside K c c'.
Proof.
  intros HK [Ht H]. split; [exact Ht|].
  intros k Hk. apply H. intros ->. contradiction.
Qed.

Lemma get_same_outside K k t c c' :
  same_outside K c c' -> ~ K k ->
  (CacheManager.get k t c').1 = (CacheManager.get k t c).1.
Proof.
  intros [_ H] Hk. unfold CacheManager.get. rewrite (H k Hk).
  destruct (CacheManager.cache c !! k) as [e|]; [|reflexivity].
  destruct (t >? CacheManager.expiry e); reflexivity.
Qed.

Lemma medium_only_refl K w : medium_only K w w.
Proof. apply same_outside_refl. Qed.

Lemma medium_only_trans K w1 w2 w3 :
  medium_only K w1 w2 -> medium_only K w2 w3 -> medium_only K w1 w3.
Proof. apply same_outside_trans. Qed.

Lemma medium_untouched_only K w w' :
  medium_untouched w w' -> medium_only K w w'.
Proof.
  unfold medium_untouched, medium_only. intros ->. apply same_outside_refl.
Qed.

Lemma shortGet_medium_only K key : keeps (medium_only K) (shortGet key).
Proof.
  intros w. apply medium_untouched_only. unfold shortGet, medium_untouched.
  destruct (CacheManager.get key (now w) (shortTermCache w)). reflexivity.
Qed.

Lemma shortSet_medium_only K key v ttl :
  keeps (medium_only K) (shortSet key v ttl).
Proof. intros w. apply medium_untouched_only. reflexivity. Qed.

Lemma mediumGet_medium_only (K : string -> Prop) key :
  K key -> keeps (medium_only K) (mediumGet key).
Proof.
  intros HK w. unfold mediumGet, medium_only.
  pose proof (same_elsewhere_get key (now w) (mediumTermCache w)) as H.
  destruct (CacheManager.get key (now w) (mediumTermCache w)).
  now apply same_elsewhere_outside with key.
Qed.

Lemma mediumSet_medium_only (K : string -> Prop) key v ttl :
  K key -> keeps (medium_only K) (mediumSet key v ttl).
Proof.
  intros HK w. apply same_elsewhere_outside with key; [exact HK|].
  apply same_elsewhere_set.
Qed.

Lemma callGeminiAPI_medium_only (K : string -> Prop) prompt useCache
    cacheTtl fallbackFn :
  K (generateHash prompt) ->
  keeps (medium_only K) (callGeminiAPI prompt useCache cacheTtl fallbackFn).
Proof.
  intros HK w. apply same_elsewhere_outside with (generateHash prompt);
    [exact HK|].
  apply callGeminiAPI_footprint.
Qed.

Lemma digest_is_digest prompt : is_digest (generateHash prompt).
Proof. now exists prompt. Qed.

Lemma own_is_own key : own_or_digest key key.
Proof. now left. Qed.

Lemma digest_is_own_or_digest key prompt :
  own_or_digest key (generateHash prompt).
Proof. right. apply digest_is_digest. Qed.

End MediumFootprint.

Ltac medium_only_atoms :=
  first [ apply shortGet_medium_only
        | apply shortSet_medium_only
        | apply mediumGet_medium_only; apply own_is_own
        | apply mediumSet_medium_only; apply own_is_own
        | apply callGeminiAPI_medium_only;
          first [apply digest_is_digest | apply digest_is_own_or_digest] ].

Ltac walk_medium K :=
  walk_with (medium_only_refl K) (medium_only_trans K) medium_only_atoms.

Section MediumFootprints.

Context {P : Platform}.

Lemma prediction_medium_only userId supplied taskTitle :
  keeps (medium_only is_digest)
        (predictNextCategory userId supplied taskTitle).
Proof.
  unfold predictNextCategory, predictNextCategory_body, computePrediction,
    contextualPrediction, statisticalPrediction.
  walk_medium (is_digest (P := P)).
Qed.

Lemma suggestions_medium_only prefix userId :
  keeps (medium_only is_digest) (generateTitleSuggestions prefix userId).
Proof.
  unfold generateTitleSuggestions, generateTitleSuggestions_body,
    computeSuggestions.
  walk_medium (is_digest (P := P)).
Qed.

Lemma report_medium_only tasks :
  keeps (medium_only is_digest) (generateCriticalTasksReport tasks).
Proof.
  unfold generateCriticalTasksReport, generateCriticalTasksReport_body.
  walk_medium (is_digest (P := P)).
Qed.

Lemma description_medium_only title summary userId :
  keeps (medium_only
           (own_or_digest
              (descriptionKey title (default EmptyString summary))))
        (generateTaskDescription title summary userId).
Proof.
  unfold generateTaskDescription, generateTaskDescription_body,
    computeDescription, userContext.
  destruct summary as [summary|]; simpl default.
  - walk_medium (own_or_digest (descriptionKey title summary)).
  - walk_medium (own_or_digest (descriptionKey title EmptyString)).
Qed.

Lemma prioritization_medium_only userId userTasks :
  keeps (medium_only
           (own_or_digest
              (prioritizationKey userId
                 (List.filter is_active (default [] userTasks)))))
        (generateTaskPrioritization userId userTasks).
Proof.
  unfold generateTaskPrioritization, generateTaskPrioritization_body,
    computePrioritization, parsedResponse.
  destruct userTasks as [[|t0 rest]|]; simpl default.
  - walk_medium (own_or_digest (prioritizationKey userId [])).
  - cbv zeta.
    walk_medium (own_or_digest
                   (prioritizationKey userId
                      (List.filter is_active (t0 :: rest)))).
  - walk_medium (own_or_digest (prioritizationKey userId [])).
Qed.

(** X24.  The footprint of the features on the medium-term store: the
    category prediction, the title suggestions and the report change it
    under no other key than digests of prompts, which are the keys of
    the wrapper; the description besides under its description key, and
    the prioritization besides under its prioritization key. *)
Theorem medium_store_footprint (w : world) :
  (forall userId supplied taskTitle,
      same_outside is_digest (mediumTermCache w)
        (mediumTermCache (predictNextCategory userId supplied taskTitle w).2))
  /\ (forall prefix userId,
      same_outside is_digest (mediumTermCache w)
        (mediumTermCache (generateTitleSuggestions prefix userId w).2))
  /\ (forall tasks,
      same_outside is_digest (mediumTermCache w)
        (mediumTermCache (generateCriticalTasksReport tasks w).2))
  /\ (forall title summary userId,
      same_outside
        (own_or_digest (descriptionKey title (default EmptyString summary)))
        (mediumTermCache w)
        (mediumTermCache (generateTaskDescription title summary userId w).2))
  /\ (forall userId userTasks,
      same_outside
        (own_or_digest
           (prioritizationKey userId
              (List.filter is_active (default [] userTasks))))
        (mediumTermCache w)
        (mediumTermCache
           (generateTaskPrioritization userId userTasks w).2)).
Proof.
  split; [|split; [|split; [|split]]]; intros.
  - apply prediction_medium_only.
  - apply suggestions_medium_only.
  - apply report_medium_only.
  - apply description_medium_only.
  - apply prioritization_medium_only.
Qed.

Lemma description_key_no_digest title summary :
  (forall s, String.length (generateHash s) = 32%nat) ->
  ~ is_digest (descriptionKey title summary).
Proof.
  intros Hlen [prompt Heq]. apply (f_equal String.length) in Heq.
  unfold descriptionKey in Heq.
  rewrite !length_append, !Hlen in Heq. simpl in Heq. lia.
Qed.

Lemma prioritization_key_no_digest userId activeTasks :
  (forall s, String.length (generateHash s) = 32%nat) ->
  ~ is_digest (prioritizationKey userId activeTasks).
Proof.
  intros Hlen [prompt Heq]. apply (f_equal String.length) in Heq.
  unfold prioritizationKey in Heq.
  rewrite !length_append, !Hlen in Heq. simpl in Heq. lia.
Qed.

(** Two descriptions have the same key whenever their titles and
    summaries concatenate to the same text. *)
Example description_keys_shared :
  descriptionKey "ab" "c" = descriptionKey "a" "bc".
Proof. reflexivity. Qed.

(** X25.  The digest being 32 characters long, no feature changes what
    a lookup finds in the medium-term store under a description key or
    a prioritization key that is not the key of the call.  A lookup of
    a description key finds the same, at any time, after a prediction,
    title suggestions, a report, a prioritization, and a description
    whose own key is another one; a lookup of a prioritization key
    finds the same after a prediction, title suggestions, a report, a
    description, and a prioritization whose own key is another one. *)
Theorem stored_results_apart (w : world) (t : Z) :
  (forall s, String.length (generateHash s) = 32%nat) ->
  (forall title summary,
      let found c :=
        (CacheManager.get (descriptionKey title summary) t c).1 in
      (forall userId supplied taskTitle,
          found (mediumTermCache
                   (predictNextCategory userId supplied taskTitle w).2)
          = found (mediumTermCache w))
      /\ (forall prefix userId,
          found (mediumTermCache
                   (generateTitleSuggestions prefix userId w).2)
          = found (mediumTermCache w))
      /\ (forall tasks,
          found (mediumTermCache (generateCriticalTasksReport tasks w).2)
          = found (mediumTermCache w))
      /\ (forall userId userTasks,
          found (mediumTermCache
                   (generateTaskPrioritization userId userTasks w).2)
          = found (mediumTermCache w))
      /\ (forall title' summary' userId,
          descriptionKey title' (default EmptyString summary')
          <> descriptionKey title summary ->
          found (mediumTermCache
                   (generateTaskDescription title' summary' userId w).2)
          = found (mediumTermCache w)))
  /\ (forall u activeTasks,
      let found c :=
        (CacheManager.get (prioritizationKey u activeTasks) t c).1 in
      (forall userId supplied taskTitle,
          found (mediumTermCache
                   (predictNextCategory userId supplied taskTitle w).2)
          = found (mediumTermCache w))
      /\ (forall prefix userId,
          found (mediumTermCache
                   (generateTitleSuggestions prefix userId w).2)
          = found (mediumTermCache w))
      /\ (forall tasks,
          found (mediumTermCache (generateCriticalTasksReport tasks w).2)
          = found (mediumTermCache w))
      /\ (forall title summary userId,
          found (mediumTermCache
                   (generateTaskDescription title summary userId w).2)
          = found (mediumTermCache w))
      /\ (forall userId userTasks,
          prioritizationKey userId
            (List.filter is_active (default [] userTasks))
          <> prioritizationKey u activeTasks ->
          found (mediumTermCache
                   (generateTaskPrioritization userId userTasks w).2)
          = found (mediumTermCache w))).
Proof.
  intros Hlen. split.
  - intros title summary found. unfold found.
    pose proof (description_key_no_digest title summary Hlen) as Hd.
    split; [|split; [|split; [|split]]]; intros.
    + eapply get_same_outside; [apply prediction_medium_only | exact Hd].
    + eapply get_same_outside; [apply suggestions_medium_only | exact Hd].
    + eapply get_same_outside; [apply report_medium_only | exact Hd].
    + eapply get_same_outside; [apply prioritization_medium_only|].
      intros [Heq|Hdig]; [|exact (Hd Hdig)].
      exact (description_key_not_prioritization _ _ _ _ Heq).
    + eapply get_same_outside; [apply description_medium_only|].
      intros [Heq|Hdig]; [congruence | exact (Hd Hdig)].
  - intros u activeTasks found. unfold found.
    pose proof (prioritization_key_no_digest u activeTasks Hlen) as Hp.
    split; [|split; [|split; [|split]]]; intros.
    + eapply get_same_outside; [apply prediction_medium_only | exact Hp].
    + eapply get_same_outside; [apply suggestions_medium_only | exact Hp].
    + eapply get_same_outside; [apply report_medium_only | exact Hp].
    + eapply get_same_outside; [apply description_medium_only|].
      intros [Heq|Hdig]; [|exact (Hp Hdig)].
      symmetry in Heq.
      exact (description_key_not_prioritization _ _ _ _ Heq).
    + eapply get_same_outside; [apply prioritization_medium_only|].
      intros [Heq|Hdig]; [congruence | exact (Hp Hdig)].
Qed.

End MediumFootprints.

(** ** What becomes of the answer of the model *)

Section Answers.

Context {P : Platform}.

(** X26.  When nothing is cached for the call, the query for the user's
    tasks succeeds and the request returns a text with a bracketed part
    that parses as an array, [generateTitleSuggestions] returns the
    strings of that array in their order, the first five of them at
    most; the elements that are no strings are dropped and do not count
    among the five. *)
Theorem suggestions_from_array (prefix userId text m : string)
    (items : list jsval) (w : world) (tasks : list task) :
  short_prefix (Some prefix) = false ->
  short_miss (suggestionsKey userId prefix) w ->
  findMany (CreatedByOrAssignedTo userId 20) = Returned tasks ->
  let prompt := titlePrompt prefix (map title tasks) (categories_of tasks) in
  wrapper_miss prompt true w ->
  remote_returns prompt w (VStr text) ->
  Str.match_enclosed "["%char "]"%char text = Some m ->
  JSON_parse m = Returned (VArr items) ->
  (generateTitleSuggestions (Some prefix) userId w).1
  = Returned (VArr (firstn 5 (List.filter is_string items))).
Proof.
  intros Hp Hshort Hdb prompt Hmiss Hok Hmatch Hparse.
  rewrite (titles_miss _ _ _ Hp Hshort).
  unfold computeSuggestions. run_M. rewrite Hdb. fold prompt.
  rewrite (callGeminiAPI_on_success prompt true 300000 _ _ (VStr text));
    [|exact Hmiss | exact Hok].
  unfold suggestions_of, parse_suggestions. simpl.
  rewrite Hmatch, Hparse. reflexivity.
Qed.

(** X27.  For a title that is not empty and a history of five tasks or
    more of which some carry a category, when nothing is cached for the
    call and the request returns a text: if the text, trimmed, stripped
    of enclosing double quotes and of a final period, is one of the
    categories of the history, that category is predicted; if not, the
    first category of the history (in order of first occurrence) that
    contains it or is contained in it, case ignored, is predicted. *)
Theorem model_answer_accepted (userId : string)
    (supplied : option (list task)) (t text : string) (tasks : list task)
    (w : world) :
  history userId supplied = Returned tasks ->
  t <> EmptyString ->
  (5 <= length tasks)%nat ->
  categories_of tasks <> [] ->
  short_miss (predictionKey userId tasks (Some t)) w ->
  let categories := categories_of tasks in
  let categoryUsage :=
    foldl (fun o c => assign c (count_category c tasks) o) [] categories in
  let prompt :=
    categoryPrompt t categories (entries categoryUsage)
                   (recent_pairs tasks) in
  wrapper_miss prompt true w ->
  remote_returns prompt w (VStr text) ->
  let cleaned := clean_prediction text in
  (mem cleaned categories = true ->
   (predictNextCategory userId supplied (Some t) w).1
   = Returned (VStr cleaned))
  /\ (forall c,
         mem cleaned categories = false ->
         find_first (close_to cleaned) categories = Some c ->
         (predictNextCategory userId supplied (Some t) w).1
         = Returned (VStr c)).
Proof.
  intros Hh Ht Hlen Hcat Hshort categories categoryUsage prompt Hmiss Hok
    cleaned.
  assert (Hne : tasks <> []) by (destruct tasks; simpl in Hlen; [lia | easy]).
  rewrite (predict_miss _ _ _ _ _ Hh Hne Hshort).
  unfold after_miss, computePrediction.
  assert (Hgo : negb (Str.is_empty t) && (5 <=? length tasks)%nat = true).
  { apply andb_true_iff. split.
    - destruct t; [congruence | reflexivity].
    - now apply Nat.leb_le. }
  rewrite Hgo. unfold contextualPrediction.
  fold categories.
  assert (Hpos : (0 <? length categories)%nat = true).
  { apply Nat.ltb_lt. unfold categories.
    destruct (categories_of tasks); [congruence | simpl; lia]. }
  rewrite Hpos. cbv zeta. fold categoryUsage. fold prompt. run_M.
  rewrite (callGeminiAPI_on_success prompt true 300000 _ _ (VStr text));
    [|exact Hmiss | exact Hok].
  simpl. fold cleaned. split.
  - intros Hmem. rewrite Hmem. reflexivity.
  - intros c Hmem Hfind. rewrite Hmem, Hfind. reflexivity.
Qed.

Lemma userContext_pure userId w :
  exists recentTasks, userContext userId w = (Returned recentTasks, w).
Proof.
  unfold userContext. destruct userId as [u|]; [|now exists []].
  destruct (Str.is_empty u); [now exists []|]. run_M.
  destruct (findMany (CreatedBy u 3)) as [l|e]; [now exists l | now exists []].
Qed.

(** X28.  When nothing is cached for the call and the request returns a
    text, [generateTaskDescription] returns that text trimmed, stripped
    of the heading it may start with (Generated Description:, then
    Description:, then Task Description:) and trimmed again; and
    [generateCriticalTasksReport], when the prompt can be built, returns
    that text trimmed. *)
Theorem generated_text_cleaned (text : string) (w : world) :
  (forall title summary userId recentTasks,
      no_summary (Some summary) = false ->
      medium_miss (descriptionKey title summary) w ->
      userContext userId w = (Returned recentTasks, w) ->
      wrapper_miss (descriptionPrompt title summary recentTasks) true w ->
      remote_returns (descriptionPrompt title summary recentTasks) w
                     (VStr text) ->
      (generateTaskDescription title (Some summary) userId w).1
      = Returned (VStr (clean_description text)))
  /\ (forall tasks prompt,
      tasks <> [] ->
      report_prompt (now w) tasks = Returned prompt ->
      wrapper_miss prompt true w ->
      remote_returns prompt w (VStr text) ->
      (generateCriticalTasksReport (Some tasks) w).1
      = Returned (VStr (Str.trim text))).
Proof.
  split.
  - intros title summary userId recentTasks Hs Hmiss Hctx Hwm Hok.
    rewrite (description_miss _ _ _ _ Hs Hmiss).
    set (key := descriptionKey title summary).
    assert (Hctx0 : userContext userId (looked_medium key w)
                    = (Returned recentTasks, looked_medium key w)).
    { destruct (userContext_pure userId w) as [l Hl].
      destruct (userContext_pure userId (looked_medium key w)) as [l' Hl'].
      rewrite Hl'. f_equal. f_equal.
      assert (Heq : (userContext userId w).1
                    = (userContext userId (looked_medium key w)).1).
      { unfold userContext. destruct userId as [u|]; [|reflexivity].
        destruct (Str.is_empty u); [reflexivity|]. run_M.
        destruct (findMany (CreatedBy u 3)); reflexivity. }
      rewrite Hctx, Hl' in Heq. simpl in Heq. congruence. }
    unfold computeDescription, try_catch, bind at 1. rewrite Hctx0.
    run_M.
    rewrite (callGeminiAPI_on_success _ true 3600000 _ _ (VStr text));
      [| now apply wrapper_miss_looked_medium | exact Hok].
    reflexivity.
  - intros tasks prompt Hne Hprompt Hwm Hok.
    unfold generateCriticalTasksReport, generateCriticalTasksReport_body.
    destruct tasks as [|t0 rest]; [congruence|].
    run_M. rewrite Hprompt.
    rewrite (callGeminiAPI_on_success prompt true 3600000 _ _ (VStr text));
      [| exact Hwm | exact Hok].
    reflexivity.
Qed.

End Answers.

(** ** Worked instances of the further properties *)

(** Of two entries, the one deleted is gone and the other is found as
    before. *)
Lemma delete_forgets_witness :
  CacheManager.get "old" 10 (CacheManager.delete "old" Cases.two_entries)
  = (VNull, CacheManager.delete "old" Cases.two_entries)
  /\ (CacheManager.get "new" 10
        (CacheManager.delete "old" Cases.two_entries)).1
     = (CacheManager.get "new" 10 Cases.two_entries).1.
Proof.
  destruct (delete_forgets "old" "new" 10 Cases.two_entries) as [H1 H2].
  split; [exact H1 | apply H2; discriminate].
Defined.

(** A cleanup after two seconds: the entry of five seconds is found as
    before, the entry of one second is no longer in the map. *)
Lemma cleanup_transparent_witness :
  (CacheManager.get "new" 3000
     (CacheManager.cleanup 2000 Cases.two_entries)).1
  = (CacheManager.get "new" 3000 Cases.two_entries).1
  /\ CacheManager.has "old" (CacheManager.cleanup 2000 Cases.two_entries)
     = false.
Proof.
  split.
  - apply (cleanup_transparent 2000 3000 "new" Cases.two_entries). lia.
  - unfold CacheManager.has.
    destruct (CacheManager.cache
                (CacheManager.cleanup 2000 Cases.two_entries) !! "old")
      as [e|] eqn:He; [|reflexivity].
    destruct (cleanup_transparent 2000 2000 "old" Cases.two_entries)
      as [Hiff _]; [lia|].
    apply Hiff in He as [He Hle]. vm_compute in He.
    injection He as <-. simpl in Hle. lia.
Defined.

(** A cleanup after half a second changes nothing; a cleanup after nine
    seconds empties the store. *)
Lemma cleanup_extremes_witness :
  CacheManager.cleanup 500 Cases.two_entries = Cases.two_entries
  /\ CacheManager.cleanup 9000 Cases.two_entries
     = CacheManager.clear Cases.two_entries.
Proof.
  destruct (cleanup_extremes 500 Cases.two_entries) as [Hkeep _].
  destruct (cleanup_extremes 9000 Cases.two_entries) as [_ Hdrop].
  split; [apply Hkeep | apply Hdrop]; intros k e He;
    unfold Cases.two_entries, CacheManager.set in He; simpl in He;
    apply lookup_insert_Some in He as [[_ <-]|[_ He]]; try (simpl; lia);
    apply lookup_insert_Some in He as [[_ <-]|[_ He]]; try (simpl; lia);
    rewrite lookup_empty in He; discriminate.
Defined.

(** A second write under the key of the first, and a lookup of the other
    key. *)
Lemma set_overwrites_witness :
  CacheManager.set "old" (VStr "z") (Some 500) 100 Cases.two_entries
  = CacheManager.set "old" (VStr "z") (Some 500) 100
      (CacheManager.set "new" (VStr "y") (Some 5000) 0
         (CacheManager.new 3600000))
  /\ (CacheManager.get "new" 100
        (CacheManager.set "old" (VStr "z") (Some 500) 100
           Cases.two_entries)).1
     = (CacheManager.get "new" 100 Cases.two_entries).1.
Proof.
  split.
  - apply (set_overwrites "old" "new" (VStr "x") (VStr "z") (Some 1000)
             (Some 500) 0 100 0).
  - apply (set_overwrites "old" "new" (VStr "z") (VStr "z") (Some 500)
             (Some 500) 100 100 100). discriminate.
Defined.

(** The wrapper half a second after the endpoint has answered, and at
    start-up. *)
Lemma wrapper_hit_or_post_witness :
  callGeminiAPI (P := Scenario.prose) "prompt" true 1000 None
                (elapse 500 Scenario.answered.2)
  = (Returned (VStr "Sorry, no ideas."), elapse 500 Scenario.answered.2)
  /\ requests (callGeminiAPI (P := Scenario.prose) "prompt" true 1000 None
                             (boot 0)).2
     = 1%nat.
Proof.
  split.
  - apply (wrapper_hit_or_post (P := Scenario.prose) "prompt" 1000 None
             (elapse 500 Scenario.answered.2)).
    vm_compute. reflexivity.
  - apply (wrapper_hit_or_post (P := Scenario.prose) "prompt" 1000 None
             (boot 0)).
    vm_compute. reflexivity.
Defined.

(** The wrapper called with caching off, at start-up. *)
Lemma wrapper_frame_witness :
  shortTermCache
    (callGeminiAPI (P := Scenario.prose) "prompt" false 1000 None
                   (boot 0)).2
  = shortTermCache (boot 0)
  /\ mediumTermCache
       (callGeminiAPI (P := Scenario.prose) "prompt" false 1000 None
                      (boot 0)).2
     = mediumTermCache (boot 0).
Proof.
  destruct (wrapper_frame (P := Scenario.prose) "prompt" false 1000 None
              (boot 0)) as (Hshort & _ & Hoff & _).
  split; [exact Hshort | apply Hoff; reflexivity].
Defined.

(** The text that the endpoint gave at start-up, returned half a second
    later without a fallback, the script of the endpoint being used up. *)
Lemma wrapper_round_trip_witness :
  callGeminiAPI (P := Scenario.prose) "prompt" true 1000 None
                (elapse 500 Scenario.answered.2)
  = (Returned (VStr "Sorry, no ideas."), elapse 500 Scenario.answered.2).
Proof.
  apply (wrapper_round_trip (P := Scenario.prose) "prompt" 1000 500
           (Some Scenario.local_answer) None (boot 0)
           (VStr "Sorry, no ideas.")).
  - intros _. reflexivity.
  - reflexivity.
  - reflexivity.
  - unfold effective_ttl. simpl. lia.
Defined.

(** An empty text is stored, and the second call posts the second
    request. *)
Lemma wrapper_empty_text_witness :
  Cases.first_silent.1 = Returned (VStr EmptyString)
  /\ CacheManager.has "prompt" (mediumTermCache Cases.first_silent.2) = true
  /\ requests (callGeminiAPI (P := Cases.silent) "prompt" true 1000 None
                             (elapse 500 Cases.first_silent.2)).2
     = 2%nat.
Proof.
  destruct (wrapper_empty_text_not_served (P := Cases.silent) "prompt"
              1000 500 None None (boot 0))
    as (Hfirst & Hstored & Hagain);
    [intros _; reflexivity | reflexivity |].
  split; [unfold Cases.first_silent; now rewrite Hfirst|].
  split; [exact Hstored | exact Hagain].
Defined.

(** A prefix of two characters, a summary of three spaces, no task, a
    completed task and no list of tasks, the endpoint being ready to answer. *)
Lemma guarded_calls_witness :
  generateTitleSuggestions (P := Scenario.prose) (Some "up") "u1" (boot 0)
  = (Returned (VArr []), boot 0)
  /\ generateTaskDescription (P := Scenario.prose) "Report" (Some "   ")
                             None (boot 0)
     = (Returned VNull, boot 0)
  /\ generateTaskPrioritization (P := Scenario.prose) "u1" (Some [])
                                (boot 0)
     = (Returned (no_tasks "No tasks found to prioritize."), boot 0)
  /\ generateTaskPrioritization (P := Scenario.prose) "u1"
                                (Some [Cases.done_task "1"]) (boot 0)
     = (Returned (no_tasks "No active tasks found to prioritize."), boot 0)
  /\ generateCriticalTasksReport (P := Scenario.prose) None (boot 0)
     = (Returned (VStr "No tasks found for analysis."), boot 0).
Proof.
  destruct (guarded_calls_touch_nothing (P := Scenario.prose) (boot 0))
    as (Htitles & Hdescription & Hnone & Hidle & Hreport).
  split; [apply Htitles; reflexivity|].
  split; [apply Hdescription; reflexivity|].
  split; [apply Hnone; reflexivity|].
  split; [apply Hidle; [discriminate | reflexivity]|].
  apply Hreport. reflexivity.
Defined.

(** Title suggestions with the endpoint and the database down. *)
Lemma suggestions_at_most_five_witness :
  exists l w',
    generateTitleSuggestions (P := Scenario.offline) (Some "upd") "u1"
                             (boot 0)
    = (Returned (VArr l), w')
    /\ (length l <= 5)%nat
    /\ Forall (fun v => is_string v = true) l.
Proof.
  apply (suggestions_at_most_five (P := Scenario.offline) "upd" "u1"
           (boot 0)); reflexivity.
Defined.

(** A description with the endpoint down and a failing fallback. *)
Lemma description_never_null_witness :
  exists r w',
    generateTaskDescription (P := Scenario.offline) "Report"
                            (Some "Write it.") None (boot 0)
    = (Returned r, w')
    /\ r <> VNull /\ r <> VUndefined /\ is_string r = true.
Proof.
  destruct (description_never_null (P := Scenario.offline) "Report"
              "Write it." None (boot 0))
    as (r & w' & Hr & Hnull & Hundef & Hstr); [reflexivity|].
  exists r, w'. split; [exact Hr|]. split; [exact Hnull|].
  split; [exact Hundef|]. apply Hstr. reflexivity.
Defined.

(** A task of low priority with its creator and a task of high priority
    without: the report is refused though the endpoint would answer. *)
Lemma report_needs_creators_witness :
  generateCriticalTasksReport (P := Scenario.prose)
    (Some [Scenario.due_task "1" LOW None; Scenario.orphan_task "2" HIGH])
    (boot 0)
  = (Returned (VStr "Error generating report. Please try again later."),
     boot 0).
Proof.
  apply (report_needs_creators (P := Scenario.prose) _
           (Scenario.orphan_task "2" HIGH)).
  - right. now left.
  - reflexivity.
  - reflexivity.
Defined.

(** On day 10, the task due on day 7 comes before the task due on day 9:
    three days and one day overdue. *)
Lemma overdue_rows_witness :
  exists rows,
    overdueTasksData (P := Scenario.prose) (10 * Scenario.day)
                     Cases.overdue_tasks
    = Returned rows
    /\ map days_overdue rows = [3; 1]
    /\ StronglySorted (fun r1 r2 => days_overdue r2 <= days_overdue r1)
                      rows.
Proof.
  eexists. split; [vm_compute; reflexivity|].
  split; [reflexivity|].
  apply (overdue_rows_most_overdue_first (P := Scenario.prose)
           (10 * Scenario.day) Cases.overdue_tasks).
  vm_compute. reflexivity.
Defined.

(** The message of the model replaces the fixed message. *)
Lemma prioritization_members_witness :
  exists result,
    (generateTaskPrioritization (P := Cases.advising) "u1"
       (Some [Scenario.due_task "1" MEDIUM None]) (boot 0)).1
    = Returned (VObj result)
    /\ assoc "message" result = VStr "Start with the report.".
Proof.
  edestruct (prioritization_passes_members (P := Cases.advising) "u1"
               [Scenario.due_task "1" MEDIUM None] (boot 0))
    as (result & Hres & Hmembers & _).
  - discriminate.
  - reflexivity.
  - vm_compute. reflexivity.
  - vm_compute. reflexivity.
  - apply NoDup_singleton.
  - exists result. split; [exact Hres|].
    rewrite (Hmembers "message") by now left. reflexivity.
Defined.

(** With a digest of 32 characters, the digest of a prompt is neither a
    description key nor a prioritization key. *)
Lemma feature_keys_disjoint_witness :
  @generateHash Cases.digesting "write the description"
  <> descriptionKey (P := Cases.digesting) "Report" "Write it."
  /\ @generateHash Cases.digesting "prioritize"
     <> prioritizationKey (P := Cases.digesting) "u1"
          [Scenario.due_task "1" MEDIUM None].
Proof.
  destruct (feature_keys_disjoint (P := Cases.digesting)) as (_ & _ & H).
  assert (Hlen : forall s,
             String.length (@generateHash Cases.digesting s) = 32%nat)
    by (intros s; reflexivity).
  split.
  - apply (H Hlen "write the description" "Report" "Write it." "u1" []).
  - apply (H Hlen "prioritize" "Report" "Write it." "u1"
             [Scenario.due_task "1" MEDIUM None]).
Defined.

(** A prediction at start-up changes the short-term store under its own
    key only. *)
Lemma short_store_footprint_witness :
  same_elsewhere
    (predictionKey (P := Scenario.prose) "u1"
                   (Scenario.filed_under (Some "Work")) None)
    (shortTermCache (boot 0))
    (shortTermCache
       (predictNextCategory (P := Scenario.prose) "u1"
          (Some (Scenario.filed_under (Some "Work"))) None (boot 0)).2).
Proof.
  destruct (short_store_footprint (P := Scenario.prose) (boot 0))
    as [Hpredict _].
  apply Hpredict. reflexivity.
Defined.

(** The title route for a prefix of two and of three characters, and
    the category route, with the endpoint and the database down. *)
Lemma ai_routes_witness :
  suggestTitle (P := Scenario.offline) (Some "up") "u1" (boot 0)
  = (Returned (refused "Prefix must be at least 3 characters long"), boot 0)
  /\ (exists suggestions w',
        suggestTitle (P := Scenario.offline) (Some "upd") "u1" (boot 0)
        = (Returned (ok (VObj [("suggestions", suggestions)])), w'))
  /\ (exists predictedCategory w',
        predictCategory (P := Scenario.offline) None "u1" (boot 0)
        = (Returned (ok (VObj [("predictedCategory", predictedCategory)])),
           w')).
Proof.
  destruct (ai_routes_status (P := Scenario.offline) (boot 0))
    as (Htitle & Hcategory & _).
  split; [apply (Htitle (Some "up") "u1"); reflexivity|].
  split.
  - destruct (Htitle (Some "upd") "u1") as [_ H].
    destruct (H eq_refl) as (s & w' & _ & Hs). now exists s, w'.
  - destruct (Hcategory None "u1") as (c & w' & _ & Hc). now exists c, w'.
Defined.

(** The endpoint answers with an empty text: the description route
    answers 400. *)
Lemma description_route_witness :
  exists r w',
    generateDescription (P := Cases.silent) [] "Report" "Write it." "u1"
                        (boot 0)
    = (Returned r, w')
    /\ statusCode r = 400.
Proof.
  destruct (description_route_refuses (P := Cases.silent) "Report"
              "Write it." "u1" (boot 0))
    as (d & r & w' & Hd & Hr & Hiff & _).
  exists r, w'. split; [exact Hr|].
  apply Hiff. right. vm_compute in Hd. now injection Hd as <- _.
Defined.

(** For the history C, A, B, A, B (newest first), A and B are used twice
    each and A, met first, is predicted. *)
Lemma statistical_tie_break_witness :
  (statisticalPrediction "key" Cases.tied_tasks (boot 0)).1
  = Returned (VStr "A").
Proof.
  apply (statistical_tie_break "key" Cases.tied_tasks (boot 0) "A"
           ["C"] ["B"; "A"; "B"]).
  - intros c [next [rest [Heq Hcount]]].
    vm_compute in Heq. injection Heq as <- <- <-.
    vm_compute in Hcount. lia.
  - reflexivity.
  - intros c' Hin. simpl in Hin.
    repeat (destruct Hin as [<-|Hin]; [split; reflexivity|]).
    contradiction.
  - intros c' Hin. simpl in Hin.
    repeat (destruct Hin as [<-|Hin]; [vm_compute; reflexivity|]).
    contradiction.
  - intros c' Hin. simpl in Hin.
    repeat (destruct Hin as [<-|Hin]; [vm_compute; discriminate|]).
    contradiction.
Defined.

(** A history of three tasks and a title: the prediction posts no
    request. *)
Lemma short_history_witness :
  requests
    (predictNextCategory (P := Scenario.prose) "u1"
       (Some Scenario.recent_aab) (Some "Write the report") (boot 0)).2
  = 0%nat
  /\ mediumTermCache
       (predictNextCategory (P := Scenario.prose) "u1"
          (Some Scenario.recent_aab) (Some "Write the report") (boot 0)).2
     = mediumTermCache (boot 0).
Proof.
  apply (short_history_predicts_locally (P := Scenario.prose) "u1"
           (Some Scenario.recent_aab) (Some "Write the report")
           Scenario.recent_aab (boot 0)).
  - reflexivity.
  - left. simpl. lia.
Defined.

(** The suggestions computed at start-up are served five minutes later,
    and no longer a millisecond after that. *)
Lemma computed_results_witness :
  generateTitleSuggestions (P := Scenario.prose) (Some "upd") "u1"
                           (elapse 300000 Scenario.suggested.2)
  = (Returned (VArr []), elapse 300000 Scenario.suggested.2)
  /\ short_miss (suggestionsKey "u1" "upd")
                (elapse 300001 Scenario.suggested.2).
Proof.
  assert (Hbody : generateTitleSuggestions_body (P := Scenario.prose)
                    (Some "upd") "u1" (boot 0)
                  = (Returned (VArr []), Scenario.suggested.2))
    by (vm_compute; reflexivity).
  destruct (computed_results_expire (P := Scenario.prose) (boot 0)
              Scenario.suggested.2 (VArr []) 300000)
    as (_ & Hserved & _).
  destruct (computed_results_expire (P := Scenario.prose) (boot 0)
              Scenario.suggested.2 (VArr []) 300001)
    as (_ & Hgone & _).
  split.
  - refine (proj1 (Hserved "upd" "u1" eq_refl eq_refl Hbody) _). lia.
  - refine (proj2 (Hgone "upd" "u1" eq_refl eq_refl Hbody) _). lia.
Defined.

(** After a prioritization that stored its result and the text of the
    response, a lookup of a description key finds what it found
    before. *)
Lemma stored_results_apart_witness :
  CacheManager.has
    (prioritizationKey (P := Cases.digesting) "u1"
                       [Scenario.due_task "1" MEDIUM None])
    (mediumTermCache Cases.after_prioritization) = true
  /\ (CacheManager.get
        (descriptionKey (P := Cases.digesting) "Report" "Write it.") 1000
        (mediumTermCache Cases.after_prioritization)).1
     = (CacheManager.get
          (descriptionKey (P := Cases.digesting) "Report" "Write it.") 1000
          (mediumTermCache (boot 0))).1.
Proof.
  split; [vm_compute; reflexivity|].
  destruct (stored_results_apart (P := Cases.digesting) (boot 0) 1000)
    as [Hdescription _]; [intros s; reflexivity|].
  destruct (Hdescription "Report" "Write it.") as (_ & _ & _ & H & _).
  exact (H "u1" (Some [Scenario.due_task "1" MEDIUM None])).
Defined.

(** The array of a string, a number and a string: the two strings are
    suggested. *)
Lemma suggestions_from_array_witness :
  (generateTitleSuggestions (P := Cases.listing) (Some "upd") "u1"
                            (boot 0)).1
  = Returned (VArr [VStr "Update the report"; VStr "Update the site"]).
Proof.
  apply (suggestions_from_array (P := Cases.listing) "upd" "u1"
           Cases.titles Cases.titles
           [VStr "Update the report"; VNum 7; VStr "Update the site"]
           (boot 0) []).
  - reflexivity.
  - reflexivity.
  - reflexivity.
  - intros _. reflexivity.
  - reflexivity.
  - vm_compute. reflexivity.
  - vm_compute. reflexivity.
Defined.

(** For the history B, A, A, C, C, C: the answer A with a period is
    taken for the category A, and so is a phrase that holds its name,
    though C is the most used category. *)
Lemma model_answer_witness :
  (predictNextCategory (P := Cases.naming) "u1" (Some Scenario.six_tasks)
                       (Some "Plan the sprint") (boot 0)).1
  = Returned (VStr "A")
  /\ (predictNextCategory (P := Cases.paraphrasing) "u1"
                          (Some Scenario.six_tasks)
                          (Some "Plan the sprint") (boot 0)).1
     = Returned (VStr "A").
Proof.
  split.
  - destruct (model_answer_accepted (P := Cases.naming) "u1"
                (Some Scenario.six_tasks) "Plan the sprint" " A."
                Scenario.six_tasks (boot 0)) as [Hexact _];
      [ reflexivity | discriminate | simpl; lia | vm_compute; discriminate
      | reflexivity | intros _; reflexivity | reflexivity | ].
    apply Hexact. reflexivity.
  - destruct (model_answer_accepted (P := Cases.paraphrasing) "u1"
                (Some Scenario.six_tasks) "Plan the sprint" "category a"
                Scenario.six_tasks (boot 0)) as [_ Hclose];
      [ reflexivity | discriminate | simpl; lia | vm_compute; discriminate
      | reflexivity | intros _; reflexivity | reflexivity | ].
    apply Hclose; reflexivity.
Defined.

(** A description under a heading, and a report that is a sentence. *)
Lemma generated_text_witness :
  (generateTaskDescription (P := Cases.headed) "Report" (Some "Write it.")
                           None (boot 0)).1
  = Returned (VStr "Write the report.")
  /\ (generateCriticalTasksReport (P := Scenario.prose)
        (Some [Scenario.due_task "1" HIGH None]) (boot 0)).1
     = Returned (VStr "Sorry, no ideas.").
Proof.
  split.
  - destruct (generated_text_cleaned (P := Cases.headed)
                "Description: Write the report. " (boot 0)) as [H _].
    apply (H "Report" "Write it." None []); try reflexivity.
    intros _. reflexivity.
  - destruct (generated_text_cleaned (P := Scenario.prose)
                "Sorry, no ideas." (boot 0)) as [_ H].
    apply (H [Scenario.due_task "1" HIGH None] "write the report");
      try reflexivity; try discriminate.
    intros _. reflexivity.
Defined.
